(** * Face-Recognition-Attendance: the attendance core, the face gallery and
    the liveness gate, embedded from the Python sources.

    Definitions:
    - [Attendance] embeds [attendance_manager.py] (class [AttendanceManager]);
    - [FaceUtils] embeds [face_utils.py] (class [FaceUtils]);
    - [Liveness] embeds [liveness_detection.py] (class [LivenessDetector]);
    - [Registry] and [Reports] embed the rest of [attendance_manager.py]
      (the employee registry, the reports and listings) and the manual page
      of [app.py];
    - [Gallery] embeds [FaceUtils.load_known_faces];
    - [Blinks] names the readings of the blink counter;
    - [Auth] embeds [auth_manager.py] (class [AuthManager]).

    Properties: [AttendanceProps], [FaceUtilsProps], [LivenessProps], then
    [LedgerProps], [CallProps], [StatusProps], [RegistryProps],
    [ReportsProps], [GalleryProps], [BlinksProps], [AuthProps].

    Conventions shared by the three embeddings.

    A method reads and updates [self]: it is a function from the object's
    state to a result and the new state. A call that may raise returns an
    [outcome]. What the code gets from pandas' files, from the clock and
    from the vision libraries is an argument or a field of the state.

    Python [float]s are IEEE binary64 numbers; they are modelled by Rocq's
    primitive floats wherever the code's result depends on float rounding
    ([round(total_hours, 2)], the eye aspect ratio, [time.time()]).

    [datetime] values are modelled as an integer number of microseconds
    since the epoch, which is exactly their resolution. *)

From Stdlib Require Import ZArith List String Ascii Lia Bool.
From Stdlib Require Import Floats.PrimFloat Floats.FloatOps Floats.SpecFloat.
From Stdlib Require Import Numbers.Cyclic.Int63.Uint63.
From stdpp Require Import gmap strings list pretty.

Import ListNotations.
Local Open Scope string_scope.
Local Open Scope Z_scope.

(* Decimal float literals such as 0.3 denote the nearest binary64 number,
   as they do in Python. *)
Set Warnings "-inexact-float".

(** ** Python floats *)

Module PyFloat.

(** [float(n)] for a Python int with [|n| < 2^53] (every such int is a
    binary64 value, so the conversion is exact). *)
Definition of_int (n : Z) : float :=
  if n <? 0 then PrimFloat.opp (PrimFloat.of_uint63 (Uint63.of_Z (- n)))
  else PrimFloat.of_uint63 (Uint63.of_Z n).

(** Nearest integer to [num / 2^p], ties to the even one ([0 < p]): the
    quotient is [num] shifted right by [p] bits and the remainder, the low
    [p] bits, is compared with the half [2^(p-1)]. *)
Definition round_half_even (num p : Z) : Z :=
  let q := Z.shiftr num p in
  let r := Z.land num (Z.ones p) in
  match Z.compare r (Z.shiftl 1 (p - 1)) with
  | Lt => q
  | Gt => q + 1
  | Eq => if Z.even q then q else q + 1
  end.

(** The integer [n] such that the decimal string produced by correctly
    rounding the exact binary value [(-1)^s * m * 2^e] to two digits after
    the point reads [n / 100]. *)
Definition hundredths_sf (x : spec_float) : Z :=
  match x with
  | S754_finite s m e =>
      let n := match e with
               | Zneg p => round_half_even (100 * Zpos m) (Zpos p)
               | _ => 100 * Zpos m * 2 ^ e
               end in
      if s then - n else n
  | _ => 0
  end.

Definition hundredths (x : float) : Z := hundredths_sf (Prim2SF x).

(** The binary64 number nearest to the decimal [n / 100]: what parsing the
    two-digit decimal string gives back. Both [n] and [100] are binary64
    values and IEEE division rounds correctly, so this is one division. *)
Definition of_hundredths (n : Z) : float :=
  PrimFloat.div (of_int n) (of_int 100).

(** [round(x, 2)]. CPython prints [x] with two correctly rounded decimals
    (round-half-even on the exact binary value) and parses the string
    again. A binary64 number with a non-negative exponent is an integer and
    comes back unchanged, as do zeros, infinities and NaN. (For
    [|x| >= 2^46] the integer [hundredths x] may exceed [2^53]; the model
    is meant below that bound, where [of_hundredths] is exact.) *)
Definition round2 (x : float) : float :=
  match Prim2SF x with
  | S754_finite _ _ (Zneg _) => of_hundredths (hundredths x)
  | _ => x
  end.

End PyFloat.

(** ** Calls that may raise *)

(** A call returns a value or raises an exception (its message). *)
Inductive outcome (A : Type) :=
| Ret (a : A)
| Raise (exn : string).
Arguments Ret {A} a.
Arguments Raise {A} exn.

#[global] Instance outcome_ret : MRet outcome := fun A a => Ret a.

#[global] Instance outcome_bind : MBind outcome := fun A B f o =>
  match o with
  | Ret a => f a
  | Raise exn => Raise exn
  end.

(** ** attendance_manager.py *)

Module Attendance.

(** *** Time

    [datetime.now()] is a count of microseconds. A call reads the clock
    several times within a few microseconds; the model gives every read of
    one call the same instant [now]. [strftime("%Y-%m-%d")] is represented
    by the day number and [strftime("%H:%M:%S")] by the second of the day
    (the strings are in bijection with these numbers and are only compared
    for equality, parsed back, or printed).

    A duration is a binary64 number of seconds or minutes in the code
    ([total_seconds()], then a division by 60). The model keeps it as the
    exact number of microseconds and takes [<] and [int(...)] on that. The
    two agree: a duration is a whole number of microseconds, so it is a
    whole number of seconds (minutes), which binary64 computes exactly, or
    it is at least [1e-6] ([1.6e-8]) away from one, far more than the
    rounding error of the divisions for durations up to a day. *)

Definition US_PER_SECOND : Z := 1000000.
Definition US_PER_MINUTE : Z := 60 * US_PER_SECOND.
Definition US_PER_DAY : Z := 86400 * US_PER_SECOND.

Definition date_of (now : Z) : Z := now / US_PER_DAY.
Definition time_of (now : Z) : Z := (now mod US_PER_DAY) / US_PER_SECOND.

(** [datetime.strptime(f"{date} {time_str}", "%Y-%m-%d %H:%M:%S")] *)
Definition strptime (date time_str : Z) : Z :=
  date * US_PER_DAY + time_str * US_PER_SECOND.

(** The clock face [h:m:s] as a second of the day. *)
Definition hms (h m s : Z) : Z := h * 3600 + m * 60 + s.

(** [int(x)] for a quantity [us / unit] held exactly: truncation toward zero. *)
Definition int_of (us unit : Z) : Z := Z.quot us unit.

(** *** Data *)

Record Employee := mkEmployee {
  emp_name : string;
  emp_department : string;
  emp_position : string;
  emp_registration_date : Z
}.

(** One line of a daily ledger [attendance_<date>.csv]. [Check_Out] is
    [None] for the empty cell (read back as NaN and refilled with the empty
    string by the code). *)
Record Row := mkRow {
  Employee_ID : string;
  Name : string;
  Department : string;
  Position : string;
  Date : Z;
  Check_In : Z;
  Check_Out : option Z;
  Total_Hours : float;
  Status : string
}.

(** The manager: [self.employees] (a dict, in insertion order; a key is
    read at its first entry), [self.last_processed], and the files of
    [self.attendance_dir], one ledger per date. Reading and writing the files is taken to succeed and
    to give back the rows that were written; in particular an employee id
    is taken to come back from the CSV file as the string it was (pandas
    reads a column of all-digit ids back as numbers). *)
Record Manager := mkManager {
  employees : list (string * Employee);
  last_processed : gmap string Z;
  ledgers : gmap Z (list Row)
}.

Definition COOLDOWN_SECONDS : Z := 60.
Definition MIN_CHECKOUT_MINUTES : Z := 60.

Definition set_ledgers (m : Manager) (l : gmap Z (list Row)) : Manager :=
  {| employees := employees m; last_processed := last_processed m; ledgers := l |}.

Definition set_last_processed (m : Manager) (lp : gmap string Z) : Manager :=
  {| employees := employees m; last_processed := lp; ledgers := ledgers m |}.

Inductive status_code := SUCCESS | INFO | ERROR.

(** The f-strings of the result messages, with the values they interpolate. *)
Inductive message :=
| MsgCooldown (seconds : Z)
| MsgCompletedToday (name : string) (last_check_out : Z)
| MsgAlreadyCheckedIn (name : string) (check_in_time : Z)
| MsgCheckOutFirst (name : string)
| MsgCompleted (name : string)
| MsgNotCheckedInToday (name : string)
| MsgMustWait (minutes minimum : Z)
| MsgInvalidMode (mode : string)
| MsgFailedToRecord (error : string)
| MsgCheckedIn (name : string)
| MsgNotCheckedIn (name : string)
| MsgTooEarly (minimum elapsed : Z)
| MsgCheckedOut (name : string) (elapsed : Z)
| MsgEmployeeNotFound
| MsgInvalidAction.

Record result := mkResult { status : status_code; msg : message }.

(** [get_current_status]'s dict. [elapsed_us] holds [elapsed_minutes]
    exactly, in microseconds. *)
Record CurrentStatus := mkStatus {
  is_checked_in : bool;
  check_in_time : option Z;
  elapsed_us : Z;
  record_index : option nat;
  has_incomplete_record : bool;
  already_checked_in_today : bool;
  last_check_out : option Z
}.

(** *** Rendering of the messages *)

Definition two_digits (n : Z) : string :=
  String (ascii_of_N (Z.to_N (48 + n / 10)))
    (String (ascii_of_N (Z.to_N (48 + n mod 10))) "").

(** [strftime("%H:%M:%S")] of a second of the day. *)
Definition clock (t : Z) : string :=
  two_digits (t / 3600) ++ ":" ++ two_digits (t mod 3600 / 60) ++ ":"
  ++ two_digits (t mod 60).

Definition render (m : message) : string :=
  match m with
  | MsgCooldown n =>
      "⏳ Please wait " ++ pretty n ++ " seconds before trying again"
  | MsgCompletedToday name t =>
      "❌ " ++ name ++ " has already completed attendance for today (Last check-out: "
      ++ clock t ++ ")"
  | MsgAlreadyCheckedIn name t =>
      "✅ " ++ name ++ " already checked in at " ++ clock t
  | MsgCheckOutFirst name =>
      "❌ " ++ name ++ " must check out from previous session first"
  | MsgCompleted name =>
      "❌ " ++ name ++ " has already completed attendance for today"
  | MsgNotCheckedInToday name =>
      "❌ " ++ name ++ " has not checked in today"
  | MsgMustWait n minimum =>
      "⏳ Must wait " ++ pretty n ++ " minutes before check-out (Minimum "
      ++ pretty minimum ++ " minutes required)"
  | MsgInvalidMode mode =>
      "❌ Invalid mode: " ++ mode ++ ". Must be CHECK_IN or CHECK_OUT"
  | MsgFailedToRecord e => "❌ Failed to record attendance: " ++ e
  | MsgCheckedIn name => "✅ Successfully checked in " ++ name
  | MsgNotCheckedIn name => name ++ " is not checked in"
  | MsgTooEarly minimum elapsed =>
      "Cannot check out before " ++ pretty minimum
      ++ " minutes. Time elapsed: " ++ pretty elapsed ++ " minutes"
  | MsgCheckedOut name elapsed =>
      "Successfully checked out " ++ name ++ " after " ++ pretty elapsed
      ++ " minutes"
  | MsgEmployeeNotFound => "Employee not found"
  | MsgInvalidAction => "Invalid action"
  end.

(** *** The employee registry *)

(** [self.employees.get(emp_id, {})]; [None] is the empty dict. *)
Fixpoint get_employee_details (emps : list (string * Employee)) (emp_id : string)
  : option Employee :=
  match emps with
  | [] => None
  | (k, e) :: rest =>
      if String.eqb k emp_id then Some e else get_employee_details rest emp_id
  end.

(** The first entry, in the dict's order, whose name is [name], together
    with its key; [None] is the empty dict. *)
Fixpoint get_employee_by_name (emps : list (string * Employee)) (name : string)
  : option (string * Employee) :=
  match emps with
  | [] => None
  | (k, e) :: rest =>
      if String.eqb (emp_name e) name then Some (k, e)
      else get_employee_by_name rest name
  end.

(** *** Status derivation *)

(** Returns the ledger of [date], creating an empty one if there is none. *)
Definition _ensure_attendance_file (date : Z) (files : gmap Z (list Row))
  : list Row * gmap Z (list Row) :=
  match files !! date with
  | Some df => (df, files)
  | None => ([], <[date := []]> files)
  end.

(** [(current_time - given_time).total_seconds() / 60], exactly, in
    microseconds. *)
Definition _calculate_elapsed_minutes (now date time_str : Z) : Z :=
  now - strptime date time_str.

(** A data frame read from a ledger carries the positions [0, 1, ...] as its
    index labels; filtering keeps the labels. *)
Definition indexed (df : list Row) : list (nat * Row) :=
  combine (seq 0 (length df)) df.

Definition for_employee (emp_id : string) (ir : nat * Row) : bool :=
  String.eqb (Employee_ID (snd ir)) emp_id.

Definition is_completed (ir : nat * Row) : bool :=
  match Check_Out (snd ir) with Some _ => true | None => false end.

Definition no_record : CurrentStatus :=
  {| is_checked_in := false; check_in_time := None; elapsed_us := 0;
     record_index := None; has_incomplete_record := false;
     already_checked_in_today := false; last_check_out := None |}.

Definition status_of_ledger (df : list Row) (emp_id : string) (now : Z)
  : CurrentStatus :=
  let emp_records := List.filter (for_employee emp_id) (indexed df) in
  match last emp_records with
  | None => no_record
  | Some latest_record =>
      let completed_records := List.filter is_completed emp_records in
      match last completed_records with
      | Some last_completed =>
          {| is_checked_in := false; check_in_time := None; elapsed_us := 0;
             record_index := None; has_incomplete_record := false;
             already_checked_in_today := true;
             last_check_out := Check_Out (snd last_completed) |}
      | None =>
          match Check_Out (snd latest_record) with
          | None =>
              {| is_checked_in := true;
                 check_in_time := Some (Check_In (snd latest_record));
                 elapsed_us :=
                   _calculate_elapsed_minutes now (date_of now)
                     (Check_In (snd latest_record));
                 record_index := Some (fst latest_record);
                 has_incomplete_record := true;
                 already_checked_in_today := false;
                 last_check_out := None |}
          | Some _ => no_record
          end
      end
  end.

Definition get_current_status (m : Manager) (emp_id : string) (now : Z)
  : CurrentStatus * Manager :=
  let '(df, files) := _ensure_attendance_file (date_of now) (ledgers m) in
  (status_of_ledger df emp_id now, set_ledgers m files).

(** [status["elapsed_minutes"] < self.MIN_CHECKOUT_MINUTES] *)
Definition below_minimum (st : CurrentStatus) : bool :=
  elapsed_us st <? MIN_CHECKOUT_MINUTES * US_PER_MINUTE.

(** [int(status["elapsed_minutes"])] *)
Definition elapsed_whole_minutes (st : CurrentStatus) : Z :=
  int_of (elapsed_us st) US_PER_MINUTE.

(** *** Check-in and check-out *)

Definition new_record (emp_id : string) (e : Employee) (now : Z) : Row :=
  {| Employee_ID := emp_id; Name := emp_name e;
     Department := emp_department e; Position := emp_position e;
     Date := date_of now; Check_In := time_of now; Check_Out := None;
     Total_Hours := 0%float; Status := "Present" |}.

Definition _process_check_in (m : Manager) (emp_id : string) (now : Z)
  : outcome result * Manager :=
  let emp_details := get_employee_details (employees m) emp_id in
  let '(st, m1) := get_current_status m emp_id now in
  if is_checked_in st || has_incomplete_record st then
    match emp_details with
    | Some e => (Ret (mkResult ERROR (MsgCheckOutFirst (emp_name e))), m1)
    | None => (Raise "KeyError: 'name'", m1)
    end
  else
    match emp_details with
    | None => (Ret (mkResult ERROR (MsgFailedToRecord "'name'")), m1)
    | Some e =>
        let df := default [] (ledgers m1 !! date_of now) in
        let df' := (df ++ [new_record emp_id e now])%list in
        (Ret (mkResult SUCCESS (MsgCheckedIn (emp_name e))),
         set_ledgers m1 (<[date_of now := df']> (ledgers m1)))
    end.

(** [(check_out_time - check_in_time).total_seconds() / 3600]; both times
    are whole seconds of the same date. *)
Definition hours_between (check_in check_out : Z) : float :=
  PrimFloat.div (PyFloat.of_int (check_out - check_in)) (PyFloat.of_int 3600).

Definition close_record (time : Z) (total_hours : float) (r : Row) : Row :=
  {| Employee_ID := Employee_ID r; Name := Name r; Department := Department r;
     Position := Position r; Date := Date r; Check_In := Check_In r;
     Check_Out := Some time; Total_Hours := total_hours; Status := Status r |}.

Definition _process_check_out (m : Manager) (emp_id : string) (now : Z)
  : outcome result * Manager :=
  let time := time_of now in
  let emp_details := get_employee_details (employees m) emp_id in
  let '(st, m1) := get_current_status m emp_id now in
  if negb (is_checked_in st) then
    match emp_details with
    | Some e => (Ret (mkResult ERROR (MsgNotCheckedIn (emp_name e))), m1)
    | None => (Raise "KeyError: 'name'", m1)
    end
  else if below_minimum st then
    (Ret (mkResult ERROR
            (MsgTooEarly MIN_CHECKOUT_MINUTES (elapsed_whole_minutes st))), m1)
  else
    match record_index st, check_in_time st with
    | Some i, Some check_in =>
        let df := default [] (ledgers m1 !! date_of now) in
        let total_hours := hours_between check_in time in
        let df' := alter (close_record time (PyFloat.round2 total_hours)) i df in
        let m2 := set_ledgers m1 (<[date_of now := df']> (ledgers m1)) in
        match emp_details with
        | Some e =>
            (Ret (mkResult SUCCESS
                    (MsgCheckedOut (emp_name e) (elapsed_whole_minutes st))), m2)
        | None => (Raise "KeyError: 'name'", m2)
        end
    | _, _ =>
        (* not reached: a checked-in status carries both *)
        (Raise "TypeError", m1)
    end.

Definition manual_attendance (m : Manager) (emp_id action : string) (now : Z)
  : outcome result * Manager :=
  match get_employee_details (employees m) emp_id with
  | None => (Ret (mkResult ERROR MsgEmployeeNotFound), m)
  | Some _ =>
      if String.eqb action "CHECK_IN" then _process_check_in m emp_id now
      else if String.eqb action "CHECK_OUT" then _process_check_out m emp_id now
      else (Ret (mkResult ERROR MsgInvalidAction), m)
  end.

(** *** Recognition-driven attendance *)

(** [str.upper] on ASCII letters. *)
Definition upper_ascii (c : ascii) : ascii :=
  let n := N_of_ascii c in
  if ((97 <=? n) && (n <=? 122))%N then ascii_of_N (n - 32) else c.

Fixpoint upper (s : string) : string :=
  match s with
  | EmptyString => EmptyString
  | String c rest => String (upper_ascii c) (upper rest)
  end.

(** [int(self.COOLDOWN_SECONDS - time_since_last)] with
    [time_since_last] held exactly, in microseconds. *)
Definition cooldown_remaining (time_since_last : Z) : Z :=
  int_of (COOLDOWN_SECONDS * US_PER_SECOND - time_since_last) US_PER_SECOND.

(** The cooldown test at the head of the loop body: [Some] remaining
    seconds when the employee is throttled. *)
Definition cooldown_check (m : Manager) (emp_id : string) (now : Z) : option Z :=
  match last_processed m !! emp_id with
  | Some last =>
      let time_since_last := now - last in
      if time_since_last <? COOLDOWN_SECONDS * US_PER_SECOND
      then Some (cooldown_remaining time_since_last)
      else None
  | None => None
  end.

Definition record_success (m : Manager) (emp_id : string) (now : Z)
  (r : outcome result) : Manager :=
  match r with
  | Ret {| status := SUCCESS |} =>
      set_last_processed m (<[emp_id := now]> (last_processed m))
  | _ => m
  end.

(** The body of the loop for an employee that passed the cooldown test;
    [mode] is already upper-cased. ([status['last_check_out']] and
    [status['check_in_time']] are set in the branches that print them.) *)
Definition process_employee (m : Manager) (emp_id : string) (e : Employee)
  (mode : string) (now : Z) : outcome result * Manager :=
  let '(st, m1) := get_current_status m emp_id now in
  if String.eqb mode "CHECK_IN" || String.eqb mode "CHECK IN" then
    if already_checked_in_today st then
      (Ret (mkResult ERROR
              (MsgCompletedToday (emp_name e) (default 0 (last_check_out st)))), m1)
    else if is_checked_in st then
      (Ret (mkResult INFO
              (MsgAlreadyCheckedIn (emp_name e) (default 0 (check_in_time st)))), m1)
    else if negb (has_incomplete_record st) then
      let '(r, m2) := _process_check_in m1 emp_id now in
      (r, record_success m2 emp_id now r)
    else
      (Ret (mkResult ERROR (MsgCheckOutFirst (emp_name e))), m1)
  else if String.eqb mode "CHECK_OUT" || String.eqb mode "CHECK OUT" then
    if already_checked_in_today st then
      (Ret (mkResult ERROR (MsgCompleted (emp_name e))), m1)
    else if negb (is_checked_in st) then
      (Ret (mkResult ERROR (MsgNotCheckedInToday (emp_name e))), m1)
    else if below_minimum st then
      (Ret (mkResult ERROR
              (MsgMustWait (MIN_CHECKOUT_MINUTES - elapsed_whole_minutes st)
                 MIN_CHECKOUT_MINUTES)), m1)
    else
      let '(r, m2) := _process_check_out m1 emp_id now in
      (r, record_success m2 emp_id now r)
  else
    (Ret (mkResult ERROR (MsgInvalidMode mode)), m1).

(** The loop over the recognised names; [processed_records] accumulates the
    results, and an exception ends the call. *)
Fixpoint process_names (m : Manager) (names : list string) (mode : string)
  (now : Z) (processed_records : list result)
  : outcome (list result) * Manager :=
  match names with
  | [] => (Ret processed_records, m)
  | name :: rest =>
      if String.eqb name "Unknown" then
        process_names m rest mode now processed_records
      else
        match get_employee_by_name (employees m) name with
        | None => process_names m rest mode now processed_records
        | Some (emp_id, e) =>
            match cooldown_check m emp_id now with
            | Some n =>
                process_names m rest mode now
                  (processed_records ++ [mkResult ERROR (MsgCooldown n)])%list
            | None =>
                match process_employee m emp_id e mode now with
                | (Ret r, m') =>
                    process_names m' rest mode now (processed_records ++ [r])%list
                | (Raise exn, m') => (Raise exn, m')
                end
            end
        end
  end.

Definition process_attendance (m : Manager) (names : list string)
  (mode : string) (now : Z) : outcome (list result) * Manager :=
  process_names m names (upper mode) now [].

(** *** The interface of the class

    What an [AttendanceManager] instance answers to: the attributes that
    [__init__] sets and the functions that the class body defines (the body
    defines seven of them twice; the names are what matters here). *)

Definition instance_attributes : list string :=
  ["attendance_dir"; "employee_file"; "employees"; "lock"; "last_processed";
   "COOLDOWN_SECONDS"; "MIN_CHECKOUT_MINUTES"].

Definition class_functions : list string :=
  ["__init__"; "_save_employee_data"; "add_employee"; "get_employee_details";
   "get_employee_by_name"; "process_attendance"; "_process_check_in";
   "_process_check_out"; "manual_attendance"; "get_today_present_employees";
   "get_today_attendance"; "get_attendance_by_date"; "get_all_attendance";
   "get_department_report"; "get_employee_report"; "remove_employee";
   "get_all_employees"; "get_active_sessions"; "_ensure_attendance_file";
   "get_current_status"; "_calculate_elapsed_minutes";
   "get_today_attendance"; "get_attendance_by_date"; "get_all_attendance";
   "get_department_report"; "get_employee_report"; "remove_employee";
   "get_all_employees"].

(** [hasattr(attendance_manager, name)] *)
Definition has_attribute (name : string) : bool :=
  existsb (String.eqb name) (instance_attributes ++ class_functions)%list.

(** Calling [attendance_manager.<name>(...)]: the attribute lookup comes
    first and raises when the name is not there. *)
Definition lookup_method (name : string) : outcome string :=
  if has_attribute name then Ret name
  else Raise ("AttributeError: 'AttendanceManager' object has no attribute '"
              ++ name ++ "'").

(** *** Notions used to state the properties *)

(** Today's rows as the operations see them (no ledger reads as no rows). *)
Definition today_rows (m : Manager) (now : Z) : list Row :=
  default [] (ledgers m !! date_of now).

(** The manager once today's ledger has been created if it was missing. *)
Definition ensured (m : Manager) (now : Z) : Manager :=
  set_ledgers m (snd (_ensure_attendance_file (date_of now) (ledgers m))).

Definition current (m : Manager) (emp_id : string) (now : Z) : CurrentStatus :=
  status_of_ledger (today_rows m now) emp_id now.

Definition is_cooldown (o : outcome result) : bool :=
  match o with
  | Ret {| msg := MsgCooldown _ |} => true
  | _ => false
  end.

(** The modes that select the check-out branch. *)
Definition check_out_mode (mode : string) : Prop :=
  upper mode = "CHECK_OUT" \/ upper mode = "CHECK OUT".

(** The employee's rows of a ledger that are still open. *)
Definition open_rows (emp_id : string) (df : list Row) : list Row :=
  List.filter
    (fun r => String.eqb (Employee_ID r) emp_id
              && match Check_Out r with None => true | Some _ => false end)
    df.

(** The employee's rows of a ledger. *)
Definition rows_of (emp_id : string) (df : list Row) : list Row :=
  List.filter (fun r => String.eqb (Employee_ID r) emp_id) df.

(** Every ledger holds at most one row per employee. *)
Definition one_row_each (m : Manager) : Prop :=
  forall (d : Z) (df : list Row) (emp_id : string),
    ledgers m !! d = Some df -> (length (rows_of emp_id df) <= 1)%nat.

(** A sequence of [process_attendance] calls, each with its names, its mode
    and its instant. *)
Fixpoint camera_run (m : Manager) (calls : list (list string * string * Z))
  : Manager :=
  match calls with
  | [] => m
  | (names, mode, now) :: rest =>
      camera_run (snd (process_attendance m names mode now)) rest
  end.

(** Every ledger of [m] is still there in [m']. *)
Definition ledgers_kept (m m' : Manager) : Prop :=
  forall d, is_Some (ledgers m !! d) -> is_Some (ledgers m' !! d).

(** [f] holds of the [n] integers from [lo] on. *)
Fixpoint all_from (f : Z -> bool) (lo : Z) (n : nat) : bool :=
  match n with
  | O => true
  | S k => if f lo then all_from f (lo + 1) k else false
  end.

(** For a stay of [secs] seconds: the quotient [secs / 3600] computed in
    binary64 has a fractional part (a negative binary exponent), and the
    hundredth [n] it rounds to is a nearest hundredth of the exact quotient:
    [|n/100 - secs/3600| <= 1/200], that is [|36 n - secs| <= 18]. *)
Definition rounds_to_nearest_hundredth (secs : Z) : bool :=
  match Prim2SF (hours_between 0 secs) with
  | S754_finite s m (Zneg p) =>
      Z.abs (36 * PyFloat.hundredths_sf (S754_finite s m (Zneg p)) - secs) <=? 18
  | _ => false
  end.

(** *** A day at the office

    One registered employee, Alice (E1), no ledger yet. *)

Definition alice : Employee := mkEmployee "Alice" "IT" "Engineer" 19990.
Definition office : Manager := mkManager [("E1", alice)] ∅ ∅.
Definition today : Z := 20000.
Definition at_clock (h m s : Z) : Z := strptime today (hms h m s).

(** Alice checked in by hand at 09:00:00 ... *)
Definition office_0900 : Manager :=
  snd (manual_attendance office "E1" "CHECK_IN" (at_clock 9 0 0)).
(** ... and out at 10:01:00. *)
Definition office_1001 : Manager :=
  snd (manual_attendance office_0900 "E1" "CHECK_OUT" (at_clock 10 1 0)).
Definition office_1002 : Manager :=
  snd (manual_attendance office_1001 "E1" "CHECK_IN" (at_clock 10 2 0)).
Definition office_1003 : Manager :=
  snd (manual_attendance office_1002 "E1" "CHECK_IN" (at_clock 10 3 0)).

(** Alice checked in by the camera at 09:00:00. *)
Definition camera_0900 : Manager :=
  snd (process_attendance office ["Alice"] "CHECK_IN" (at_clock 9 0 0)).

Definition alice_row (check_in : Z) (check_out : option Z) (hours : float) : Row :=
  mkRow "E1" "Alice" "IT" "Engineer" today check_in check_out hours "Present".

End Attendance.

(** ** face_utils.py *)

Module FaceUtils.

(** *** Arrays, files and the vision libraries *)

Inductive dtype := uint8 | float64 | other_dtype.

Definition is_uint8 (d : dtype) : bool :=
  match d with uint8 => true | _ => false end.

(** A numpy array: its shape, its element type and its elements in
    row-major order. *)
Record ndarray := mk_ndarray {
  shape : list nat;
  dtype_of : dtype;
  data : list float
}.

Definition ndim (a : ndarray) : nat := length (shape a).

(** A face box [(top, right, bottom, left)]. *)
Definition box : Type := Z * Z * Z * Z.

(** The image files: a path maps to the BGR array that [cv2.imread] decodes
    from it; paths that hold no readable image are absent. *)
Abbreviation Disk := (gmap string ndarray).

(** The entry points of cv2, numpy, PIL and face_recognition that the class
    calls. Their results are whatever the libraries return; each may raise. *)
Record Vision (encoding : Type) := mk_Vision {
  (** [cv2.cvtColor(_, cv2.COLOR_BGR2RGB)] *)
  cvtColor : ndarray -> outcome ndarray;
  (** [(255 * a).astype(np.uint8)] *)
  scale_to_uint8 : ndarray -> ndarray;
  (** [cv2.resize(_, (0, 0), fx=0.25, fy=0.25)] *)
  resize_quarter : ndarray -> outcome ndarray;
  (** [face_recognition.face_locations] *)
  face_locations : ndarray -> outcome (list box);
  (** [face_recognition.face_encodings], with or without known locations *)
  face_encodings : ndarray -> option (list box) -> outcome (list encoding);
  (** one entry of [face_recognition.compare_faces(_, _, tolerance=0.6)]:
      whether the known encoding is within tolerance of the probe *)
  within_tolerance : encoding -> encoding -> bool;
  (** [Image.fromarray(a).save(path)] *)
  pil_save : Disk -> string -> ndarray -> outcome Disk;
  (** the two [cv2.rectangle] calls and the [cv2.putText] call for one face *)
  draw_label : ndarray -> box -> string -> outcome ndarray
}.
Arguments cvtColor {encoding} _ _.
Arguments scale_to_uint8 {encoding} _ _.
Arguments resize_quarter {encoding} _ _.
Arguments face_locations {encoding} _ _.
Arguments face_encodings {encoding} _ _ _.
Arguments within_tolerance {encoding} _ _ _.
Arguments pil_save {encoding} _ _ _ _.
Arguments draw_label {encoding} _ _ _ _.

Section WithVision.

Context {encoding : Type} (lib : Vision encoding).

(** The object: the two parallel lists of the gallery, the directory of the
    known faces, and the files. *)
Record FaceUtils := mk_FaceUtils {
  known_faces_dir : string;
  known_face_encodings : list encoding;
  known_face_names : list string;
  disk : Disk
}.

Definition set_disk (fu : FaceUtils) (d : Disk) : FaceUtils :=
  {| known_faces_dir := known_faces_dir fu;
     known_face_encodings := known_face_encodings fu;
     known_face_names := known_face_names fu;
     disk := d |}.

(** [if a.dtype != np.uint8: a = (255 * a).astype(np.uint8)] *)
Definition as_uint8 (a : ndarray) : ndarray :=
  if is_uint8 (dtype_of a) then a else scale_to_uint8 lib a.

Definition starts_with_slash (s : string) : bool :=
  match s with
  | String c _ => Ascii.eqb c "/"%char
  | EmptyString => false
  end.

Fixpoint ends_with_slash (s : string) : bool :=
  match s with
  | EmptyString => false
  | String c EmptyString => Ascii.eqb c "/"%char
  | String _ rest => ends_with_slash rest
  end.

(** [os.path.join(a, b)] on a POSIX system. *)
Definition path_join (a b : string) : string :=
  if starts_with_slash b then b
  else if String.eqb a "" || ends_with_slash a then a ++ b
  else a ++ "/" ++ b.

(** *** add_known_face *)

(** The body of the [try]: the files are only read. *)
Definition add_known_face_try (fu : FaceUtils) (image_path : string)
  : outcome encoding :=
  match disk fu !! image_path with
  | None => Raise "ValueError: Image not found or unreadable"
  | Some image =>
      rgb_image ← cvtColor lib image;
      encodings ← face_encodings lib (as_uint8 rgb_image) None;
      match encodings with
      | [] => Raise "ValueError: No face found in image"
      | e :: _ => Ret e
      end
  end.

Definition add_known_face (fu : FaceUtils) (image_path name : string)
  : bool * FaceUtils :=
  match add_known_face_try fu image_path with
  | Ret e =>
      (true,
       {| known_faces_dir := known_faces_dir fu;
          known_face_encodings := (known_face_encodings fu ++ [e])%list;
          known_face_names := (known_face_names fu ++ [name])%list;
          disk := disk fu |})
  | Raise _ => (false, fu)
  end.

(** *** register_new_face *)

Definition save_path (fu : FaceUtils) (name : string) : string :=
  path_join (known_faces_dir fu) (name ++ ".jpg").

Definition register_new_face (fu : FaceUtils) (image_path name : string)
  : bool * FaceUtils :=
  match disk fu !! image_path with
  | None => (false, fu)
  | Some image =>
      match cvtColor lib image with
      | Raise _ => (false, fu)
      | Ret rgb_image =>
          let rgb_image := as_uint8 rgb_image in
          match face_locations lib rgb_image with
          | Raise _ => (false, fu)
          | Ret locations =>
              if negb (length locations =? 1)%nat then (false, fu)
              else
                match pil_save lib (disk fu) (save_path fu name) rgb_image with
                | Raise _ => (false, fu)
                | Ret disk' =>
                    add_known_face (set_disk fu disk') (save_path fu name) name
                end
          end
      end
  end.

(** *** process_frame *)

(** The first known name whose encoding is within tolerance of the probe,
    else "Unknown": [matches.index(True)] then [known_face_names[...]]. *)
Fixpoint first_match (encodings : list encoding) (names : list string)
  (face_encoding : encoding) : outcome string :=
  match encodings with
  | [] => Ret "Unknown"
  | k :: encodings' =>
      if within_tolerance lib k face_encoding then
        match names with
        | name :: _ => Ret name
        | [] => Raise "IndexError: list index out of range"
        end
      else first_match encodings' (tl names) face_encoding
  end.

Fixpoint label_faces (fu : FaceUtils) (face_encodings : list encoding)
  : outcome (list string) :=
  match face_encodings with
  | [] => Ret []
  | e :: rest =>
      name ← first_match (known_face_encodings fu) (known_face_names fu) e;
      names ← label_faces fu rest;
      Ret (name :: names)
  end.

Definition times4 (b : box) : box :=
  let '(top_, right_, bottom_, left_) := b in
  (top_ * 4, right_ * 4, bottom_ * 4, left_ * 4).

(** The drawing loop over [zip(face_locations, face_names)]. *)
Fixpoint draw_faces (frame : ndarray) (locations : list box)
  (names : list string) : outcome ndarray :=
  match locations, names with
  | b :: locations', name :: names' =>
      frame' ← draw_label lib frame (times4 b) name;
      draw_faces frame' locations' names'
  | _, _ => Ret frame
  end.

(** The body of the [try]: detection and encoding. *)
Definition detect (rgb_small_frame : ndarray)
  : outcome (list box * list encoding) :=
  locations ← face_locations lib rgb_small_frame;
  encodings ← face_encodings lib rgb_small_frame (Some locations);
  Ret (locations, encodings).

Definition process_frame (fu : FaceUtils) (frame : option ndarray)
  : outcome (ndarray * list string) :=
  match frame with
  | None => Raise "ValueError: Frame is None"
  | Some frame =>
      if negb (ndim frame =? 3)%nat
         || negb (nth 2 (shape frame) 0 =? 3)%nat
      then Raise "ValueError: Invalid frame format"
      else
        let frame := as_uint8 frame in
        small_frame ← resize_quarter lib frame;
        rgb_small_frame ← cvtColor lib small_frame;
        match detect rgb_small_frame with
        | Raise _ => Ret (frame, [])
        | Ret (locations, encodings) =>
            face_names ← label_faces fu encodings;
            frame' ← draw_faces frame locations face_names;
            Ret (frame', face_names)
        end
  end.

End WithVision.

Arguments FaceUtils : clear implicits.

(** *** A stand-in for the vision libraries

    Used to run the class on concrete inputs. A picture is an array whose
    elements stand for the faces in it, one number per face; that number is
    the face's encoding, and two encodings match when they differ by at
    most 0.6. [save] and [locate] are the two places where the stand-ins
    below differ. *)

Definition toy_boxes (a : ndarray) : list box :=
  map (fun i => (0, Z.of_nat i + 1, 1, Z.of_nat i)) (seq 0 (length (data a))).

Definition toy_vision
  (save : Disk -> string -> ndarray -> outcome Disk)
  (locate : ndarray -> outcome (list box)) : Vision float :=
  {| cvtColor := fun a => Ret a;
     scale_to_uint8 := fun a => mk_ndarray (shape a) uint8 (data a);
     resize_quarter := fun a => Ret a;
     face_locations := locate;
     face_encodings := fun a _ => Ret (data a);
     within_tolerance := fun k e =>
       PrimFloat.leb (PrimFloat.abs (PrimFloat.sub k e)) 0.6%float;
     pil_save := save;
     draw_label := fun frame _ _ => Ret frame |}.

(** Saving keeps the picture as it is. *)
Definition studio : Vision float :=
  toy_vision (fun d path a => Ret (<[path := a]> d))
    (fun a => Ret (toy_boxes a)).

(** Saving loses the face: the copy read back shows none. *)
Definition blurry : Vision float :=
  toy_vision
    (fun d path a => Ret (<[path := mk_ndarray (shape a) (dtype_of a) []]> d))
    (fun a => Ret (toy_boxes a)).

(** The known-faces directory cannot be written. *)
Definition read_only : Vision float :=
  toy_vision (fun _ _ _ => Raise "PermissionError: [Errno 13] Permission denied")
    (fun a => Ret (toy_boxes a)).

(** The detector raises on every picture. *)
Definition blind : Vision float :=
  toy_vision (fun d path a => Ret (<[path := a]> d))
    (fun _ => Raise "RuntimeError: Unsupported image type").

Definition portrait : ndarray := mk_ndarray [1; 1; 3]%nat uint8 [1%float].
Definition group_photo : ndarray :=
  mk_ndarray [1; 2; 3]%nat uint8 [1%float; 5%float].

(** An empty gallery and two uploaded pictures. *)
Definition fresh : FaceUtils float :=
  {| known_faces_dir := "known_faces";
     known_face_encodings := [];
     known_face_names := [];
     disk := <["/tmp/portrait.jpg" := portrait]>
               (<["/tmp/group.jpg" := group_photo]> ∅) |}.

Definition colour_frame : ndarray :=
  mk_ndarray [1; 1; 3]%nat uint8 [10%float; 20%float; 30%float].
Definition grey_frame : ndarray :=
  mk_ndarray [1; 3]%nat uint8 [10%float; 20%float; 30%float].
Definition float_frame : ndarray :=
  mk_ndarray [1; 1; 3]%nat float64 [0.5%float; 0.25%float; 1%float].

End FaceUtils.

(** ** liveness_detection.py *)

Module Liveness.

(** *** State and constants *)

Definition EYE_AR_THRESH : float := 0.3%float.
Definition EYE_AR_CONSEC_FRAMES : Z := 3.
Definition LEFT_EYE_IDXS : list nat := seq 42 6.
Definition RIGHT_EYE_IDXS : list nat := seq 36 6.

(** The counters of a [LivenessDetector]; [last_blink_time] is a
    [time.time()] reading, in seconds. *)
Record LivenessDetector := mk_detector {
  counter : Z;
  total_blinks : Z;
  last_blink_time : float
}.

(** [__init__] and [reset] at the clock reading [now]. *)
Definition init (now : float) : LivenessDetector :=
  {| counter := 0; total_blinks := 0; last_blink_time := now |}.

Definition reset (st : LivenessDetector) (now : float) : LivenessDetector :=
  {| counter := 0; total_blinks := 0; last_blink_time := now |}.

(** *** Eye aspect ratio *)

(** A landmark: integer pixel coordinates. *)
Definition point : Type := Z * Z.

(** [dist.euclidean] of two landmarks: the sum of squares is an integer,
    exact in binary64, and the square root is correctly rounded. *)
Definition euclidean (p q : point) : float :=
  PrimFloat.sqrt
    (PyFloat.of_int ((fst p - fst q) * (fst p - fst q)
                     + (snd p - snd q) * (snd p - snd q))).

Definition eye_aspect_ratio (eye : list point) : float :=
  let at_ i := nth i eye (0, 0) in
  let A := euclidean (at_ 1%nat) (at_ 5%nat) in
  let B := euclidean (at_ 2%nat) (at_ 4%nat) in
  let C := euclidean (at_ 0%nat) (at_ 3%nat) in
  PrimFloat.div (PrimFloat.add A B) (PrimFloat.mul 2%float C).

(** [landmarks[idxs]] *)
Definition take_points (landmarks : list point) (idxs : list nat) : list point :=
  map (fun i => nth i landmarks (0, 0)) idxs.

(** *** What one call observes

    For each face that dlib's detector reports in the frame: the 68
    landmarks the predictor returns (or the exception it raises), the clock
    as read when a blink is registered, whether drawing the eye contours and
    the two texts raises, and the clock as read for the verdict. *)
Record face_view := mk_face_view {
  landmarks : outcome (list point);
  blink_clock : float;
  drawing : outcome unit;
  verdict_clock : float
}.

Inductive debug_frame :=
| FrameCopy
| Annotated (ear : float) (blinks : Z)
| FrameItself.

Record result := mk_result {
  is_live : bool;
  message : string;
  debug : debug_frame
}.

(** *** detect_blink *)

Definition detect_blink (st : LivenessDetector) (marks : list point)
  (now : float) : float * LivenessDetector :=
  let leftEye := take_points marks LEFT_EYE_IDXS in
  let rightEye := take_points marks RIGHT_EYE_IDXS in
  let leftEAR := eye_aspect_ratio leftEye in
  let rightEAR := eye_aspect_ratio rightEye in
  let ear := PrimFloat.div (PrimFloat.add leftEAR rightEAR) 2%float in
  if PrimFloat.ltb ear EYE_AR_THRESH then
    (ear, {| counter := counter st + 1; total_blinks := total_blinks st;
             last_blink_time := last_blink_time st |})
  else if EYE_AR_CONSEC_FRAMES <=? counter st then
    (ear, {| counter := 0; total_blinks := total_blinks st + 1;
             last_blink_time := now |})
  else
    (ear, {| counter := 0; total_blinks := total_blinks st;
             last_blink_time := last_blink_time st |}).

(** *** check_liveness *)

Definition no_face : result :=
  {| is_live := false; message := "No face detected"; debug := FrameCopy |}.

Definition error_result (exn : string) : result :=
  {| is_live := false; message := "Error in liveness detection: " ++ exn;
     debug := FrameItself |}.

(** [self.total_blinks > 0 and time_since_last_blink < 3.0] *)
Definition recently_blinked (st : LivenessDetector) (now : float) : bool :=
  (0 <? total_blinks st)
  && PrimFloat.ltb (PrimFloat.sub now (last_blink_time st)) 3%float.

(** The body of the loop, with its [try] and [except]. *)
Definition check_face (st : LivenessDetector) (f : face_view)
  : result * LivenessDetector :=
  match landmarks f with
  | Raise exn => (error_result exn, st)
  | Ret marks =>
      let '(ear, st') := detect_blink st marks (blink_clock f) in
      match drawing f with
      | Raise exn => (error_result exn, st')
      | Ret _ =>
          if recently_blinked st' (verdict_clock f) then
            ({| is_live := true; message := "Live face detected";
                debug := Annotated ear (total_blinks st') |}, st')
          else
            ({| is_live := false; message := "Please blink naturally";
                debug := Annotated ear (total_blinks st') |}, st')
      end
  end.

Fixpoint check_faces (st : LivenessDetector) (r : result)
  (faces : list face_view) : result * LivenessDetector :=
  match faces with
  | [] => (r, st)
  | f :: rest =>
      let '(r', st') := check_face st f in
      check_faces st' r' rest
  end.

(** [faces] is what the grey conversion and the detector give for the
    frame; an exception there is not caught. *)
Definition check_liveness (st : LivenessDetector)
  (faces : outcome (list face_view)) : outcome result * LivenessDetector :=
  match faces with
  | Raise exn => (Raise exn, st)
  | Ret fs =>
      let '(r, st') := check_faces st no_face fs in
      (Ret r, st')
  end.

(** *** Faces to run the detector on *)

(** The six landmarks of an eye ten pixels wide, its lids [opening] pixels
    above and below the axis: the aspect ratio is [opening / 5]. *)
Definition eye (x opening : Z) : list point :=
  [(x, 0); (x + 3, opening); (x + 7, opening); (x + 10, 0);
   (x + 7, - opening); (x + 3, - opening)].

Definition face_marks (opening : Z) : list point :=
  (repeat (0, 0) 36 ++ eye 0 opening ++ eye 20 opening ++ repeat (0, 0) 20)%list.

(** A face seen at clock reading [now]; nothing raises. *)
Definition face_at (opening : Z) (now : float) : face_view :=
  {| landmarks := Ret (face_marks opening); blink_clock := now;
     drawing := Ret tt; verdict_clock := now |}.

Definition eyes_closed : float -> face_view := face_at 1.
Definition eyes_open : float -> face_view := face_at 2.

(** A face on which the landmark predictor raises. *)
Definition unreadable_face (now : float) : face_view :=
  {| landmarks := Raise "RuntimeError: predictor failed"; blink_clock := now;
     drawing := Ret tt; verdict_clock := now |}.

(** Three frames with the eyes closed have been seen since clock 100. *)
Definition streak_of_three : LivenessDetector :=
  {| counter := 3; total_blinks := 0; last_blink_time := 100%float |}.

(** A blink was registered at clock 103.5. *)
Definition blinked : LivenessDetector :=
  {| counter := 0; total_blinks := 1; last_blink_time := 103.5%float |}.

End Liveness.

(** ** attendance_manager.py: the registry *)

Module Registry.

Import Attendance.

(** [self.employees] is written to [employees.json] by each update; the
    writes are taken to succeed, so the file holds what the field holds. *)

Definition set_employees (m : Manager) (emps : list (string * Employee))
  : Manager :=
  {| employees := emps; last_processed := last_processed m;
     ledgers := ledgers m |}.

(** [add_employee]: a new key goes to the end of the dict. *)
Definition add_employee (m : Manager) (emp_id name department position : string)
  (now : Z) : bool * Manager :=
  match get_employee_details (employees m) emp_id with
  | Some _ => (false, m)
  | None =>
      (true,
       set_employees m
         (employees m
          ++ [(emp_id, mkEmployee name department position (date_of now))])%list)
  end.

(** [del self.employees[emp_id]] *)
Definition del (emp_id : string) (emps : list (string * Employee))
  : list (string * Employee) :=
  List.filter (fun ke => negb (String.eqb (fst ke) emp_id)) emps.

(** [remove_employee]; [files] are the image files by path, of which the
    one at ["known_faces/<name>.jpg"] is removed if it is there. (Two
    path strings that name the same file are not identified: the
    properties speak of the path that is removed and of no other.) *)
Definition remove_employee (m : Manager) (files : FaceUtils.Disk)
  (emp_id : string) : bool * Manager * FaceUtils.Disk :=
  match get_employee_details (employees m) emp_id with
  | None => (false, m, files)
  | Some e =>
      let image_path :=
        FaceUtils.path_join "known_faces" (emp_name e ++ ".jpg") in
      (true, set_employees m (del emp_id (employees m)),
       delete image_path files)
  end.

(** [get_all_employees]: one entry per key, in the dict's order, the key
    beside the details. *)
Definition get_all_employees (m : Manager) : list (string * Employee) :=
  employees m.

(** *** The operations that change the state, in sequence *)

Inductive operation :=
| ProcessAttendance (names : list string) (mode : string)
| ManualAttendance (emp_id action : string)
| AddEmployee (emp_id name department position : string)
| RemoveEmployee (emp_id : string).

(** One operation at the instant [now], on the manager and the image
    files. *)
Definition perform (s : Manager * FaceUtils.Disk) (op : operation) (now : Z)
  : Manager * FaceUtils.Disk :=
  match op with
  | ProcessAttendance names mode =>
      (snd (process_attendance (fst s) names mode now), snd s)
  | ManualAttendance emp_id action =>
      (snd (manual_attendance (fst s) emp_id action now), snd s)
  | AddEmployee emp_id name department position =>
      (snd (add_employee (fst s) emp_id name department position now), snd s)
  | RemoveEmployee emp_id =>
      let '(_, m, files) := remove_employee (fst s) (snd s) emp_id in
      (m, files)
  end.

Fixpoint run (s : Manager * FaceUtils.Disk) (ops : list (operation * Z))
  : Manager * FaceUtils.Disk :=
  match ops with
  | [] => s
  | (op, now) :: rest => run (perform s op now) rest
  end.

Definition is_manual (op : operation) : bool :=
  match op with ManualAttendance _ _ => true | _ => false end.

(** An operation that removes the employee [emp_id]. *)
Definition removes (emp_id : string) (op : operation) : bool :=
  match op with
  | RemoveEmployee other => String.eqb other emp_id
  | _ => false
  end.

(** *** The manual page of app.py

    [manual_attendance_page] reads the status of the employee picked from
    [get_all_employees], offers the one action that the status selects, and
    calls [manual_attendance] with it when the button is pressed. The
    status is read and the call is made in the same run of the page; the
    model gives both the same instant. *)

Definition page_action (st : CurrentStatus) : string :=
  if is_checked_in st then "CHECK_OUT" else "CHECK_IN".

Definition manual_attendance_page (m : Manager) (emp_id : string) (now : Z)
  : outcome result * Manager :=
  let '(st, m1) := get_current_status m emp_id now in
  manual_attendance m1 emp_id (page_action st) now.

(** *** Cells that a ledger gives back as written

    Every call reads a ledger with [pd.read_csv] and writes it back with
    [to_csv]. Reading decides the type of a column from its cells: a
    column whose cells all read as numbers comes back as numbers, one
    whose cells all read as booleans comes back as booleans, and an empty
    cell or one of pandas' words for a missing value comes back as
    missing. A cell that is none of these makes its column a column of
    text and is read back as it was written, whatever the other rows
    hold. The rows of the model hold what was written. A filter such as
    [df['Employee_ID'] == emp_id] compares what was read with the string
    given to the call, so the properties that depend on such a filter are
    stated for strings that are read back as written.

    [kept_as_text] is a sufficient test for that: a first ASCII letter,
    then ASCII letters, digits and spaces only, the first word being none
    of the words that pandas reads or prints as a missing value, as a
    boolean or as an infinite number, in any case of the letters. *)

Definition is_letter (c : ascii) : bool :=
  let n := N_of_ascii c in
  ((65 <=? n) && (n <=? 90) || (97 <=? n) && (n <=? 122))%N.

Definition is_digit (c : ascii) : bool :=
  let n := N_of_ascii c in ((48 <=? n) && (n <=? 57))%N.

Definition is_space (c : ascii) : bool := (N_of_ascii c =? 32)%N.

Fixpoint all_chars (p : ascii -> bool) (s : string) : bool :=
  match s with
  | EmptyString => true
  | String c rest => p c && all_chars p rest
  end.

Fixpoint first_word (s : string) : string :=
  match s with
  | EmptyString => EmptyString
  | String c rest =>
      if is_space c then EmptyString else String c (first_word rest)
  end.

(** The words, in capitals, that do not come back as text. *)
Definition VALUE_WORDS : list string :=
  ["NA"; "NAN"; "NAT"; "NULL"; "NONE"; "TRUE"; "FALSE"; "INF"; "INFINITY"].

Definition kept_as_text (s : string) : bool :=
  match s with
  | EmptyString => false
  | String c _ =>
      is_letter c
      && all_chars (fun c => is_letter c || is_digit c || is_space c) s
      && negb (existsb (String.eqb (upper (first_word s))) VALUE_WORDS)
  end.

(** *** Notions used to state the properties *)

(** What one operation at the instant [now] can do to the ledgers: create
    today's ledger if it is missing, append a fresh open row to today's
    ledger, or close an open row of today's ledger. (The relation does not
    ask how old the row is: the properties proved of it do not rest on the
    instant at which the minimum stay is tested.) *)
Inductive ledger_step (now : Z) (l : gmap Z (list Row))
  : gmap Z (list Row) -> Prop :=
| step_read :
    ledger_step now l (snd (_ensure_attendance_file (date_of now) l))
| step_check_in (emp_id : string) (e : Employee) :
    ledger_step now l
      (<[date_of now :=
           (default [] (l !! date_of now) ++ [new_record emp_id e now])%list]> l)
| step_check_out (i : nat) (row : Row) :
    default [] (l !! date_of now) !! i = Some row ->
    Check_Out row = None ->
    ledger_step now l
      (<[date_of now :=
           <[i := close_record (time_of now)
                    (PyFloat.round2 (hours_between (Check_In row) (time_of now)))
                    row]>
             (default [] (l !! date_of now))]> l).

Definition any_step (l l' : gmap Z (list Row)) : Prop :=
  exists now, ledger_step now l l'.

(** Every row is filed in the ledger of its own date. *)
Definition dated (l : gmap Z (list Row)) : Prop :=
  forall (d : Z) (df : list Row) (r : Row),
    l !! d = Some df -> r ∈ df -> Date r = d.

(** An open row shows no hours; a closed row shows the hours between its
    two times, rounded. *)
Definition consistent (r : Row) : Prop :=
  match Check_Out r with
  | None => Total_Hours r = 0%float
  | Some t => Total_Hours r = PyFloat.round2 (hours_between (Check_In r) t)
  end.

Definition all_consistent (l : gmap Z (list Row)) : Prop :=
  forall (d : Z) (df : list Row) (r : Row),
    l !! d = Some df -> r ∈ df -> consistent r.

(** A row as it may be found later: as it was, or closed if it was open. *)
Definition later_row (r r' : Row) : Prop :=
  r' = r \/
  (Check_Out r = None /\
   exists (t : Z) (h : float), r' = close_record t h r).

(** Every row of [l] is still in [l'], at the same place of the same
    ledger. *)
Definition rows_kept (l l' : gmap Z (list Row)) : Prop :=
  forall (d : Z) (df : list Row) (i : nat) (r : Row),
    l !! d = Some df -> df !! i = Some r ->
    exists (df' : list Row) (r' : Row),
      l' !! d = Some df' /\ df' !! i = Some r' /\ later_row r r'.

(** A name that [process_attendance] acts on: not "Unknown", and the name
    of a registered employee. *)
Definition recognised (m : Manager) (name : string) : bool :=
  negb (String.eqb name "Unknown")
  && match get_employee_by_name (employees m) name with
     | Some _ => true
     | None => false
     end.

(** The same rows under every date (a ledger without rows counts as no
    ledger). *)
Definition same_rows (l l' : gmap Z (list Row)) : Prop :=
  forall d : Z, default [] (l' !! d) = default [] (l !! d).

(** A manager that reads as [m] does: the same registry, the same cooldown
    stamps, the same rows. *)
Definition untouched (m m' : Manager) : Prop :=
  employees m' = employees m /\ last_processed m' = last_processed m /\
  same_rows (ledgers m) (ledgers m').

(** The status of an employee whose last check-out of the date was at
    [t]. *)
Definition completed_status (t : Z) : CurrentStatus :=
  {| is_checked_in := false; check_in_time := None; elapsed_us := 0;
     record_index := None; has_incomplete_record := false;
     already_checked_in_today := true; last_check_out := Some t |}.

Definition succeeded (r : result) : bool :=
  match status r with SUCCESS => true | _ => false end.


(** *** Two mornings at the office

    Alice is checked in at 09:00:00 and out at 10:01:00, by hand and by
    the camera; [no_files] is a known-faces directory without images. *)

Definition no_files : FaceUtils.Disk := ∅.

Definition morning_by_hand : list (operation * Z) :=
  [(ManualAttendance "E1" "CHECK_IN", at_clock 9 0 0);
   (ManualAttendance "E1" "CHECK_OUT", at_clock 10 1 0)].

Definition morning_by_camera : list (operation * Z) :=
  [(ProcessAttendance ["Alice"] "check_in", at_clock 9 0 0);
   (AddEmployee "E2" "Bob" "HR" "Clerk", at_clock 9 30 0);
   (ProcessAttendance ["Alice"; "Unknown"] "check_out", at_clock 10 1 0)].

Definition bob : Employee := mkEmployee "Bob" "HR" "Clerk" today.

End Registry.

(** ** attendance_manager.py: listings and reports *)

Module Reports.

Import Attendance.

(** *** Formatting *)

(** The integer [n] such that [f"{x:.1f}"] reads [n / 10]: the exact binary
    value, correctly rounded to one digit after the point. *)
Definition tenths_sf (m : positive) (e : Z) : Z :=
  match e with
  | Zneg p => PyFloat.round_half_even (10 * Zpos m) (Zpos p)
  | _ => 10 * Zpos m * 2 ^ e
  end.

(** [f"{x:.1f}"] *)
Definition format_1f (x : float) : string :=
  let sign (s : bool) := if s then "-" else "" in
  match Prim2SF x with
  | S754_zero s => sign s ++ "0.0"
  | S754_infinity s => sign s ++ "inf"
  | S754_nan => "nan"
  | S754_finite s m e =>
      let n := tenths_sf m e in
      sign s ++ pretty (n / 10) ++ "." ++ pretty (n mod 10)
  end.

(** *** Data frames *)

Definition LEDGER_COLUMNS : list string :=
  ["Employee_ID"; "Name"; "Department"; "Position"; "Date"; "Check_In";
   "Check_Out"; "Total_Hours"; "Status"].

(** The columns of the frame returned when there is nothing to read. *)
Definition FALLBACK_COLUMNS : list string :=
  ["Employee_ID"; "Name"; "Department"; "Position"; "Date"; "Check_In";
   "Status"].

Record DataFrame := mkFrame { columns : list string; rows : list Row }.

(** [df.empty] (every frame here has columns) *)
Definition empty (df : DataFrame) : bool :=
  match rows df with [] => true | _ => false end.

(** *** Reading the ledgers *)

Definition get_attendance_by_date (m : Manager) (date : Z) : DataFrame :=
  match ledgers m !! date with
  | Some df => mkFrame LEDGER_COLUMNS df
  | None => mkFrame FALLBACK_COLUMNS []
  end.

Definition get_today_attendance (m : Manager) (now : Z) : DataFrame :=
  get_attendance_by_date m (date_of now).

(** [get_all_attendance]. [listing] is [os.listdir(self.attendance_dir)],
    as the dates of the ledgers it names, in the order it names them (the
    order is the file system's). *)
Definition get_all_attendance (m : Manager) (listing : list Z) : DataFrame :=
  let all_records := map (fun d => default [] (ledgers m !! d)) listing in
  match all_records with
  | [] => mkFrame FALLBACK_COLUMNS []
  | _ => mkFrame LEDGER_COLUMNS (concat all_records)
  end.

(** [start_date and end_date], then the two comparisons. A date is [None]
    when the argument is [None] or the empty string. The code compares the
    ["%Y-%m-%d"] strings, whose order is the order of the dates. *)
Definition in_range (start_date end_date : option Z) (r : Row) : bool :=
  match start_date, end_date with
  | Some s, Some e => (s <=? Date r) && (Date r <=? e)
  | _, _ => true
  end.

Definition get_department_report (m : Manager) (listing : list Z)
  (department : string) (start_date end_date : option Z) : DataFrame :=
  let df := get_all_attendance m listing in
  if empty df then df
  else
    let dept_df :=
      List.filter (fun r => String.eqb (Department r) department) (rows df) in
    mkFrame (columns df) (List.filter (in_range start_date end_date) dept_df).

Definition get_employee_report (m : Manager) (listing : list Z)
  (emp_id : string) (start_date end_date : option Z) : DataFrame :=
  let df := get_all_attendance m listing in
  if empty df then df
  else
    let emp_df :=
      List.filter (fun r => String.eqb (Employee_ID r) emp_id) (rows df) in
    mkFrame (columns df) (List.filter (in_range start_date end_date) emp_df).

(** *** Who is in *)

Definition is_open (r : Row) : bool :=
  match Check_Out r with None => true | Some _ => false end.

(** [f"{int(elapsed)} minutes"] for the row's check-in time. *)
Definition minutes_since (now : Z) (r : Row) : string :=
  pretty (int_of (_calculate_elapsed_minutes now (date_of now) (Check_In r))
            US_PER_MINUTE)
  ++ " minutes".

Record Session := mkSession {
  session_Employee_ID : string;
  session_Name : string;
  session_Department : string;
  session_Check_In : Z;
  session_Duration : string
}.

Definition session_of (now : Z) (r : Row) : Session :=
  {| session_Employee_ID := Employee_ID r; session_Name := Name r;
     session_Department := Department r; session_Check_In := Check_In r;
     session_Duration := minutes_since now r |}.

Definition get_active_sessions (m : Manager) (now : Z) : list Session :=
  match ledgers m !! date_of now with
  | None => []
  | Some df => map (session_of now) (List.filter is_open df)
  end.

Record Presence := mkPresence {
  presence_Employee_ID : string;
  presence_Name : string;
  presence_Department : string;
  presence_Check_In : Z;
  presence_Check_Out : option Z;
  presence_Duration : string;
  presence_Status : string
}.

Definition presence_of (now : Z) (r : Row) : Presence :=
  {| presence_Employee_ID := Employee_ID r; presence_Name := Name r;
     presence_Department := Department r; presence_Check_In := Check_In r;
     presence_Check_Out := Check_Out r;
     presence_Duration :=
       if is_open r then minutes_since now r
       else format_1f (Total_Hours r) ++ " hours";
     presence_Status := if is_open r then "Checked In" else "Checked Out" |}.

Definition get_today_present_employees (m : Manager) (now : Z)
  : list Presence :=
  match ledgers m !! date_of now with
  | None => []
  | Some df => map (presence_of now) df
  end.

(** *** Notions used to state the properties *)

(** [listing] names every ledger once. *)
Definition lists_ledgers (m : Manager) (listing : list Z) : Prop :=
  NoDup listing /\ forall d, d ∈ listing <-> is_Some (ledgers m !! d).

(** The entries of the present list that are marked as still in, and the
    fields such an entry shares with a session. *)
Definition checked_in_entry (p : Presence) : bool :=
  String.eqb (presence_Status p) "Checked In".

Definition session_of_presence (p : Presence) : Session :=
  {| session_Employee_ID := presence_Employee_ID p;
     session_Name := presence_Name p;
     session_Department := presence_Department p;
     session_Check_In := presence_Check_In p;
     session_Duration := presence_Duration p |}.

End Reports.

(** ** face_utils.py: loading the gallery *)

Module Gallery.

Import FaceUtils.

(** *** File names *)

(** [s.endswith(suffix)] *)
Definition endswith (s suffix : string) : bool :=
  let n := String.length s in
  let k := String.length suffix in
  (k <=? n)%nat && String.eqb (substring (n - k) k s) suffix.

(** [filename.endswith((".jpg", ".jpeg", ".png"))] *)
Definition is_image_name (filename : string) : bool :=
  endswith filename ".jpg" || endswith filename ".jpeg"
  || endswith filename ".png".

(** [s.rfind(c)], scanning from the index [i] with [found] the last index
    seen so far; [-1] when there is none. *)
Fixpoint rfind_from (c : ascii) (s : string) (i found : Z) : Z :=
  match s with
  | EmptyString => found
  | String a rest =>
      rfind_from c rest (i + 1) (if Ascii.eqb a c then i else found)
  end.

Definition rfind (s : string) (c : ascii) : Z := rfind_from c s 0 (-1).

(** Some character of [s] is not [c]. *)
Fixpoint has_other_than (c : ascii) (s : string) : bool :=
  match s with
  | EmptyString => false
  | String a rest => negb (Ascii.eqb a c) || has_other_than c rest
  end.

(** [os.path.splitext(p)] on a POSIX system: the extension starts at the
    last dot of the last component, unless only dots precede that dot in
    the component. *)
Definition splitext (p : string) : string * string :=
  let sepIndex := rfind p "/" in
  let dotIndex := rfind p "." in
  if (sepIndex <? dotIndex)
     && has_other_than "."
          (substring (Z.to_nat (sepIndex + 1))
             (Z.to_nat (dotIndex - (sepIndex + 1))) p)
  then (substring 0 (Z.to_nat dotIndex) p,
        substring (Z.to_nat dotIndex)
          (String.length p - Z.to_nat dotIndex) p)
  else (p, "").

(** *** load_known_faces *)

Section WithVision.

Context {encoding : Type} (lib : Vision encoding).

(** The loop over [listing], which is [os.listdir(self.known_faces_dir)]
    (the order is the file system's). *)
Fixpoint load_files (fu : FaceUtils encoding) (listing : list string)
  : FaceUtils encoding :=
  match listing with
  | [] => fu
  | filename :: rest =>
      if is_image_name filename then
        let path := path_join (known_faces_dir fu) filename in
        let name := fst (splitext filename) in
        load_files (snd (add_known_face lib fu path name)) rest
      else load_files fu rest
  end.

Definition load_known_faces (fu : FaceUtils encoding) (listing : list string)
  : FaceUtils encoding :=
  load_files
    {| known_faces_dir := known_faces_dir fu;
       known_face_encodings := [];
       known_face_names := [];
       disk := disk fu |}
    listing.

(** *** Notions used to state the properties *)

(** The file [filename] of the known-faces directory is an image in which
    a face is found. *)
Definition loads (fu : FaceUtils encoding) (filename : string) : bool :=
  is_image_name filename
  && match add_known_face_try lib fu
             (path_join (known_faces_dir fu) filename) with
     | Ret _ => true
     | Raise _ => false
     end.

(** The label that [process_frame] gives a face: the name at the position
    of the first known encoding within tolerance of the face's. *)
Fixpoint label_of (encodings : list encoding) (names : list string)
  (face_encoding : encoding) : string :=
  match encodings, names with
  | k :: encodings', name :: names' =>
      if within_tolerance lib k face_encoding then name
      else label_of encodings' names' face_encoding
  | _, _ => "Unknown"
  end.

End WithVision.

(** A name that comes back from its file name: it has a character other
    than the dot, and no slash. *)
Definition file_name_safe (name : string) : bool :=
  has_other_than "." name && (rfind name "/" =? -1).

(** The gallery of [fresh] once Alice's portrait has been enrolled. *)
Definition enrolled : FaceUtils float :=
  {| known_faces_dir := "known_faces";
     known_face_encodings := [1%float];
     known_face_names := ["Alice"];
     disk := <["known_faces/Alice.jpg" := portrait]> (disk fresh) |}.

End Gallery.

(** ** liveness_detection.py: closed and open eyes *)

Module Blinks.

Import Liveness.

(** The averaged eye aspect ratio that [detect_blink] computes from the
    landmarks. *)
Definition ear_of (marks : list point) : float :=
  let leftEAR := eye_aspect_ratio (take_points marks LEFT_EYE_IDXS) in
  let rightEAR := eye_aspect_ratio (take_points marks RIGHT_EYE_IDXS) in
  PrimFloat.div (PrimFloat.add leftEAR rightEAR) 2%float.

(** [ear < self.EYE_AR_THRESH] for the landmarks of a face that the
    predictor could read. *)
Definition eyes_shut (f : face_view) : bool :=
  match landmarks f with
  | Ret marks => PrimFloat.ltb (ear_of marks) EYE_AR_THRESH
  | Raise _ => false
  end.

Definition eyes_wide (f : face_view) : bool :=
  match landmarks f with
  | Ret marks => negb (PrimFloat.ltb (ear_of marks) EYE_AR_THRESH)
  | Raise _ => false
  end.

(** The detector after a sequence of frames, each with the faces found in
    it, none of which made the detector itself raise. *)
Fixpoint watch (st : LivenessDetector) (frames : list (list face_view))
  : LivenessDetector :=
  match frames with
  | [] => st
  | faces :: rest => watch (snd (check_liveness st (Ret faces))) rest
  end.

(** Three readings with the eyes shut, over two frames. *)
Definition three_shut : list (list face_view) :=
  [[eyes_closed 100.1%float];
   [eyes_closed 100.2%float; eyes_closed 100.2%float]].

End Blinks.

(** ** auth_manager.py *)

Module Auth.

(** *** Time

    [datetime.now()] is a count of microseconds, as in [Attendance]. A
    time written with [strftime("%Y-%m-%d %H:%M:%S")] is a whole number of
    seconds; [datetime.strptime] reads it back as that many seconds. *)

Definition US_PER_SECOND : Z := 1000000.
Definition DAY : Z := 24 * 3600 * US_PER_SECOND.

Definition strftime (now : Z) : Z := now / US_PER_SECOND.
Definition strptime (seconds : Z) : Z := seconds * US_PER_SECOND.

(** *** Data *)

(** An entry of [users.json]. *)
Record User := mkUser {
  user_password : string;
  user_role : string;
  user_name : string;
  user_email : string;
  user_created_at : Z;
  user_last_login : option Z;
  user_status : string
}.

(** An entry of [sessions.json]. *)
Record Session := mkSession {
  session_username : string;
  session_role : string;
  session_name : string;
  session_permissions : list string;
  session_created_at : Z;
  session_expires_at : Z
}.

(** The two files. Reading and writing them is taken to succeed.
    ([get_all_users], which lists the users in the order of the file, is
    not modelled: the map does not keep that order.) *)
Record AuthManager := mkAuth {
  users : gmap string User;
  sessions : gmap string Session
}.

Definition ADMIN_PERMISSIONS : list string :=
  ["manage_employees"; "manage_attendance"; "view_reports"; "manage_users";
   "delete_records"; "export_data"; "system_settings"; "view_logs"].

Definition USER_PERMISSIONS : list string :=
  ["mark_attendance"; "view_own_attendance"; "view_own_reports"].

(** [self.roles[role]["permissions"]]; [None] when the key is missing. *)
Definition roles (role : string) : option (list string) :=
  if String.eqb role "admin" then Some ADMIN_PERMISSIONS
  else if String.eqb role "user" then Some USER_PERMISSIONS
  else None.

Definition set_users (a : AuthManager) (u : gmap string User) : AuthManager :=
  {| users := u; sessions := sessions a |}.

Definition set_sessions (a : AuthManager) (s : gmap string Session)
  : AuthManager :=
  {| users := users a; sessions := s |}.

Section WithHash.

(** [hashlib.sha256(password.encode()).hexdigest()] *)
Context (_hash_password : string -> string).

(** [_initialize_files] when neither file exists. *)
Definition _initialize_files (now : Z) : AuthManager :=
  {| users :=
       {["admin" :=
           {| user_password := _hash_password "admin123";
              user_role := "admin"; user_name := "System Admin";
              user_email := "admin@example.com";
              user_created_at := strftime now; user_last_login := None;
              user_status := "active" |}]};
     sessions := ∅ |}.

Definition logged_in (u : User) (now : Z) : User :=
  {| user_password := user_password u; user_role := user_role u;
     user_name := user_name u; user_email := user_email u;
     user_created_at := user_created_at u;
     user_last_login := Some (strftime now); user_status := user_status u |}.

(** [login]; [session_token] is what [secrets.token_urlsafe(32)] returns.
    The result is the token with the session data, or [None]. *)
Definition login (a : AuthManager) (username password session_token : string)
  (now : Z) : outcome (option (string * Session)) * AuthManager :=
  match users a !! username with
  | Some u =>
      if String.eqb (user_password u) (_hash_password password) then
        if negb (String.eqb (user_status u) "active") then (Ret None, a)
        else
          let a1 := set_users a (<[username := logged_in u now]> (users a)) in
          match roles (user_role u) with
          | None => (Raise "KeyError", a1)
          | Some permissions =>
              let session_data :=
                {| session_username := username;
                   session_role := user_role u;
                   session_name := user_name u;
                   session_permissions := permissions;
                   session_created_at := strftime now;
                   session_expires_at := strftime (now + DAY) |} in
              (Ret (Some (session_token, session_data)),
               set_sessions a1 (<[session_token := session_data]> (sessions a1)))
          end
      else (Ret None, a)
  | None => (Ret None, a)
  end.

Definition verify_session (a : AuthManager) (token : string) (now : Z)
  : option Session * AuthManager :=
  if String.eqb token "" then (None, a)
  else
    match sessions a !! token with
    | Some session =>
        if now <? strptime (session_expires_at session) then (Some session, a)
        else (None, set_sessions a (delete token (sessions a)))
    | None => (None, a)
    end.

Definition has_permission (a : AuthManager) (token permission : string)
  (now : Z) : bool * AuthManager :=
  match verify_session a token now with
  | (None, a') => (false, a')
  | (Some session, a') =>
      (existsb (String.eqb permission) (session_permissions session), a')
  end.

Definition logout (a : AuthManager) (token : string) : bool * AuthManager :=
  match sessions a !! token with
  | Some _ => (true, set_sessions a (delete token (sessions a)))
  | None => (false, a)
  end.

Definition create_user (a : AuthManager)
  (username password role name email : string) (now : Z)
  : bool * AuthManager :=
  match roles role with
  | None => (false, a)
  | Some _ =>
      match users a !! username with
      | Some _ => (false, a)
      | None =>
          (true,
           set_users a
             (<[username :=
                  {| user_password := _hash_password password;
                     user_role := role; user_name := name;
                     user_email := email; user_created_at := strftime now;
                     user_last_login := None; user_status := "active" |}]>
                (users a)))
      end
  end.

(** The [updates] that the class itself passes to [update_user]: a new
    password, to be hashed, or a new status. *)
Inductive updates :=
| Password (new_password : string)
| Status (status : string).

Definition updated (u : User) (up : updates) : User :=
  match up with
  | Password new_password =>
      {| user_password := _hash_password new_password;
         user_role := user_role u; user_name := user_name u;
         user_email := user_email u; user_created_at := user_created_at u;
         user_last_login := user_last_login u; user_status := user_status u |}
  | Status status =>
      {| user_password := user_password u; user_role := user_role u;
         user_name := user_name u; user_email := user_email u;
         user_created_at := user_created_at u;
         user_last_login := user_last_login u; user_status := status |}
  end.

Definition update_user (a : AuthManager) (username : string) (up : updates)
  : bool * AuthManager :=
  match users a !! username with
  | None => (false, a)
  | Some u => (true, set_users a (<[username := updated u up]> (users a)))
  end.

Definition delete_user (a : AuthManager) (username : string)
  : bool * AuthManager :=
  if String.eqb username "admin" then (false, a)
  else
    match users a !! username with
    | None => (false, a)
    | Some _ => (true, set_users a (delete username (users a)))
    end.

Definition change_user_status (a : AuthManager) (username status : string)
  : bool * AuthManager :=
  if String.eqb username "admin" then (false, a)
  else if negb (String.eqb status "active" || String.eqb status "inactive")
  then (false, a)
  else update_user a username (Status status).

Definition reset_password (a : AuthManager) (username new_password : string)
  : bool * AuthManager :=
  update_user a username (Password new_password).

Definition get_user_permissions (a : AuthManager) (username : string)
  : outcome (list string) :=
  match users a !! username with
  | None => Ret []
  | Some u =>
      match roles (user_role u) with
      | Some permissions => Ret permissions
      | None => Raise "KeyError"
      end
  end.

(** *** The calls that app.py makes, in sequence *)

Inductive request :=
| Login (username password session_token : string)
| VerifySession (token : string)
| HasPermission (token permission : string)
| Logout (token : string)
| CreateUser (username password role name email : string)
| DeleteUser (username : string)
| ChangeUserStatus (username status : string)
| ResetPassword (username new_password : string).

Definition serve (a : AuthManager) (rq : request) (now : Z) : AuthManager :=
  match rq with
  | Login username password session_token =>
      snd (login a username password session_token now)
  | VerifySession token => snd (verify_session a token now)
  | HasPermission token permission => snd (has_permission a token permission now)
  | Logout token => snd (logout a token)
  | CreateUser username password role name email =>
      snd (create_user a username password role name email now)
  | DeleteUser username => snd (delete_user a username)
  | ChangeUserStatus username status =>
      snd (change_user_status a username status)
  | ResetPassword username new_password =>
      snd (reset_password a username new_password)
  end.

Fixpoint serve_all (a : AuthManager) (rqs : list (request * Z)) : AuthManager :=
  match rqs with
  | [] => a
  | (rq, now) :: rest => serve_all (serve a rq now) rest
  end.

(** The requests that manage the accounts. *)
Definition manages_accounts (rq : request) : bool :=
  match rq with
  | CreateUser _ _ _ _ _ | DeleteUser _ | ChangeUserStatus _ _
  | ResetPassword _ _ => true
  | _ => false
  end.

End WithHash.

(** *** Notions used to state the properties *)

(** The account as the requests may leave it: all but the password and the
    last login. *)
Definition same_account (u u' : User) : Prop :=
  user_role u' = user_role u /\ user_status u' = user_status u
  /\ user_name u' = user_name u /\ user_email u' = user_email u
  /\ user_created_at u' = user_created_at u.

(** *** A stand-in for the hash, and a first day

    The files are initialised at the instant [dawn]; the administrator
    logs in an hour later and creates the user "bob". *)

Definition digest (password : string) : string := "sha256:" ++ password.

Definition dawn : Z := 20000 * DAY.
Definition hour : Z := 3600 * US_PER_SECOND.

Definition genesis : AuthManager := _initialize_files digest dawn.

Definition admin_session : Session :=
  {| session_username := "admin"; session_role := "admin";
     session_name := "System Admin";
     session_permissions := ADMIN_PERMISSIONS;
     session_created_at := strftime (dawn + hour);
     session_expires_at := strftime (dawn + hour + DAY) |}.

Definition after_login : AuthManager :=
  snd (login digest genesis "admin" "admin123" "token-1" (dawn + hour)).

Definition with_bob : AuthManager :=
  snd (create_user digest after_login "bob" "s3cret" "user" "Bob"
         "bob@example.com" (dawn + hour)).

End Auth.

(** ** Properties of Attendance *)

Module AttendanceProps.

Import Attendance.

(** *** Basic facts about the status derivation *)

Lemma get_current_status_eq m emp_id now :
  get_current_status m emp_id now = (current m emp_id now, ensured m now).
Proof.
  unfold get_current_status, current, ensured, today_rows, _ensure_attendance_file.
  destruct (ledgers m !! date_of now) as [df|]; reflexivity.
Qed.

Lemma ensured_lookup m now :
  ledgers (ensured m now) !! date_of now = Some (today_rows m now).
Proof.
  unfold ensured, today_rows, _ensure_attendance_file.
  destruct (ledgers m !! date_of now) as [df|] eqn:E; simpl.
  - exact E.
  - apply lookup_insert_eq.
Qed.

Lemma ensured_lookup_ne m now d :
  d <> date_of now -> ledgers (ensured m now) !! d = ledgers m !! d.
Proof.
  intros Hd. unfold ensured, _ensure_attendance_file.
  destruct (ledgers m !! date_of now) as [df|] eqn:E; simpl.
  - reflexivity.
  - apply lookup_insert_ne. congruence.
Qed.

Lemma today_rows_ensured m now : today_rows (ensured m now) now = today_rows m now.
Proof. unfold today_rows at 1. rewrite ensured_lookup. reflexivity. Qed.

Lemma current_ensured m emp_id now :
  current (ensured m now) emp_id now = current m emp_id now.
Proof. unfold current. rewrite today_rows_ensured. reflexivity. Qed.

(** What the three shapes of an employee's rows give. *)
Lemma status_cases df emp_id now :
  let st := status_of_ledger df emp_id now in
  (st = no_record) \/
  (is_checked_in st = false /\ has_incomplete_record st = false /\
   already_checked_in_today st = true /\
   exists ir, ir ∈ indexed df /\ for_employee emp_id ir = true /\
              is_completed ir = true) \/
  (already_checked_in_today st = false /\ has_incomplete_record st = true /\
   exists ir, last (List.filter (for_employee emp_id) (indexed df)) = Some ir /\
              Check_Out (snd ir) = None /\
              List.filter is_completed (List.filter (for_employee emp_id) (indexed df)) = [] /\
              st = {| is_checked_in := true;
                      check_in_time := Some (Check_In (snd ir));
                      elapsed_us := _calculate_elapsed_minutes now (date_of now) (Check_In (snd ir));
                      record_index := Some (fst ir);
                      has_incomplete_record := true;
                      already_checked_in_today := false;
                      last_check_out := None |}).
Proof.
  unfold status_of_ledger.
  destruct (last (List.filter (for_employee emp_id) (indexed df))) as [latest|] eqn:Hl;
    [|left; reflexivity].
  destruct (last (List.filter is_completed (List.filter (for_employee emp_id) (indexed df))))
    as [done_|] eqn:Hc.
  - right; left. simpl. repeat split.
    exists done_.
    apply last_Some_elem_of in Hc.
    apply list_elem_of_In, filter_In in Hc as [Hc Hd].
    apply filter_In in Hc as [Hc He].
    repeat split; [apply list_elem_of_In; exact Hc | exact He | exact Hd].
  - destruct (Check_Out (snd latest)) eqn:Hco; [left; reflexivity|].
    right; right. simpl. repeat split.
    exists latest. repeat split; try assumption.
    apply last_None in Hc. exact Hc.
Qed.

(** *** Frame properties of the two transitions *)

(** The branches of [_process_check_in] and of [_process_check_out], once
    the status read has been replaced by [current] and [ensured]. *)
Ltac check_in_cases :=
  destruct (is_checked_in _ || has_incomplete_record _);
  destruct (get_employee_details _ _).

Ltac check_out_cases :=
  destruct (negb (is_checked_in _));
  [ destruct (get_employee_details _ _)
  | destruct (below_minimum _);
    [ | destruct (record_index _);
        [ destruct (check_in_time _);
          [ destruct (get_employee_details _ _) | ] | ] ] ].

Ltac check_in_branches :=
  unfold _process_check_in; rewrite !get_current_status_eq; check_in_cases.

Ltac check_out_branches :=
  unfold _process_check_out; rewrite !get_current_status_eq; check_out_cases.

Lemma _process_check_in_frame m emp_id now :
  employees (snd (_process_check_in m emp_id now)) = employees m /\
  last_processed (snd (_process_check_in m emp_id now)) = last_processed m.
Proof. check_in_branches; split; reflexivity. Qed.

Lemma _process_check_out_frame m emp_id now :
  employees (snd (_process_check_out m emp_id now)) = employees m /\
  last_processed (snd (_process_check_out m emp_id now)) = last_processed m.
Proof. check_out_branches; split; reflexivity. Qed.

(** Neither transition reads the cooldown tracker. *)
Lemma _process_check_in_blind m lp emp_id now :
  fst (_process_check_in (set_last_processed m lp) emp_id now)
  = fst (_process_check_in m emp_id now) /\
  ledgers (snd (_process_check_in (set_last_processed m lp) emp_id now))
  = ledgers (snd (_process_check_in m emp_id now)).
Proof.
  unfold _process_check_in. rewrite !get_current_status_eq.
  change (current (set_last_processed m lp) emp_id now) with (current m emp_id now).
  change (employees (set_last_processed m lp)) with (employees m).
  check_in_cases; split; reflexivity.
Qed.

Lemma _process_check_out_blind m lp emp_id now :
  fst (_process_check_out (set_last_processed m lp) emp_id now)
  = fst (_process_check_out m emp_id now) /\
  ledgers (snd (_process_check_out (set_last_processed m lp) emp_id now))
  = ledgers (snd (_process_check_out m emp_id now)).
Proof.
  unfold _process_check_out. rewrite !get_current_status_eq.
  change (current (set_last_processed m lp) emp_id now) with (current m emp_id now).
  change (employees (set_last_processed m lp)) with (employees m).
  check_out_cases; split; reflexivity.
Qed.

Lemma _process_check_in_no_cooldown m emp_id now :
  is_cooldown (fst (_process_check_in m emp_id now)) = false.
Proof. check_in_branches; reflexivity. Qed.

Lemma _process_check_out_no_cooldown m emp_id now :
  is_cooldown (fst (_process_check_out m emp_id now)) = false.
Proof. check_out_branches; reflexivity. Qed.

(** C10. [manual_attendance] neither consults nor updates the cooldown
    tracker: for every manager, employee id, action and instant, the
    [last_processed] map after the call is the map before it; the result
    and the ledgers written are the same whatever the map holds; and the
    result is never the cooldown rejection. *)
Theorem manual_attendance_ignores_cooldown
  (m : Manager) (emp_id action : string) (now : Z) :
  last_processed (snd (manual_attendance m emp_id action now)) = last_processed m
  /\ (forall lp : gmap string Z,
        fst (manual_attendance (set_last_processed m lp) emp_id action now)
        = fst (manual_attendance m emp_id action now)
        /\ ledgers (snd (manual_attendance (set_last_processed m lp) emp_id action now))
           = ledgers (snd (manual_attendance m emp_id action now)))
  /\ is_cooldown (fst (manual_attendance m emp_id action now)) = false.
Proof.
  unfold manual_attendance.
  change (employees (set_last_processed m _)) with (employees m).
  destruct (get_employee_details (employees m) emp_id) as [e|];
    [|repeat split; reflexivity].
  destruct (String.eqb action "CHECK_IN").
  - split; [apply _process_check_in_frame|].
    split; [intros lp; apply _process_check_in_blind|].
    apply _process_check_in_no_cooldown.
  - destruct (String.eqb action "CHECK_OUT").
    + split; [apply _process_check_out_frame|].
      split; [intros lp; apply _process_check_out_blind|].
      apply _process_check_out_no_cooldown.
    + repeat split; reflexivity.
Qed.

(** *** The cooldown *)

Lemma record_success_employees m emp_id now r :
  employees (record_success m emp_id now r) = employees m.
Proof. destruct r as [[[] ?]|]; reflexivity. Qed.

Lemma record_success_ledgers m emp_id now r :
  ledgers (record_success m emp_id now r) = ledgers m.
Proof. destruct r as [[[] ?]|]; reflexivity. Qed.

Lemma record_success_stamp m emp_id now r :
  status r = SUCCESS ->
  last_processed (record_success m emp_id now (Ret r)) !! emp_id = Some now.
Proof.
  destruct r as [[] ?]; simpl; try discriminate.
  intros _. apply lookup_insert_eq.
Qed.

Lemma process_employee_employees m emp_id e mode now :
  employees (snd (process_employee m emp_id e mode now)) = employees m.
Proof.
  unfold process_employee. rewrite get_current_status_eq.
  destruct (String.eqb mode "CHECK_IN" || String.eqb mode "CHECK IN").
  - destruct (already_checked_in_today _); [reflexivity|].
    destruct (is_checked_in _); [reflexivity|].
    destruct (negb (has_incomplete_record _)); [|reflexivity].
    destruct (_process_check_in (ensured m now) emp_id now) as [r m2] eqn:E.
    simpl. rewrite record_success_employees.
    change m2 with (snd (r, m2)). rewrite <- E.
    exact (proj1 (_process_check_in_frame (ensured m now) emp_id now)).
  - destruct (String.eqb mode "CHECK_OUT" || String.eqb mode "CHECK OUT");
      [|reflexivity].
    destruct (already_checked_in_today _); [reflexivity|].
    destruct (negb (is_checked_in _)); [reflexivity|].
    destruct (below_minimum _); [reflexivity|].
    destruct (_process_check_out (ensured m now) emp_id now) as [r m2] eqn:E.
    simpl. rewrite record_success_employees.
    change m2 with (snd (r, m2)). rewrite <- E.
    exact (proj1 (_process_check_out_frame (ensured m now) emp_id now)).
Qed.

(** A successful transition through [process_attendance] stamps the
    employee with the instant of the call. *)
Lemma process_employee_success m emp_id e mode now r m' :
  process_employee m emp_id e mode now = (Ret r, m') ->
  status r = SUCCESS ->
  last_processed m' !! emp_id = Some now.
Proof.
  unfold process_employee. rewrite get_current_status_eq.
  intros H Hs.
  destruct (String.eqb mode "CHECK_IN" || String.eqb mode "CHECK IN").
  - destruct (already_checked_in_today _);
      [injection H as <- <-; discriminate|].
    destruct (is_checked_in _); [injection H as <- <-; discriminate|].
    destruct (negb (has_incomplete_record _));
      [|injection H as <- <-; discriminate].
    destruct (_process_check_in (ensured m now) emp_id now) as [r0 m2].
    injection H as -> <-. apply record_success_stamp, Hs.
  - destruct (String.eqb mode "CHECK_OUT" || String.eqb mode "CHECK OUT");
      [|injection H as <- <-; discriminate].
    destruct (already_checked_in_today _);
      [injection H as <- <-; discriminate|].
    destruct (negb (is_checked_in _)); [injection H as <- <-; discriminate|].
    destruct (below_minimum _); [injection H as <- <-; discriminate|].
    destruct (_process_check_out (ensured m now) emp_id now) as [r0 m2].
    injection H as -> <-. apply record_success_stamp, Hs.
Qed.

Lemma cooldown_remaining_floor t :
  t < COOLDOWN_SECONDS * US_PER_SECOND ->
  cooldown_remaining t = (COOLDOWN_SECONDS * US_PER_SECOND - t) / US_PER_SECOND.
Proof.
  intros Ht. unfold cooldown_remaining, int_of.
  apply Z.quot_div_nonneg; unfold US_PER_SECOND in *; lia.
Qed.

(** What a call for one recognised name does. *)
Lemma process_attendance_single m name mode now :
  process_attendance m [name] mode now =
  if String.eqb name "Unknown" then (Ret [], m)
  else match get_employee_by_name (employees m) name with
       | None => (Ret [], m)
       | Some (emp_id, e) =>
           match cooldown_check m emp_id now with
           | Some n => (Ret [mkResult ERROR (MsgCooldown n)], m)
           | None =>
               match process_employee m emp_id e (upper mode) now with
               | (Ret r, m') => (Ret [r], m')
               | (Raise exn, m') => (Raise exn, m')
               end
           end
       end.
Proof.
  unfold process_attendance. simpl.
  destruct (String.eqb name "Unknown"); [reflexivity|].
  destruct (get_employee_by_name _ _) as [[emp_id e]|]; [|reflexivity].
  destruct (cooldown_check _ _ _); [reflexivity|].
  destruct (process_employee _ _ _ _ _) as [[r|exn] m']; reflexivity.
Qed.

(** C3 (as the code has it). When a [process_attendance] call for a
    recognised name succeeds at instant [t1], a further call for the same
    name at an instant [t2] less than 60 seconds after [t1], in whatever
    mode, is rejected with the cooldown message; the seconds it states are
    [60 - (t2 - t1)] rounded down, and nothing is written. (The cooldown
    starts from a SUCCESS only.) *)
Theorem cooldown_after_success
  (m m1 : Manager) (name mode1 mode2 : string) (t1 t2 : Z) (r1 : result) :
  process_attendance m [name] mode1 t1 = (Ret [r1], m1) ->
  status r1 = SUCCESS ->
  t2 - t1 < COOLDOWN_SECONDS * US_PER_SECOND ->
  process_attendance m1 [name] mode2 t2 =
    (Ret [mkResult ERROR
            (MsgCooldown
               ((COOLDOWN_SECONDS * US_PER_SECOND - (t2 - t1)) / US_PER_SECOND))],
     m1).
Proof.
  intros H1 Hs Ht.
  rewrite process_attendance_single in H1.
  rewrite process_attendance_single.
  destruct (String.eqb name "Unknown"); [discriminate|].
  destruct (get_employee_by_name (employees m) name) as [[emp_id e]|] eqn:Hn;
    [|discriminate].
  destruct (cooldown_check m emp_id t1) as [n|].
  { injection H1 as <- _. discriminate. }
  destruct (process_employee m emp_id e (upper mode1) t1) as [[r|exn] m'] eqn:Hp;
    [|discriminate].
  injection H1 as -> ->.
  assert (He : employees m1 = employees m).
  { change m1 with (snd (Ret r1, m1)). rewrite <- Hp.
    apply process_employee_employees. }
  rewrite He, Hn.
  unfold cooldown_check.
  rewrite (process_employee_success _ _ _ _ _ _ _ Hp Hs).
  apply Z.ltb_lt in Ht as Ht'. rewrite Ht'.
  rewrite cooldown_remaining_floor by exact Ht.
  reflexivity.
Qed.

(** *** The minimum stay before check-out *)

Lemma checked_in_not_completed df emp_id now :
  is_checked_in (status_of_ledger df emp_id now) = true ->
  already_checked_in_today (status_of_ledger df emp_id now) = false.
Proof.
  intros H. destruct (status_cases df emp_id now) as [E|[(E & _)|(E & _)]].
  - rewrite E in H. discriminate.
  - rewrite E in H. discriminate.
  - exact E.
Qed.

Lemma below_minimum_false st :
  below_minimum st = false -> MIN_CHECKOUT_MINUTES * US_PER_MINUTE <= elapsed_us st.
Proof. unfold below_minimum. intros H. apply Z.ltb_ge in H. exact H. Qed.

Lemma below_minimum_true st :
  elapsed_us st < MIN_CHECKOUT_MINUTES * US_PER_MINUTE -> below_minimum st = true.
Proof. unfold below_minimum. intros H. apply Z.ltb_lt. exact H. Qed.

(** A check-out through [_process_check_out] succeeds only for a checked-in
    employee whose stay has reached the minimum. *)
Lemma _process_check_out_success m emp_id now r m' :
  _process_check_out m emp_id now = (Ret r, m') ->
  status r = SUCCESS ->
  is_checked_in (current m emp_id now) = true /\
  below_minimum (current m emp_id now) = false.
Proof.
  unfold _process_check_out. rewrite get_current_status_eq.
  intros H Hs.
  destruct (is_checked_in (current m emp_id now)); simpl in H.
  - destruct (below_minimum (current m emp_id now)).
    + injection H as <- _. discriminate.
    + split; reflexivity.
  - destruct (get_employee_details _ _); [|discriminate].
    injection H as <- _. discriminate.
Qed.

Lemma process_employee_check_out m emp_id e mode now :
  check_out_mode mode ->
  process_employee m emp_id e (upper mode) now =
  let st := current m emp_id now in
  if already_checked_in_today st then
    (Ret (mkResult ERROR (MsgCompleted (emp_name e))), ensured m now)
  else if negb (is_checked_in st) then
    (Ret (mkResult ERROR (MsgNotCheckedInToday (emp_name e))), ensured m now)
  else if below_minimum st then
    (Ret (mkResult ERROR
            (MsgMustWait (MIN_CHECKOUT_MINUTES - elapsed_whole_minutes st)
               MIN_CHECKOUT_MINUTES)), ensured m now)
  else
    let '(r, m2) := _process_check_out (ensured m now) emp_id now in
    (r, record_success m2 emp_id now r).
Proof.
  intros [Hm|Hm]; unfold process_employee; rewrite get_current_status_eq, Hm;
    reflexivity.
Qed.

(** C4 (as the code has it). For an employee whose current status is
    checked-in: a check-out, through [process_attendance] or through
    [manual_attendance], succeeds only when the time elapsed since check-in
    is at least 60 minutes. Below 60 minutes, [process_attendance] (when no
    cooldown applies) rejects with a message stating
    [60 - whole elapsed minutes] minutes to wait, and [manual_attendance]
    rejects with a message stating the whole elapsed minutes. Neither
    rejection writes a row. *)
Theorem check_out_minimum_stay
  (m : Manager) (emp_id name mode : string) (e : Employee) (now : Z) :
  get_employee_by_name (employees m) name = Some (emp_id, e) ->
  String.eqb name "Unknown" = false ->
  check_out_mode mode ->
  is_checked_in (current m emp_id now) = true ->
  let st := current m emp_id now in
  (forall r m',
      process_attendance m [name] mode now = (Ret [r], m') \/
      manual_attendance m emp_id "CHECK_OUT" now = (Ret r, m') ->
      status r = SUCCESS ->
      MIN_CHECKOUT_MINUTES * US_PER_MINUTE <= elapsed_us st)
  /\ (elapsed_us st < MIN_CHECKOUT_MINUTES * US_PER_MINUTE ->
      (cooldown_check m emp_id now = None ->
       process_attendance m [name] mode now =
         (Ret [mkResult ERROR
                 (MsgMustWait (MIN_CHECKOUT_MINUTES - elapsed_whole_minutes st)
                    MIN_CHECKOUT_MINUTES)], ensured m now))
      /\ (is_Some (get_employee_details (employees m) emp_id) ->
          manual_attendance m emp_id "CHECK_OUT" now =
            (Ret (mkResult ERROR
                    (MsgTooEarly MIN_CHECKOUT_MINUTES (elapsed_whole_minutes st))),
             ensured m now))).
Proof.
  intros Hn Hu Hmode Hin st.
  pose proof (checked_in_not_completed _ _ _ Hin) as Hnc.
  fold (current m emp_id now) in Hnc. fold st in Hnc, Hin.
  split.
  - intros r m' [H|H] Hs.
    + rewrite process_attendance_single, Hu, Hn in H.
      destruct (cooldown_check m emp_id now).
      { injection H as <- _. discriminate. }
      rewrite (process_employee_check_out _ _ _ _ _ Hmode) in H.
      cbv zeta in H. fold st in H. rewrite Hnc, Hin in H. simpl in H.
      destruct (below_minimum st) eqn:Hb.
      { injection H as <- _. discriminate. }
      apply below_minimum_false, Hb.
    + unfold manual_attendance in H.
      destruct (get_employee_details (employees m) emp_id).
      * simpl in H.
        destruct (_process_check_out_success _ _ _ _ _ H Hs) as [_ Hb].
        apply below_minimum_false, Hb.
      * injection H as <- _. discriminate.
  - intros Hlt. apply below_minimum_true in Hlt. split.
    + intros Hcd.
      rewrite process_attendance_single, Hu, Hn, Hcd.
      rewrite (process_employee_check_out _ _ _ _ _ Hmode).
      cbv zeta. fold st. rewrite Hnc, Hin. simpl. rewrite Hlt. reflexivity.
    + intros [e' He']. unfold manual_attendance. rewrite He'. simpl.
      unfold _process_check_out. rewrite get_current_status_eq.
      fold st. rewrite Hin. simpl. rewrite Hlt. reflexivity.
Qed.

(** *** Total hours *)

Lemma all_from_spec f n : forall lo,
  all_from f lo n = true ->
  forall s, lo <= s < lo + Z.of_nat n -> f s = true.
Proof.
  induction n as [|k IH]; intros lo H s Hs; [lia|].
  simpl in H. destruct (f lo) eqn:Hf; [|discriminate].
  destruct (Z.eq_dec s lo) as [->|Hne]; [exact Hf|].
  apply (IH (lo + 1) H). lia.
Qed.

(** Every stay from one second to a day less one second. *)
Lemma day_of_stays :
  all_from rounds_to_nearest_hundredth 1 (Z.to_nat 86399) = true.
Proof. vm_compute. reflexivity. Qed.

Lemma round2_hours secs :
  1 <= secs < 86400 ->
  PyFloat.round2 (hours_between 0 secs)
  = PyFloat.of_hundredths (PyFloat.hundredths (hours_between 0 secs))
  /\ Z.abs (36 * PyFloat.hundredths (hours_between 0 secs) - secs) <= 18.
Proof.
  intros Hs.
  assert (H : rounds_to_nearest_hundredth secs = true).
  { apply (all_from_spec _ _ _ day_of_stays). lia. }
  unfold rounds_to_nearest_hundredth in H.
  unfold PyFloat.round2, PyFloat.hundredths.
  destruct (Prim2SF (hours_between 0 secs)) as [| | |s m [|p|p]];
    try discriminate.
  split; [reflexivity|]. apply Z.leb_le, H.
Qed.

Lemma hours_between_shift check_in check_out :
  hours_between check_in check_out = hours_between 0 (check_out - check_in).
Proof. unfold hours_between. rewrite Z.sub_0_r. reflexivity. Qed.
Lemma alter_as_insert {A} (f : A -> A) (l : list A) (i : nat) (x : A) :
  l !! i = Some x -> alter f i l = <[i := f x]> l.
Proof.
  intros H. rewrite list_insert_alter.
  apply list_alter_ext; [|reflexivity].
  intros y Hy. congruence.
Qed.

Lemma combine_seq_lookup {A} (l : list A) : forall (k i : nat) (x : A),
  In (i, x) (combine (seq k (length l)) l) ->
  (k <= i)%nat /\ l !! (i - k)%nat = Some x.
Proof.
  induction l as [|a l IH]; intros k i x H; [destruct H|].
  simpl in H. destruct H as [H|H].
  - injection H as <- <-. rewrite Nat.sub_diag. split; [lia|reflexivity].
  - apply IH in H as [Hk Hl]. split; [lia|].
    replace (i - k)%nat with (S (i - S k)) by lia. exact Hl.
Qed.

Lemma indexed_lookup df i r : (i, r) ∈ indexed df -> df !! i = Some r.
Proof.
  intros H. apply list_elem_of_In in H.
  apply combine_seq_lookup in H as [_ H].
  rewrite Nat.sub_0_r in H. exact H.
Qed.

(** The open row a checked-in status points at. *)
Lemma checked_in_row df emp_id now :
  is_checked_in (status_of_ledger df emp_id now) = true ->
  exists (i : nat) (row : Row),
    df !! i = Some row /\ Employee_ID row = emp_id /\ Check_Out row = None /\
    record_index (status_of_ledger df emp_id now) = Some i /\
    check_in_time (status_of_ledger df emp_id now) = Some (Check_In row) /\
    elapsed_us (status_of_ledger df emp_id now)
    = _calculate_elapsed_minutes now (date_of now) (Check_In row).
Proof.
  intros H.
  destruct (status_cases df emp_id now) as [E|[(E & _)|(_ & _ & ir & Hl & Hco & _ & E)]].
  - rewrite E in H. discriminate.
  - rewrite E in H. discriminate.
  - destruct ir as [i row]. simpl in *.
    apply last_Some_elem_of in Hl.
    apply list_elem_of_In, filter_In in Hl as [Hl He].
    exists i, row. rewrite E. simpl.
    repeat split; try assumption.
    + apply indexed_lookup, list_elem_of_In, Hl.
    + apply String.eqb_eq, He.
Qed.

Lemma time_of_range now : 0 <= time_of now < 86400.
Proof.
  unfold time_of, US_PER_DAY, US_PER_SECOND.
  pose proof (Z.mod_pos_bound now (86400 * 1000000) ltac:(lia)) as Hm.
  split.
  - apply Z.div_pos; lia.
  - apply Z.div_lt_upper_bound; lia.
Qed.

(** Whole seconds between check-in and an instant at least the minimum stay
    later. *)
Lemma minimum_stay_seconds now check_in :
  MIN_CHECKOUT_MINUTES * US_PER_MINUTE
    <= _calculate_elapsed_minutes now (date_of now) check_in ->
  3600 <= time_of now - check_in.
Proof.
  unfold _calculate_elapsed_minutes, strptime, date_of, time_of,
    MIN_CHECKOUT_MINUTES, US_PER_MINUTE, US_PER_DAY, US_PER_SECOND.
  intros H.
  pose proof (Z.div_mod now (86400 * 1000000) ltac:(lia)) as Hdm.
  assert (Hge : (check_in + 3600) * 1000000 <= now mod (86400 * 1000000)) by lia.
  assert (check_in + 3600 <= now mod (86400 * 1000000) / 1000000).
  { apply Z.div_le_lower_bound; lia. }
  lia.
Qed.

(** C5. A successful check-out closes the employee's open row of today's
    ledger. The row that today's ledger then holds at that place has the
    date and the check-in time of the open row, the time of the call as
    [Check_Out] and, as [Total_Hours],
    [round((check_out - check_in) / 3600, 2)] of these two times, computed
    in binary64; the ledger has as many rows as before, and the times and
    the hours of its other rows are as they were. For every two times of
    a day, the later after the earlier, that value is the binary64 number
    written [n/100] for a hundredth [n] nearest to the exact number of
    hours. In particular 09:00:00 to 10:30:00 records 1.5 and 09:00:00 to
    10:01:00 records 1.02. *)
Theorem total_hours_recorded :
  (forall (m m' : Manager) (emp_id : string) (now : Z) (r : result),
      _process_check_out m emp_id now = (Ret r, m') ->
      status r = SUCCESS ->
      exists (i : nat) (row row' : Row) (df' : list Row),
        today_rows m now !! i = Some row /\
        Employee_ID row = emp_id /\
        Check_Out row = None /\
        ledgers m' !! date_of now = Some df' /\
        length df' = length (today_rows m now) /\
        df' !! i = Some row' /\
        Date row' = Date row /\
        Check_In row' = Check_In row /\
        Check_Out row' = Some (time_of now) /\
        Total_Hours row'
        = PyFloat.round2 (hours_between (Check_In row) (time_of now)) /\
        (forall (j : nat) (other : Row),
            j <> i -> today_rows m now !! j = Some other ->
            exists other' : Row,
              df' !! j = Some other' /\
              Check_In other' = Check_In other /\
              Check_Out other' = Check_Out other /\
              Total_Hours other' = Total_Hours other))
  /\ (forall check_in check_out : Z,
        0 <= check_in -> check_in < check_out -> check_out < 86400 ->
        PyFloat.round2 (hours_between check_in check_out)
        = PyFloat.of_hundredths
            (PyFloat.hundredths (hours_between check_in check_out))
        /\ Z.abs (36 * PyFloat.hundredths (hours_between check_in check_out)
                  - (check_out - check_in)) <= 18)
  /\ PyFloat.round2 (hours_between (hms 9 0 0) (hms 10 30 0)) = 1.5%float
  /\ PyFloat.round2 (hours_between (hms 9 0 0) (hms 10 1 0)) = 1.02%float.
Proof.
  split; [|split; [|split; vm_compute; reflexivity]].
  - intros m m' emp_id now r H Hs.
    destruct (_process_check_out_success _ _ _ _ _ H Hs) as [Hin Hb].
    unfold _process_check_out in H. rewrite get_current_status_eq in H.
    rewrite Hin, Hb in H. simpl in H.
    unfold current in *.
    destruct (checked_in_row _ _ _ Hin)
      as (i & row & Hrow & Hid & Hco & Hri & Hci & Hel).
    rewrite Hri, Hci in H.
    destruct (get_employee_details (employees m) emp_id); [|discriminate].
    injection H as _ <-.
    pose proof (ensured_lookup m now) as Hl.
    unfold ensured in Hl. cbn [ledgers set_ledgers] in Hl.
    exists i, row,
      (close_record (time_of now)
         (PyFloat.round2 (hours_between (Check_In row) (time_of now))) row),
      (alter (close_record (time_of now)
                (PyFloat.round2 (hours_between (Check_In row) (time_of now))))
         i (today_rows m now)).
    split; [exact Hrow|]. split; [exact Hid|]. split; [exact Hco|].
    split.
    { cbn [ledgers set_ledgers]. rewrite lookup_insert_eq, Hl.
      reflexivity. }
    split; [apply length_alter|].
    split.
    { rewrite list_lookup_alter, decide_True by reflexivity.
      rewrite Hrow. reflexivity. }
    cbn [close_record Date Check_In Check_Out Total_Hours].
    repeat (split; [reflexivity|]).
    intros j other Hj Hother. exists other.
    rewrite list_lookup_alter, decide_False by congruence.
    repeat split. exact Hother.
  - intros check_in check_out H0 Hlt Hday.
    rewrite hours_between_shift. apply round2_hours. lia.
Qed.

(** *** After a completed cycle *)

(** The recognition path refuses an employee who has a closed row today,
    in either mode, and leaves every row as it is. *)
Lemma process_employee_blocked m emp_id e mode now :
  already_checked_in_today (current m emp_id now) = true ->
  exists r,
    process_employee m emp_id e mode now = (Ret r, ensured m now) /\
    status r = ERROR.
Proof.
  intros H. unfold process_employee. rewrite get_current_status_eq, H.
  destruct (String.eqb mode "CHECK_IN" || String.eqb mode "CHECK IN");
    [eexists; split; reflexivity|].
  destruct (String.eqb mode "CHECK_OUT" || String.eqb mode "CHECK OUT");
    eexists; split; reflexivity.
Qed.

(** The manual path does not look at [already_checked_in_today]: a manual
    check-in of a registered employee with a closed row today appends a
    fresh open row and reports success. *)
Lemma manual_check_in_not_blocked m emp_id e now :
  get_employee_details (employees m) emp_id = Some e ->
  already_checked_in_today (current m emp_id now) = true ->
  manual_attendance m emp_id "CHECK_IN" now =
    (Ret (mkResult SUCCESS (MsgCheckedIn (emp_name e))),
     set_ledgers (ensured m now)
       (<[date_of now := (today_rows m now ++ [new_record emp_id e now])%list]>
          (ledgers (ensured m now)))).
Proof.
  intros He H. unfold manual_attendance. rewrite He.
  change (String.eqb "CHECK_IN" "CHECK_IN") with true. cbv iota.
  unfold _process_check_in. rewrite get_current_status_eq, He.
  destruct (status_cases (today_rows m now) emp_id now)
    as [E|[(E1 & E2 & _)|(E & _)]]; fold (current m emp_id now) in *.
  - rewrite E in H. discriminate.
  - rewrite E1, E2. cbn [orb]. rewrite ensured_lookup. reflexivity.
  - rewrite E in H. discriminate.
Qed.

(** C1 (the code at the failing input). Alice checks in at 09:00:00 and
    out at 10:01:00, so today's ledger holds her closed row; a manual
    check-in at 10:02:00 is then reported as SUCCESS and appends a second
    row for her. *)
Theorem manual_check_in_after_completed_cycle :
  ledgers office_1001 !! today
  = Some [alice_row (hms 9 0 0) (Some (hms 10 1 0)) 1.02%float]
  /\ manual_attendance office_1001 "E1" "CHECK_IN" (at_clock 10 2 0)
     = (Ret (mkResult SUCCESS (MsgCheckedIn "Alice")), office_1002)
  /\ ledgers office_1002 !! today
     = Some [alice_row (hms 9 0 0) (Some (hms 10 1 0)) 1.02%float;
             alice_row (hms 10 2 0) None 0%float].
Proof. repeat split; vm_compute; reflexivity. Qed.

(** C2 (the code at the failing input). Starting from no ledger at all:
    manual check-in at 09:00:00, manual check-out at 10:01:00, then manual
    check-ins at 10:02:00 and 10:03:00 all succeed, and today's ledger ends
    with two rows for Alice whose [Check_Out] is empty. *)
Theorem two_open_rows_after_manual_check_ins :
  ledgers office = ∅
  /\ fst (manual_attendance office "E1" "CHECK_IN" (at_clock 9 0 0))
     = Ret (mkResult SUCCESS (MsgCheckedIn "Alice"))
  /\ fst (manual_attendance office_0900 "E1" "CHECK_OUT" (at_clock 10 1 0))
     = Ret (mkResult SUCCESS (MsgCheckedOut "Alice" 61))
  /\ fst (manual_attendance office_1001 "E1" "CHECK_IN" (at_clock 10 2 0))
     = Ret (mkResult SUCCESS (MsgCheckedIn "Alice"))
  /\ fst (manual_attendance office_1002 "E1" "CHECK_IN" (at_clock 10 3 0))
     = Ret (mkResult SUCCESS (MsgCheckedIn "Alice"))
  /\ open_rows "E1" (today_rows office_1003 (at_clock 10 3 0))
     = [alice_row (hms 10 2 0) None 0%float; alice_row (hms 10 3 0) None 0%float].
Proof. repeat split; vm_compute; reflexivity. Qed.

(** *** Witnesses and counterexamples of the timing rules *)

(** C3, as stated, fails: a check-out attempt at 09:00:00 is rejected (Alice
    has not checked in), and a check-in attempt ten seconds later is not
    rejected with a cooldown message: it succeeds. *)
Lemma rejected_attempt_starts_no_cooldown :
  fst (process_attendance office ["Alice"] "CHECK_OUT" (at_clock 9 0 0))
  = Ret [mkResult ERROR (MsgNotCheckedInToday "Alice")]
  /\ at_clock 9 0 10 - at_clock 9 0 0 < COOLDOWN_SECONDS * US_PER_SECOND
  /\ fst (process_attendance
            (snd (process_attendance office ["Alice"] "CHECK_OUT" (at_clock 9 0 0)))
            ["Alice"] "CHECK_IN" (at_clock 9 0 10))
     = Ret [mkResult SUCCESS (MsgCheckedIn "Alice")].
Proof. repeat split; vm_compute; reflexivity. Qed.

Lemma cooldown_after_success_witness :
  process_attendance office ["Alice"] "CHECK_IN" (at_clock 9 0 0)
  = (Ret [mkResult SUCCESS (MsgCheckedIn "Alice")], camera_0900)
  /\ status (mkResult SUCCESS (MsgCheckedIn "Alice")) = SUCCESS
  /\ at_clock 9 0 30 - at_clock 9 0 0 < COOLDOWN_SECONDS * US_PER_SECOND
  /\ process_attendance camera_0900 ["Alice"] "CHECK_OUT" (at_clock 9 0 30)
     = (Ret [mkResult ERROR (MsgCooldown 30)], camera_0900).
Proof.
  assert (H1 : process_attendance office ["Alice"] "CHECK_IN" (at_clock 9 0 0)
               = (Ret [mkResult SUCCESS (MsgCheckedIn "Alice")], camera_0900))
    by (vm_compute; reflexivity).
  assert (H3 : at_clock 9 0 30 - at_clock 9 0 0 < COOLDOWN_SECONDS * US_PER_SECOND)
    by reflexivity.
  split; [exact H1|]. split; [reflexivity|]. split; [exact H3|].
  exact (cooldown_after_success office camera_0900 "Alice" "CHECK_IN" "CHECK_OUT"
           (at_clock 9 0 0) (at_clock 9 0 30) _ H1 eq_refl H3).
Defined.

(** C4, as stated, fails on two counts. Five minutes after a manual
    check-in, a manual check-out is rejected with a message that states the
    5 minutes elapsed, not the 55 that remain; and thirty seconds after a
    check-in by the camera, a check-out by the camera is rejected with the
    cooldown message, which states seconds. *)
Lemma rejection_without_remaining_minutes :
  fst (manual_attendance office_0900 "E1" "CHECK_OUT" (at_clock 9 5 0))
  = Ret (mkResult ERROR (MsgTooEarly 60 5))
  /\ render (MsgTooEarly 60 5)
     = "Cannot check out before 60 minutes. Time elapsed: 5 minutes"
  /\ fst (process_attendance camera_0900 ["Alice"] "CHECK_OUT" (at_clock 9 0 30))
     = Ret [mkResult ERROR (MsgCooldown 30)]
  /\ render (MsgCooldown 30) = "⏳ Please wait 30 seconds before trying again".
Proof. repeat split; vm_compute; reflexivity. Qed.

Lemma check_out_minimum_stay_witness :
  get_employee_by_name (employees office_0900) "Alice" = Some ("E1", alice)
  /\ String.eqb "Alice" "Unknown" = false
  /\ check_out_mode "check_out"
  /\ is_checked_in (current office_0900 "E1" (at_clock 9 5 0)) = true
  /\ elapsed_us (current office_0900 "E1" (at_clock 9 5 0))
     < MIN_CHECKOUT_MINUTES * US_PER_MINUTE
  /\ cooldown_check office_0900 "E1" (at_clock 9 5 0) = None
  /\ process_attendance office_0900 ["Alice"] "check_out" (at_clock 9 5 0)
     = (Ret [mkResult ERROR (MsgMustWait 55 60)], office_0900)
  /\ render (MsgMustWait 55 60)
     = "⏳ Must wait 55 minutes before check-out (Minimum 60 minutes required)"
  /\ manual_attendance office_0900 "E1" "CHECK_OUT" (at_clock 9 5 0)
     = (Ret (mkResult ERROR (MsgTooEarly 60 5)), office_0900).
Proof.
  assert (Hmode : check_out_mode "check_out") by (left; reflexivity).
  destruct (check_out_minimum_stay office_0900 "E1" "Alice" "check_out" alice
              (at_clock 9 5 0) eq_refl eq_refl Hmode eq_refl)
    as [_ Hrej].
  destruct (Hrej eq_refl) as [Hcam Hman].
  split; [reflexivity|].
  split; [reflexivity|].
  split; [exact Hmode|].
  split; [reflexivity|].
  split; [reflexivity|].
  split; [reflexivity|].
  split; [exact (Hcam eq_refl)|].
  split; [reflexivity|].
  exact (Hman (ex_intro _ alice eq_refl)).
Defined.

Lemma total_hours_recorded_witness :
  _process_check_out office_0900 "E1" (at_clock 10 1 0)
  = (Ret (mkResult SUCCESS (MsgCheckedOut "Alice" 61)), office_1001)
  /\ status (mkResult SUCCESS (MsgCheckedOut "Alice" 61)) = SUCCESS
  /\ 0 <= hms 9 0 0 /\ hms 9 0 0 < hms 10 1 0 /\ hms 10 1 0 < 86400
  /\ (exists (i : nat) (row row' : Row) (df' : list Row),
        today_rows office_0900 (at_clock 10 1 0) !! i = Some row /\
        Employee_ID row = "E1" /\
        Check_Out row = None /\
        ledgers office_1001 !! date_of (at_clock 10 1 0) = Some df' /\
        length df' = length (today_rows office_0900 (at_clock 10 1 0)) /\
        df' !! i = Some row' /\
        Date row' = Date row /\
        Check_In row' = Check_In row /\
        Check_Out row' = Some (time_of (at_clock 10 1 0)) /\
        Total_Hours row'
        = PyFloat.round2
            (hours_between (Check_In row) (time_of (at_clock 10 1 0))) /\
        (forall (j : nat) (other : Row),
            j <> i ->
            today_rows office_0900 (at_clock 10 1 0) !! j = Some other ->
            exists other' : Row,
              df' !! j = Some other' /\
              Check_In other' = Check_In other /\
              Check_Out other' = Check_Out other /\
              Total_Hours other' = Total_Hours other))
  /\ ledgers office_1001 !! today
     = Some [alice_row (hms 9 0 0) (Some (hms 10 1 0)) 1.02%float]
  /\ PyFloat.round2 (hours_between (hms 9 0 0) (hms 10 1 0))
     = PyFloat.of_hundredths
         (PyFloat.hundredths (hours_between (hms 9 0 0) (hms 10 1 0)))
  /\ Z.abs (36 * PyFloat.hundredths (hours_between (hms 9 0 0) (hms 10 1 0))
            - (hms 10 1 0 - hms 9 0 0)) <= 18.
Proof.
  assert (H : _process_check_out office_0900 "E1" (at_clock 10 1 0)
              = (Ret (mkResult SUCCESS (MsgCheckedOut "Alice" 61)), office_1001))
    by (vm_compute; reflexivity).
  assert (H0 : 0 <= hms 9 0 0) by (vm_compute; discriminate).
  assert (H1 : hms 9 0 0 < hms 10 1 0) by (vm_compute; reflexivity).
  assert (H2 : hms 10 1 0 < 86400) by (vm_compute; reflexivity).
  split; [exact H|]. split; [reflexivity|].
  split; [exact H0|]. split; [exact H1|]. split; [exact H2|].
  split; [exact (proj1 total_hours_recorded _ _ _ _ _ H eq_refl)|].
  split; [vm_compute; reflexivity|].
  exact (proj1 (proj2 total_hours_recorded) _ _ H0 H1 H2).
Defined.

(** *** The recognition path keeps one row per employee and day *)

Lemma combine_seq_filter_snd {A} (p : A -> bool) (l : list A) : forall k,
  map snd (List.filter (fun ir : nat * A => p (snd ir)) (combine (seq k (length l)) l))
  = List.filter p l.
Proof.
  induction l as [|a l IH]; intros k; [reflexivity|].
  simpl. destruct (p a); simpl; rewrite IH; reflexivity.
Qed.

Lemma rows_of_indexed emp_id df :
  rows_of emp_id df = map snd (List.filter (for_employee emp_id) (indexed df)).
Proof.
  unfold rows_of, indexed, for_employee.
  symmetry.
  apply (combine_seq_filter_snd (fun r => String.eqb (Employee_ID r) emp_id)).
Qed.

(** A status with no flag raised means the employee has no row today. *)
Lemma no_flags_no_rows df emp_id now :
  already_checked_in_today (status_of_ledger df emp_id now) = false ->
  is_checked_in (status_of_ledger df emp_id now) = false ->
  rows_of emp_id df = [].
Proof.
  rewrite rows_of_indexed. unfold status_of_ledger.
  destruct (last (List.filter (for_employee emp_id) (indexed df)))
    as [latest|] eqn:Hl.
  2:{ intros _ _. apply last_None in Hl. rewrite Hl. reflexivity. }
  destruct (last (List.filter is_completed
                    (List.filter (for_employee emp_id) (indexed df))))
    as [c|] eqn:Hc; [discriminate|].
  destruct (Check_Out (snd latest)) eqn:Hco; [|discriminate].
  intros _ _. exfalso.
  apply last_None in Hc.
  apply last_Some_elem_of, list_elem_of_In in Hl.
  assert (Hin : In latest (List.filter is_completed
                             (List.filter (for_employee emp_id) (indexed df)))).
  { apply filter_In. split; [exact Hl|]. unfold is_completed. rewrite Hco.
    reflexivity. }
  rewrite Hc in Hin. destruct Hin.
Qed.

Lemma rows_of_app emp_id df df' :
  rows_of emp_id (df ++ df')%list = (rows_of emp_id df ++ rows_of emp_id df')%list.
Proof. unfold rows_of. apply List.filter_app. Qed.

Lemma rows_of_alter_close emp_id time hours (df : list Row) : forall i : nat,
  length (rows_of emp_id (alter (close_record time hours) i df))
  = length (rows_of emp_id df).
Proof.
  unfold rows_of.
  induction df as [|r df IH]; intros i; [reflexivity|].
  destruct i as [|i]; cbn [alter list_alter List.filter close_record Employee_ID].
  - destruct (String.eqb (Employee_ID r) emp_id); reflexivity.
  - specialize (IH i). cbn [alter] in IH.
    destruct (String.eqb (Employee_ID r) emp_id); simpl; rewrite IH; reflexivity.
Qed.

Lemma one_row_each_ensured m now : one_row_each m -> one_row_each (ensured m now).
Proof.
  intros H d df emp_id Hd.
  destruct (Z.eq_dec d (date_of now)) as [->|Hne].
  - rewrite ensured_lookup in Hd. injection Hd as <-.
    unfold today_rows. destruct (ledgers m !! date_of now) as [df|] eqn:E.
    + apply (H _ _ _ E).
    + simpl. lia.
  - rewrite ensured_lookup_ne in Hd by exact Hne. apply (H _ _ _ Hd).
Qed.

Lemma one_row_each_stamp m emp_id now r :
  one_row_each m -> one_row_each (record_success m emp_id now r).
Proof.
  intros H d df e Hd. rewrite record_success_ledgers in Hd. apply (H _ _ _ Hd).
Qed.

Lemma one_row_each_write m date df :
  one_row_each m ->
  (forall emp_id, (length (rows_of emp_id df) <= 1)%nat) ->
  one_row_each (set_ledgers m (<[date := df]> (ledgers m))).
Proof.
  intros H Hdf d df' emp_id Hd. simpl in Hd.
  destruct (Z.eq_dec date d) as [->|Hne].
  - rewrite lookup_insert_eq in Hd. injection Hd as <-. apply Hdf.
  - rewrite lookup_insert_ne in Hd by exact Hne. apply (H _ _ _ Hd).
Qed.

Lemma today_rows_one_each m now emp_id :
  one_row_each m -> (length (rows_of emp_id (today_rows m now)) <= 1)%nat.
Proof.
  intros H. unfold today_rows.
  destruct (ledgers m !! date_of now) as [df|] eqn:E; [apply (H _ _ _ E)|].
  simpl. lia.
Qed.

(** A check-in by an employee without a row today keeps the property. *)
Lemma _process_check_in_one_row m emp_id now :
  one_row_each m ->
  already_checked_in_today (current m emp_id now) = false ->
  is_checked_in (current m emp_id now) = false ->
  one_row_each (snd (_process_check_in m emp_id now)).
Proof.
  intros H Ha Hi. unfold _process_check_in. rewrite get_current_status_eq.
  destruct (is_checked_in _ || has_incomplete_record _);
    destruct (get_employee_details _ _) as [e|]; cbn [snd];
    try (apply one_row_each_ensured, H).
  apply (one_row_each_write (ensured m now));
    [apply one_row_each_ensured, H|].
  intros emp'. rewrite ensured_lookup. cbn [default from_option]. unfold id.
  rewrite rows_of_app.
  rewrite length_app.
  destruct (String.eqb emp_id emp') eqn:E.
  - apply String.eqb_eq in E. subst emp'.
    unfold current in Ha, Hi.
    rewrite (no_flags_no_rows _ _ _ Ha Hi). simpl.
    destruct (String.eqb emp_id emp_id); simpl; lia.
  - pose proof (today_rows_one_each m now emp' H).
    unfold rows_of at 2. simpl. rewrite E. simpl. lia.
Qed.

Lemma _process_check_out_one_row m emp_id now :
  one_row_each m -> one_row_each (snd (_process_check_out m emp_id now)).
Proof.
  intros H. unfold _process_check_out. rewrite get_current_status_eq.
  destruct (negb (is_checked_in _)).
  { destruct (get_employee_details _ _); apply one_row_each_ensured, H. }
  destruct (below_minimum _); [apply one_row_each_ensured, H|].
  destruct (record_index _) as [n|]; [|apply one_row_each_ensured, H].
  destruct (check_in_time _) as [z|]; [|apply one_row_each_ensured, H].
  assert (Hw : one_row_each
                 (set_ledgers (ensured m now)
                    (<[date_of now :=
                         alter (close_record (time_of now)
                                  (PyFloat.round2 (hours_between z (time_of now))))
                           n (default [] (ledgers (ensured m now) !! date_of now))]>
                       (ledgers (ensured m now))))).
  { apply one_row_each_write; [apply one_row_each_ensured, H|].
    intros emp'. rewrite rows_of_alter_close, ensured_lookup. simpl.
    apply today_rows_one_each, H. }
  destruct (get_employee_details _ _); exact Hw.
Qed.

Lemma process_employee_one_row m emp_id e mode now :
  one_row_each m -> one_row_each (snd (process_employee m emp_id e mode now)).
Proof.
  intros H. unfold process_employee. rewrite get_current_status_eq.
  destruct (String.eqb mode "CHECK_IN" || String.eqb mode "CHECK IN").
  - destruct (already_checked_in_today _) eqn:Ha; [apply one_row_each_ensured, H|].
    destruct (is_checked_in _) eqn:Hi; [apply one_row_each_ensured, H|].
    destruct (negb (has_incomplete_record _)); [|apply one_row_each_ensured, H].
    pose proof (_process_check_in_one_row (ensured m now) emp_id now
                  (one_row_each_ensured m now H)) as Hc.
    rewrite current_ensured in Hc. specialize (Hc Ha Hi).
    destruct (_process_check_in (ensured m now) emp_id now) as [r m2].
    simpl in *. apply one_row_each_stamp, Hc.
  - destruct (String.eqb mode "CHECK_OUT" || String.eqb mode "CHECK OUT");
      [|apply one_row_each_ensured, H].
    destruct (already_checked_in_today _); [apply one_row_each_ensured, H|].
    destruct (negb (is_checked_in _)); [apply one_row_each_ensured, H|].
    destruct (below_minimum _); [apply one_row_each_ensured, H|].
    pose proof (_process_check_out_one_row (ensured m now) emp_id now
                  (one_row_each_ensured m now H)) as Hc.
    destruct (_process_check_out (ensured m now) emp_id now) as [r m2].
    simpl in *. apply one_row_each_stamp, Hc.
Qed.

Lemma process_names_one_row names mode now : forall m acc,
  one_row_each m -> one_row_each (snd (process_names m names mode now acc)).
Proof.
  induction names as [|name rest IH]; intros m acc H; simpl; [exact H|].
  destruct (String.eqb name "Unknown"); [apply IH, H|].
  destruct (get_employee_by_name _ _) as [[emp_id e]|]; [|apply IH, H].
  destruct (cooldown_check _ _ _); [apply IH, H|].
  pose proof (process_employee_one_row m emp_id e mode now H) as Hp.
  destruct (process_employee m emp_id e mode now) as [[r|exn] m'];
    simpl in Hp; [apply IH, Hp|exact Hp].
Qed.

(** Over every sequence of [process_attendance] calls that starts without
    ledgers, every ledger holds at most one row per employee, hence never
    two open ones. *)
Lemma camera_run_one_row calls : forall m,
  one_row_each m -> one_row_each (camera_run m calls).
Proof.
  induction calls as [|[[names mode] now] rest IH]; intros m H; simpl;
    [exact H|].
  apply IH. apply process_names_one_row, H.
Qed.

Lemma camera_run_open_rows (emps : list (string * Employee))
  (calls : list (list string * string * Z)) (d : Z) (df : list Row)
  (emp_id : string) :
  ledgers (camera_run (mkManager emps ∅ ∅) calls) !! d = Some df ->
  (length (open_rows emp_id df) <= 1)%nat.
Proof.
  intros Hd.
  assert (H0 : one_row_each (mkManager emps ∅ ∅)).
  { intros d' df' e' H'. simpl in H'. rewrite lookup_empty in H'. discriminate. }
  pose proof (camera_run_one_row calls _ H0 d df emp_id Hd) as H.
  assert (Hle : forall l, (length (open_rows emp_id l) <= length (rows_of emp_id l))%nat).
  { induction l as [|r l IHl]; simpl; [lia|].
    destruct (String.eqb (Employee_ID r) emp_id); simpl.
    - destruct (Check_Out r); simpl; lia.
    - exact IHl. }
  specialize (Hle df). lia.
Qed.

(** *** No operation removes a ledger *)

Lemma ledgers_kept_refl m : ledgers_kept m m.
Proof. intros d H. exact H. Qed.

Lemma ledgers_kept_trans m1 m2 m3 :
  ledgers_kept m1 m2 -> ledgers_kept m2 m3 -> ledgers_kept m1 m3.
Proof. intros H1 H2 d H. apply H2, H1, H. Qed.

Lemma ledgers_kept_ensured m now : ledgers_kept m (ensured m now).
Proof.
  intros d H. destruct (Z.eq_dec d (date_of now)) as [->|Hd].
  - rewrite ensured_lookup. eexists; reflexivity.
  - rewrite ensured_lookup_ne by exact Hd. exact H.
Qed.

Lemma ledgers_kept_write m date df :
  ledgers_kept m (set_ledgers m (<[date := df]> (ledgers m))).
Proof.
  intros d H. simpl. destruct (Z.eq_dec date d) as [->|Hd].
  - rewrite lookup_insert_eq. eexists; reflexivity.
  - rewrite lookup_insert_ne by exact Hd. exact H.
Qed.

Lemma ledgers_kept_stamp m emp_id now r :
  ledgers_kept m (record_success m emp_id now r).
Proof. intros d H. rewrite record_success_ledgers. exact H. Qed.

Lemma _process_check_in_keeps m emp_id now :
  ledgers_kept m (snd (_process_check_in m emp_id now)).
Proof.
  check_in_branches; cbn [snd]; try apply ledgers_kept_ensured.
  eapply ledgers_kept_trans; [apply ledgers_kept_ensured|].
  apply ledgers_kept_write.
Qed.

Lemma _process_check_out_keeps m emp_id now :
  ledgers_kept m (snd (_process_check_out m emp_id now)).
Proof.
  check_out_branches; cbn [snd]; try apply ledgers_kept_ensured;
    (eapply ledgers_kept_trans; [apply ledgers_kept_ensured|]);
    apply ledgers_kept_write.
Qed.

Lemma manual_attendance_keeps m emp_id action now :
  ledgers_kept m (snd (manual_attendance m emp_id action now)).
Proof.
  unfold manual_attendance.
  destruct (get_employee_details _ _); [|apply ledgers_kept_refl].
  destruct (String.eqb action "CHECK_IN"); [apply _process_check_in_keeps|].
  destruct (String.eqb action "CHECK_OUT"); [apply _process_check_out_keeps|].
  apply ledgers_kept_refl.
Qed.

Lemma process_employee_keeps m emp_id e mode now :
  ledgers_kept m (snd (process_employee m emp_id e mode now)).
Proof.
  unfold process_employee. rewrite get_current_status_eq.
  destruct (String.eqb mode "CHECK_IN" || String.eqb mode "CHECK IN").
  - destruct (already_checked_in_today _); [apply ledgers_kept_ensured|].
    destruct (is_checked_in _); [apply ledgers_kept_ensured|].
    destruct (negb (has_incomplete_record _)); [|apply ledgers_kept_ensured].
    pose proof (_process_check_in_keeps (ensured m now) emp_id now) as H.
    destruct (_process_check_in (ensured m now) emp_id now) as [r m2].
    simpl in *.
    eapply ledgers_kept_trans; [apply ledgers_kept_ensured|].
    eapply ledgers_kept_trans; [exact H|apply ledgers_kept_stamp].
  - destruct (String.eqb mode "CHECK_OUT" || String.eqb mode "CHECK OUT");
      [|apply ledgers_kept_ensured].
    destruct (already_checked_in_today _); [apply ledgers_kept_ensured|].
    destruct (negb (is_checked_in _)); [apply ledgers_kept_ensured|].
    destruct (below_minimum _); [apply ledgers_kept_ensured|].
    pose proof (_process_check_out_keeps (ensured m now) emp_id now) as H.
    destruct (_process_check_out (ensured m now) emp_id now) as [r m2].
    simpl in *.
    eapply ledgers_kept_trans; [apply ledgers_kept_ensured|].
    eapply ledgers_kept_trans; [exact H|apply ledgers_kept_stamp].
Qed.

Lemma process_names_keeps names mode now : forall m acc,
  ledgers_kept m (snd (process_names m names mode now acc)).
Proof.
  induction names as [|name rest IH]; intros m acc; simpl;
    [apply ledgers_kept_refl|].
  destruct (String.eqb name "Unknown"); [apply IH|].
  destruct (get_employee_by_name _ _) as [[emp_id e]|]; [|apply IH].
  destruct (cooldown_check _ _ _); [apply IH|].
  pose proof (process_employee_keeps m emp_id e mode now) as H.
  destruct (process_employee m emp_id e mode now) as [[r|exn] m'];
    simpl in H.
  - eapply ledgers_kept_trans; [exact H|apply IH].
  - exact H.
Qed.

Lemma process_attendance_keeps m names mode now :
  ledgers_kept m (snd (process_attendance m names mode now)).
Proof. apply process_names_keeps. Qed.

(** C6 (the code at the failing input). The class has no operation that
    deletes a ledger: the two methods that [app.py] calls to delete a
    date's and today's ledger, [delete_attendance_by_date] and
    [delete_todays_attendance], are not attributes of the class, nor are
    [delete_ledger] and [delete_todays_ledger]; calling them raises
    AttributeError. *)
Theorem no_ledger_deletion_method :
  has_attribute "delete_todays_attendance" = false
  /\ has_attribute "delete_attendance_by_date" = false
  /\ has_attribute "delete_ledger" = false
  /\ has_attribute "delete_todays_ledger" = false
  /\ lookup_method "delete_todays_attendance"
     = Raise "AttributeError: 'AttendanceManager' object has no attribute 'delete_todays_attendance'"
  /\ lookup_method "delete_attendance_by_date"
     = Raise "AttributeError: 'AttendanceManager' object has no attribute 'delete_attendance_by_date'".
Proof. repeat split; vm_compute; reflexivity. Qed.

End AttendanceProps.

(** ** Properties of FaceUtils *)

Module FaceUtilsProps.

Import FaceUtils.

Section WithVision.

Context {encoding : Type} (lib : Vision encoding).

(** *** Enrolment *)

Lemma add_known_face_true (fu : FaceUtils encoding) (image_path name : string)
  (image rgb : ndarray) (e : encoding) (rest : list encoding) :
  disk fu !! image_path = Some image ->
  cvtColor lib image = Ret rgb ->
  face_encodings lib (as_uint8 lib rgb) None = Ret (e :: rest) ->
  add_known_face lib fu image_path name =
    (true,
     {| known_faces_dir := known_faces_dir fu;
        known_face_encodings := (known_face_encodings fu ++ [e])%list;
        known_face_names := (known_face_names fu ++ [name])%list;
        disk := disk fu |}).
Proof.
  intros Hd Hc He. unfold add_known_face, add_known_face_try.
  rewrite Hd, Hc. simpl. rewrite He. reflexivity.
Qed.

(** The two lists of the gallery stay parallel. *)
Lemma add_known_face_parallel (fu : FaceUtils encoding) (image_path name : string) :
  length (known_face_encodings fu) = length (known_face_names fu) ->
  length (known_face_encodings (snd (add_known_face lib fu image_path name)))
  = length (known_face_names (snd (add_known_face lib fu image_path name))).
Proof.
  intros H. unfold add_known_face.
  destruct (add_known_face_try lib fu image_path); simpl; [|exact H].
  rewrite !length_app, H. reflexivity.
Qed.

(** A probe within tolerance of a gallery entry is given a known name: the
    name of the first entry within tolerance. *)
Lemma first_match_appended (probe e : encoding) (name : string) :
  within_tolerance lib e probe = true ->
  forall (encodings : list encoding) (names : list string),
    length encodings = length names ->
    exists n,
      first_match lib (encodings ++ [e])%list (names ++ [name])%list probe = Ret n
      /\ n ∈ (names ++ [name])%list
      /\ ((forall k, k ∈ encodings -> within_tolerance lib k probe = false) ->
          n = name).
Proof.
  intros He. induction encodings as [|k encodings IH]; intros names Hlen.
  - destruct names; [|discriminate]. simpl. rewrite He.
    exists name. repeat split. apply list_elem_of_here.
  - destruct names as [|n0 names]; [discriminate|]. simpl.
    destruct (within_tolerance lib k probe) eqn:Hk.
    + exists n0. repeat split; [apply list_elem_of_here|].
      intros Hall. rewrite (Hall k) in Hk by apply list_elem_of_here.
      discriminate.
    + injection Hlen as Hlen.
      destruct (IH names Hlen) as (n & Hn & Hin & Hfirst).
      exists n. repeat split; [exact Hn|apply list_elem_of_further, Hin|].
      intros Hall. apply Hfirst. intros k' Hk'.
      apply Hall, list_elem_of_further, Hk'.
Qed.

(** C7 (as the code has it). For an enrolment image that loads and
    converts: when the detector finds zero faces, or two or more,
    [register_new_face] returns false and leaves the gallery and the files
    as they are. When it finds exactly one face, and the image can be saved
    under the known-faces directory, and the saved copy, read back, yields
    at least one face encoding, [register_new_face] returns true and appends
    that encoding and the name to the gallery; from then on every probe
    within tolerance of the new encoding is given a known name, the new one
    unless an earlier gallery entry is within tolerance too. *)
Theorem register_new_face_outcome
  (fu : FaceUtils encoding) (image_path name : string) (image rgb : ndarray)
  (locations : list box) :
  disk fu !! image_path = Some image ->
  cvtColor lib image = Ret rgb ->
  face_locations lib (as_uint8 lib rgb) = Ret locations ->
  (length locations <> 1%nat ->
   register_new_face lib fu image_path name = (false, fu))
  /\ (length locations = 1%nat ->
      forall (disk' : Disk) (saved rgb' : ndarray) (e : encoding)
             (rest : list encoding),
        pil_save lib (disk fu) (save_path fu name) (as_uint8 lib rgb) = Ret disk' ->
        disk' !! save_path fu name = Some saved ->
        cvtColor lib saved = Ret rgb' ->
        face_encodings lib (as_uint8 lib rgb') None = Ret (e :: rest) ->
        register_new_face lib fu image_path name =
          (true,
           {| known_faces_dir := known_faces_dir fu;
              known_face_encodings := (known_face_encodings fu ++ [e])%list;
              known_face_names := (known_face_names fu ++ [name])%list;
              disk := disk' |})
        /\ (length (known_face_encodings fu) = length (known_face_names fu) ->
            forall probe : encoding,
              within_tolerance lib e probe = true ->
              exists n,
                first_match lib (known_face_encodings fu ++ [e])%list
                  (known_face_names fu ++ [name])%list probe = Ret n
                /\ n ∈ (known_face_names fu ++ [name])%list
                /\ ((forall k, k ∈ known_face_encodings fu ->
                                within_tolerance lib k probe = false) ->
                    n = name))).
Proof.
  intros Hd Hc Hl. split.
  - intros Hn. unfold register_new_face. rewrite Hd, Hc, Hl.
    apply Nat.eqb_neq in Hn. rewrite Hn. reflexivity.
  - intros Hn disk' saved rgb' e rest Hs Hd' Hc' He. split.
    + unfold register_new_face. rewrite Hd, Hc, Hl, Hn, Hs.
      cbn [Nat.eqb negb].
      apply (add_known_face_true (set_disk fu disk') _ _ saved rgb' e rest);
        assumption.
    + intros Hlen probe Hp. apply first_match_appended; assumption.
Qed.

(** *** Frames *)

(** C8 (as the code has it). A missing frame, and a frame that is not a
    3-dimensional array with 3 channels, make [process_frame] raise
    ValueError. For a well-shaped frame whose down-scaling and colour
    conversion succeed, a failure of face detection or encoding is not
    propagated: [process_frame] returns the frame, converted to uint8 if it
    was not uint8 already, with an empty list of labels; a uint8 frame
    comes back as it was given. *)
Theorem process_frame_detection_failure :
  (forall fu : FaceUtils encoding,
      process_frame lib fu None = Raise "ValueError: Frame is None")
  /\ (forall (fu : FaceUtils encoding) (frame : ndarray),
        ndim frame <> 3%nat \/ nth 2 (shape frame) 0%nat <> 3%nat ->
        process_frame lib fu (Some frame) = Raise "ValueError: Invalid frame format")
  /\ (forall (fu : FaceUtils encoding) (frame small rgb_small : ndarray) (exn : string),
        ndim frame = 3%nat ->
        nth 2 (shape frame) 0%nat = 3%nat ->
        resize_quarter lib (as_uint8 lib frame) = Ret small ->
        cvtColor lib small = Ret rgb_small ->
        detect lib rgb_small = Raise exn ->
        process_frame lib fu (Some frame) = Ret (as_uint8 lib frame, [])
        /\ (dtype_of frame = uint8 ->
            process_frame lib fu (Some frame) = Ret (frame, []))).
Proof.
  split; [reflexivity|]. split.
  - intros fu frame H. unfold process_frame.
    destruct (ndim frame =? 3)%nat eqn:E1; [|reflexivity].
    destruct (nth 2 (shape frame) 0 =? 3)%nat eqn:E2; [|reflexivity].
    apply Nat.eqb_eq in E1, E2. destruct H; contradiction.
  - intros fu frame small rgb_small exn H1 H2 Hr Hc Hd.
    assert (H : process_frame lib fu (Some frame) = Ret (as_uint8 lib frame, [])).
    { unfold process_frame. rewrite H1, H2. cbn [Nat.eqb negb orb].
      rewrite Hr. cbn [mbind outcome_bind]. rewrite Hc.
      cbn [mbind outcome_bind]. rewrite Hd. reflexivity. }
    split; [exact H|].
    intros Hu. rewrite H. unfold as_uint8. rewrite Hu. reflexivity.
Qed.

End WithVision.

(** *** The class on concrete pictures *)

(** C7, as stated, fails: the uploaded portrait shows exactly one face, yet
    enrolment returns false when the copy cannot be written, and when the
    copy that was written no longer yields a face; the gallery stays empty. *)
Lemma single_face_enrolment_rejected :
  face_locations read_only portrait = Ret [(0, 1, 1, 0)]
  /\ fst (register_new_face read_only fresh "/tmp/portrait.jpg" "Alice") = false
  /\ fst (register_new_face blurry fresh "/tmp/portrait.jpg" "Alice") = false
  /\ known_face_names
       (snd (register_new_face blurry fresh "/tmp/portrait.jpg" "Alice")) = [].
Proof. repeat split; vm_compute; reflexivity. Qed.

Lemma register_new_face_outcome_witness :
  disk fresh !! "/tmp/group.jpg" = Some group_photo
  /\ face_locations studio group_photo = Ret [(0, 1, 1, 0); (0, 2, 1, 1)]
  /\ register_new_face studio fresh "/tmp/group.jpg" "Alice" = (false, fresh)
  /\ disk fresh !! "/tmp/portrait.jpg" = Some portrait
  /\ face_locations studio portrait = Ret [(0, 1, 1, 0)]
  /\ pil_save studio (disk fresh) "known_faces/Alice.jpg" portrait
     = Ret (<["known_faces/Alice.jpg" := portrait]> (disk fresh))
  /\ face_encodings studio portrait None = Ret [1%float]
  /\ register_new_face studio fresh "/tmp/portrait.jpg" "Alice"
     = (true,
        {| known_faces_dir := "known_faces";
           known_face_encodings := [1%float];
           known_face_names := ["Alice"];
           disk := <["known_faces/Alice.jpg" := portrait]> (disk fresh) |})
  /\ within_tolerance studio 1%float 1.25%float = true
  /\ first_match studio [1%float] ["Alice"] 1.25%float = Ret "Alice".
Proof.
  destruct (register_new_face_outcome studio fresh "/tmp/group.jpg" "Alice"
              group_photo group_photo (toy_boxes group_photo)
              eq_refl eq_refl eq_refl) as [Hgroup _].
  destruct (register_new_face_outcome studio fresh "/tmp/portrait.jpg" "Alice"
              portrait portrait (toy_boxes portrait)
              eq_refl eq_refl eq_refl) as [_ Hone].
  destruct (Hone eq_refl
              (<["known_faces/Alice.jpg" := portrait]> (disk fresh))
              portrait portrait 1%float [] eq_refl eq_refl eq_refl eq_refl)
    as [Hreg Hmatch].
  destruct (Hmatch eq_refl 1.25%float eq_refl) as (n & Hn & _ & Hfirst).
  assert (Hname : n = "Alice") by (apply Hfirst; intros k Hk; inversion Hk).
  assert (Htwo : length (toy_boxes group_photo) <> 1%nat) by discriminate.
  split; [reflexivity|].
  split; [reflexivity|].
  split; [exact (Hgroup Htwo)|].
  split; [reflexivity|].
  split; [reflexivity|].
  split; [reflexivity|].
  split; [reflexivity|].
  split; [exact Hreg|].
  split; [reflexivity|].
  exact (eq_trans Hn (f_equal Ret Hname)).
Defined.

(** C8, as stated, fails: a missing frame and a grey-scale frame make
    [process_frame] raise; and when detection fails on a float frame, the
    frame returned is the uint8 conversion, not the frame that was passed. *)
Lemma malformed_frame_raises :
  process_frame blind fresh None = Raise "ValueError: Frame is None"
  /\ process_frame blind fresh (Some grey_frame)
     = Raise "ValueError: Invalid frame format"
  /\ process_frame blind fresh (Some float_frame)
     = Ret (scale_to_uint8 blind float_frame, [])
  /\ scale_to_uint8 blind float_frame <> float_frame.
Proof. repeat split; try (vm_compute; reflexivity). discriminate. Qed.

Lemma process_frame_detection_failure_witness :
  ndim colour_frame = 3%nat
  /\ nth 2 (shape colour_frame) 0%nat = 3%nat
  /\ resize_quarter blind (as_uint8 blind colour_frame) = Ret colour_frame
  /\ cvtColor blind colour_frame = Ret colour_frame
  /\ detect blind colour_frame = Raise "RuntimeError: Unsupported image type"
  /\ dtype_of colour_frame = uint8
  /\ process_frame blind fresh (Some colour_frame) = Ret (colour_frame, []).
Proof.
  destruct (process_frame_detection_failure blind) as (_ & _ & H).
  destruct (H fresh colour_frame colour_frame colour_frame
              "RuntimeError: Unsupported image type"
              eq_refl eq_refl eq_refl eq_refl eq_refl) as [_ Hsame].
  split; [reflexivity|].
  split; [reflexivity|].
  split; [reflexivity|].
  split; [reflexivity|].
  split; [reflexivity|].
  split; [reflexivity|].
  exact (Hsame eq_refl).
Defined.

End FaceUtilsProps.

(** ** Properties of Liveness *)

Module LivenessProps.

Import Liveness.

(** *** The verdict *)

Lemma check_faces_snoc (fs : list face_view) (f : face_view) :
  forall (st : LivenessDetector) (r : result),
    check_faces st r (fs ++ [f])%list
    = check_face (snd (check_faces st r fs)) f.
Proof.
  induction fs as [|g fs IH]; intros st r; simpl.
  - destruct (check_face st f); reflexivity.
  - destruct (check_face st g) as [r' st']. apply IH.
Qed.

(** The verdict on one face that raised nothing is the blink test on the
    counters as that face left them. *)
Lemma check_face_verdict (st : LivenessDetector) (f : face_view)
  (marks : list point) :
  landmarks f = Ret marks ->
  drawing f = Ret tt ->
  is_live (fst (check_face st f))
  = recently_blinked (snd (check_face st f)) (verdict_clock f).
Proof.
  intros Hm Hd. unfold check_face. rewrite Hm.
  destruct (detect_blink st marks (blink_clock f)) as [ear st'].
  rewrite Hd. simpl.
  destruct (recently_blinked st' (verdict_clock f)) eqn:E; simpl;
    rewrite E; reflexivity.
Qed.

Lemma check_face_raised (st : LivenessDetector) (f : face_view) (exn : string) :
  landmarks f = Raise exn \/
  (exists marks, landmarks f = Ret marks /\ drawing f = Raise exn) ->
  fst (check_face st f) = error_result exn.
Proof.
  intros [H|(marks & Hm & Hd)]; unfold check_face.
  - rewrite H. reflexivity.
  - rewrite Hm. destruct (detect_blink st marks (blink_clock f)) as [ear st'].
    rewrite Hd. reflexivity.
Qed.

(** With no blink counted and the streak short of the threshold, one more
    face registers no blink and is not live. *)
Lemma detect_blink_short_streak (st : LivenessDetector) (marks : list point)
  (now : float) :
  total_blinks st = 0 ->
  0 <= counter st < EYE_AR_CONSEC_FRAMES ->
  total_blinks (snd (detect_blink st marks now)) = 0 /\
  0 <= counter (snd (detect_blink st marks now)) <= counter st + 1.
Proof.
  intros Ht Hc. unfold detect_blink.
  destruct (PrimFloat.ltb _ EYE_AR_THRESH); simpl; [lia|].
  assert (Hlt : (EYE_AR_CONSEC_FRAMES <=? counter st) = false)
    by (apply Z.leb_gt; lia).
  rewrite Hlt. simpl. lia.
Qed.

Lemma check_face_short_streak (st : LivenessDetector) (f : face_view) :
  total_blinks st = 0 ->
  0 <= counter st < EYE_AR_CONSEC_FRAMES ->
  is_live (fst (check_face st f)) = false /\
  total_blinks (snd (check_face st f)) = 0 /\
  0 <= counter (snd (check_face st f)) <= counter st + 1.
Proof.
  intros Ht Hc. unfold check_face.
  destruct (landmarks f) as [marks|exn]; [|simpl; repeat split; lia].
  pose proof (detect_blink_short_streak st marks (blink_clock f) Ht Hc) as [H0 H1].
  destruct (detect_blink st marks (blink_clock f)) as [ear st']. simpl in H0, H1.
  destruct (drawing f); [|simpl; repeat split; lia].
  unfold recently_blinked. rewrite H0. simpl. repeat split; lia.
Qed.

(** With no blink counted so far, fewer faces than it takes to fill the
    streak cannot produce one. *)
Lemma no_blink_yet (fs : list face_view) :
  forall (st : LivenessDetector) (r : result),
    total_blinks st = 0 ->
    is_live r = false ->
    0 <= counter st ->
    counter st + Z.of_nat (length fs) <= EYE_AR_CONSEC_FRAMES ->
    is_live (fst (check_faces st r fs)) = false /\
    total_blinks (snd (check_faces st r fs)) = 0.
Proof.
  induction fs as [|f fs IH]; intros st r Ht Hr H0 Hc; simpl;
    [split; assumption|].
  simpl length in Hc.
  pose proof (check_face_short_streak st f Ht ltac:(lia)) as (Hl & Hb & Hk).
  destruct (check_face st f) as [r' st']. simpl in Hl, Hb, Hk.
  apply IH; try assumption; lia.
Qed.

(** C9 (as the code has it). When no face is detected the result is the
    "No face detected" outcome, not live. When faces are detected and the
    analysis of the last one raises nothing, the verdict is live exactly
    when the blink count is positive and the last registered blink is less
    than 3 seconds before the verdict's clock reading, both taken after the
    frame has been analysed; when that analysis raises, the verdict is not
    live. Right after [reset], a frame with fewer than four detected faces
    is not live, whatever was counted before. *)
Theorem liveness_verdict :
  (forall st : LivenessDetector,
      check_liveness st (Ret []) = (Ret no_face, st)
      /\ is_live no_face = false /\ message no_face = "No face detected")
  /\ (forall (st st' : LivenessDetector) (fs : list face_view) (f : face_view)
             (r : result) (marks : list point),
        check_liveness st (Ret (fs ++ [f])%list) = (Ret r, st') ->
        landmarks f = Ret marks ->
        drawing f = Ret tt ->
        (is_live r = true <->
         0 < total_blinks st' /\
         PrimFloat.ltb
           (PrimFloat.sub (verdict_clock f) (last_blink_time st')) 3%float
         = true))
  /\ (forall (st st' : LivenessDetector) (fs : list face_view) (f : face_view)
             (r : result) (exn : string),
        check_liveness st (Ret (fs ++ [f])%list) = (Ret r, st') ->
        landmarks f = Raise exn \/
        (exists marks, landmarks f = Ret marks /\ drawing f = Raise exn) ->
        r = error_result exn /\ is_live r = false)
  /\ (forall (st st' : LivenessDetector) (now : float) (fs : list face_view)
             (r : result),
        (length fs < 4)%nat ->
        check_liveness (reset st now) (Ret fs) = (Ret r, st') ->
        is_live r = false).
Proof.
  split; [intros st; repeat split|]. split; [|split].
  - intros st st' fs f r marks H Hm Hd.
    unfold check_liveness in H. rewrite check_faces_snoc in H.
    pose proof (check_face_verdict (snd (check_faces st no_face fs)) f marks Hm Hd)
      as Hv.
    destruct (check_face (snd (check_faces st no_face fs)) f) as [r0 st0].
    injection H as <- <-. simpl in Hv. rewrite Hv.
    unfold recently_blinked. rewrite andb_true_iff, Z.ltb_lt. reflexivity.
  - intros st st' fs f r exn H Hraise.
    unfold check_liveness in H. rewrite check_faces_snoc in H.
    pose proof (check_face_raised (snd (check_faces st no_face fs)) f exn Hraise)
      as He.
    destruct (check_face (snd (check_faces st no_face fs)) f) as [r0 st0].
    injection H as <- <-. simpl in He. split; [exact He|].
    rewrite He. reflexivity.
  - intros st st' now fs r Hlen H.
    unfold check_liveness in H.
    assert (Hn : is_live (fst (check_faces (reset st now) no_face fs)) = false).
    { apply no_blink_yet; try reflexivity.
      unfold EYE_AR_CONSEC_FRAMES. simpl. lia. }
    destruct (check_faces (reset st now) no_face fs) as [r0 st0].
    injection H as <- <-. exact Hn.
Qed.

(** *** The detector on concrete faces *)

(** C9, as stated, fails on two counts. Right after [reset], one frame in
    which four faces are detected, three with the eyes closed and then one
    with the eyes open, is judged live. And with a blink registered half a
    second before, a frame whose detected face makes the predictor raise is
    judged not live. *)
Lemma verdict_exceptions :
  check_liveness (reset blinked 200%float)
    (Ret [eyes_closed 200.1%float; eyes_closed 200.1%float;
          eyes_closed 200.1%float; eyes_open 200.1%float])
  = (Ret {| is_live := true; message := "Live face detected";
            debug := Annotated 0.4%float 1 |},
     {| counter := 0; total_blinks := 1; last_blink_time := 200.1%float |})
  /\ check_liveness blinked (Ret [unreadable_face 104%float])
     = (Ret (error_result "RuntimeError: predictor failed"), blinked)
  /\ recently_blinked blinked 104%float = true.
Proof. repeat split; vm_compute; reflexivity. Qed.

Lemma liveness_verdict_witness :
  check_liveness streak_of_three (Ret [eyes_open 103.5%float])
  = (Ret {| is_live := true; message := "Live face detected";
            debug := Annotated 0.4%float 1 |}, blinked)
  /\ landmarks (eyes_open 103.5%float) = Ret (face_marks 2)
  /\ drawing (eyes_open 103.5%float) = Ret tt
  /\ (true = true <->
      0 < total_blinks blinked /\
      PrimFloat.ltb (PrimFloat.sub 103.5%float (last_blink_time blinked)) 3%float
      = true)
  /\ check_liveness blinked (Ret [unreadable_face 104%float])
     = (Ret (error_result "RuntimeError: predictor failed"), blinked)
  /\ is_live (error_result "RuntimeError: predictor failed") = false
  /\ (length [eyes_open 200.1%float] < 4)%nat
  /\ check_liveness (reset blinked 200%float) (Ret [eyes_open 200.1%float])
     = (Ret {| is_live := false; message := "Please blink naturally";
               debug := Annotated 0.4%float 0 |},
        {| counter := 0; total_blinks := 0; last_blink_time := 200%float |})
  /\ is_live {| is_live := false; message := "Please blink naturally";
               debug := Annotated 0.4%float 0 |} = false.
Proof.
  destruct liveness_verdict as (_ & Hlive & Hraise & Hreset).
  assert (Hlen : (length [eyes_open 200.1%float] < 4)%nat)
    by (repeat constructor).
  split; [reflexivity|].
  split; [reflexivity|].
  split; [reflexivity|].
  split; [exact (Hlive streak_of_three blinked [] (eyes_open 103.5%float) _
                  (face_marks 2) eq_refl eq_refl eq_refl)|].
  split; [reflexivity|].
  split; [exact (proj2 (Hraise blinked blinked [] (unreadable_face 104%float) _
                         "RuntimeError: predictor failed" eq_refl
                         (or_introl eq_refl)))|].
  split; [exact Hlen|].
  split; [reflexivity|].
  exact (Hreset blinked _ 200%float [eyes_open 200.1%float] _ Hlen eq_refl).
Defined.

End LivenessProps.

(** ** Properties of the ledgers over sequences of operations *)

Module LedgerProps.

Import Attendance AttendanceProps Registry.

(** *** The two transitions, branch by branch *)

Lemma ensured_idem m now : ensured (ensured m now) now = ensured m now.
Proof.
  unfold ensured at 1. unfold _ensure_attendance_file.
  rewrite ensured_lookup. destruct (ensured m now); reflexivity.
Qed.

Lemma _process_check_in_eq m emp_id e now :
  get_employee_details (employees m) emp_id = Some e ->
  _process_check_in m emp_id now =
  if is_checked_in (current m emp_id now)
     || has_incomplete_record (current m emp_id now)
  then (Ret (mkResult ERROR (MsgCheckOutFirst (emp_name e))), ensured m now)
  else (Ret (mkResult SUCCESS (MsgCheckedIn (emp_name e))),
        set_ledgers (ensured m now)
          (<[date_of now := (today_rows m now ++ [new_record emp_id e now])%list]>
             (ledgers (ensured m now)))).
Proof.
  intros He. unfold _process_check_in. rewrite get_current_status_eq, He.
  destruct (is_checked_in _ || has_incomplete_record _); [reflexivity|].
  rewrite ensured_lookup. reflexivity.
Qed.

Lemma _process_check_out_eq m emp_id e now :
  get_employee_details (employees m) emp_id = Some e ->
  (is_checked_in (current m emp_id now) = false /\
   _process_check_out m emp_id now
   = (Ret (mkResult ERROR (MsgNotCheckedIn (emp_name e))), ensured m now))
  \/ (is_checked_in (current m emp_id now) = true /\
      below_minimum (current m emp_id now) = true /\
      _process_check_out m emp_id now
      = (Ret (mkResult ERROR
                (MsgTooEarly MIN_CHECKOUT_MINUTES
                   (elapsed_whole_minutes (current m emp_id now)))),
         ensured m now))
  \/ (is_checked_in (current m emp_id now) = true /\
      below_minimum (current m emp_id now) = false /\
      exists (i : nat) (row : Row),
        today_rows m now !! i = Some row /\
        Employee_ID row = emp_id /\
        Check_Out row = None /\
        3600 <= time_of now - Check_In row /\
        record_index (current m emp_id now) = Some i /\
        _process_check_out m emp_id now
        = (Ret (mkResult SUCCESS
                  (MsgCheckedOut (emp_name e)
                     (elapsed_whole_minutes (current m emp_id now)))),
           set_ledgers (ensured m now)
             (<[date_of now :=
                  <[i := close_record (time_of now)
                           (PyFloat.round2
                              (hours_between (Check_In row) (time_of now)))
                           row]> (today_rows m now)]>
                (ledgers (ensured m now))))).
Proof.
  intros He. unfold _process_check_out. rewrite get_current_status_eq, He.
  destruct (is_checked_in (current m emp_id now)) eqn:Hin; [|left; split; reflexivity].
  right. cbn [negb].
  destruct (below_minimum (current m emp_id now)) eqn:Hb;
    [left; repeat split; reflexivity|].
  right. repeat split.
  unfold current in Hin.
  destruct (checked_in_row _ _ _ Hin) as (i & row & Hrow & Hid & Hco & Hri & Hci & Hel).
  fold (current m emp_id now) in Hri, Hci, Hel.
  exists i, row. rewrite Hri, Hci, ensured_lookup.
  cbn [default from_option]. unfold id.
  rewrite (alter_as_insert _ _ _ _ Hrow).
  repeat split; try assumption.
  apply minimum_stay_seconds. rewrite <- Hel.
  apply below_minimum_false, Hb.
Qed.

(** *** What a call does to the ledgers *)

Lemma ledgers_ensured m now :
  ledgers (ensured m now) = snd (_ensure_attendance_file (date_of now) (ledgers m)).
Proof. reflexivity. Qed.

Lemma steps_read m now : rtc (ledger_step now) (ledgers m) (ledgers (ensured m now)).
Proof. apply rtc_once. rewrite ledgers_ensured. constructor. Qed.

Lemma today_rows_default m now :
  default [] (ledgers (ensured m now) !! date_of now) = today_rows m now.
Proof. rewrite ensured_lookup. reflexivity. Qed.

Lemma _process_check_in_steps m emp_id e now :
  get_employee_details (employees m) emp_id = Some e ->
  rtc (ledger_step now) (ledgers m) (ledgers (snd (_process_check_in m emp_id now))).
Proof.
  intros He. rewrite (_process_check_in_eq _ _ _ _ He).
  destruct (is_checked_in _ || has_incomplete_record _); cbn [snd].
  - apply steps_read.
  - eapply rtc_r; [apply steps_read|].
    cbn [ledgers set_ledgers]. rewrite <- today_rows_default.
    apply (step_check_in now (ledgers (ensured m now)) emp_id e).
Qed.

Lemma _process_check_out_steps m emp_id e now :
  get_employee_details (employees m) emp_id = Some e ->
  rtc (ledger_step now) (ledgers m) (ledgers (snd (_process_check_out m emp_id now))).
Proof.
  intros He.
  destruct (_process_check_out_eq m emp_id e now He)
    as [(_ & ->)|[(_ & _ & ->)|(_ & _ & i & row & Hrow & _ & Hco & Hs & _ & ->)]];
    cbn [snd]; try apply steps_read.
  eapply rtc_r; [apply steps_read|].
  cbn [ledgers set_ledgers]. rewrite <- today_rows_default.
  apply (step_check_out now (ledgers (ensured m now)) i row); try assumption.
  rewrite today_rows_default. exact Hrow.
Qed.

Lemma manual_attendance_steps m emp_id action now :
  rtc (ledger_step now) (ledgers m)
    (ledgers (snd (manual_attendance m emp_id action now))).
Proof.
  unfold manual_attendance.
  destruct (get_employee_details (employees m) emp_id) as [e|] eqn:He;
    [|apply rtc_refl].
  destruct (String.eqb action "CHECK_IN");
    [apply (_process_check_in_steps _ _ _ _ He)|].
  destruct (String.eqb action "CHECK_OUT");
    [apply (_process_check_out_steps _ _ _ _ He)|].
  apply rtc_refl.
Qed.

Lemma get_employee_by_name_details emps name emp_id e :
  get_employee_by_name emps name = Some (emp_id, e) ->
  is_Some (get_employee_details emps emp_id).
Proof.
  induction emps as [|[k e0] emps IH]; simpl; [discriminate|].
  destruct (String.eqb (emp_name e0) name).
  - intros H. injection H as -> ->. rewrite String.eqb_refl. eexists; reflexivity.
  - intros H. destruct (String.eqb k emp_id); [eexists; reflexivity|].
    apply IH, H.
Qed.

Lemma process_employee_steps m emp_id e mode now :
  is_Some (get_employee_details (employees m) emp_id) ->
  rtc (ledger_step now) (ledgers m)
    (ledgers (snd (process_employee m emp_id e mode now))).
Proof.
  intros [e' He]. unfold process_employee. rewrite get_current_status_eq.
  destruct (String.eqb mode "CHECK_IN" || String.eqb mode "CHECK IN").
  - destruct (already_checked_in_today _); [apply steps_read|].
    destruct (is_checked_in _); [apply steps_read|].
    destruct (negb (has_incomplete_record _)); [|apply steps_read].
    pose proof (_process_check_in_steps (ensured m now) emp_id e' now He) as H.
    destruct (_process_check_in (ensured m now) emp_id now) as [r m2].
    cbn [snd] in *. rewrite record_success_ledgers.
    eapply rtc_trans; [apply steps_read|exact H].
  - destruct (String.eqb mode "CHECK_OUT" || String.eqb mode "CHECK OUT");
      [|apply steps_read].
    destruct (already_checked_in_today _); [apply steps_read|].
    destruct (negb (is_checked_in _)); [apply steps_read|].
    destruct (below_minimum _); [apply steps_read|].
    pose proof (_process_check_out_steps (ensured m now) emp_id e' now He) as H.
    destruct (_process_check_out (ensured m now) emp_id now) as [r m2].
    cbn [snd] in *. rewrite record_success_ledgers.
    eapply rtc_trans; [apply steps_read|exact H].
Qed.

Lemma process_names_steps names mode now : forall m acc,
  rtc (ledger_step now) (ledgers m)
    (ledgers (snd (process_names m names mode now acc))).
Proof.
  induction names as [|name rest IH]; intros m acc; simpl; [apply rtc_refl|].
  destruct (String.eqb name "Unknown"); [apply IH|].
  destruct (get_employee_by_name _ _) as [[emp_id e]|] eqn:Hn; [|apply IH].
  destruct (cooldown_check _ _ _); [apply IH|].
  pose proof (process_employee_steps m emp_id e mode now
                (get_employee_by_name_details _ _ _ _ Hn)) as H.
  destruct (process_employee m emp_id e mode now) as [[r|exn] m'];
    cbn [snd] in H.
  - eapply rtc_trans; [exact H|apply IH].
  - exact H.
Qed.

Lemma rtc_any now l l' : rtc (ledger_step now) l l' -> rtc any_step l l'.
Proof.
  induction 1 as [|l1 l2 l3 H _ IH]; [apply rtc_refl|].
  eapply rtc_l; [exists now; exact H|exact IH].
Qed.

Lemma perform_steps s op now :
  rtc (ledger_step now) (ledgers (fst s)) (ledgers (fst (perform s op now))).
Proof.
  destruct op as [names mode|emp_id action|emp_id name dep pos|emp_id];
    cbn [perform fst].
  - apply process_names_steps.
  - apply manual_attendance_steps.
  - unfold add_employee. destruct (get_employee_details _ _); apply rtc_refl.
  - unfold remove_employee. destruct (get_employee_details _ _); apply rtc_refl.
Qed.

Lemma run_steps ops : forall s,
  rtc any_step (ledgers (fst s)) (ledgers (fst (run s ops))).
Proof.
  induction ops as [|[op now] ops IH]; intros s; simpl; [apply rtc_refl|].
  eapply rtc_trans; [|apply IH].
  apply (rtc_any now), perform_steps.
Qed.

(** *** Only today's ledger is written *)

Lemma ledger_step_other_days now l l' d :
  ledger_step now l l' -> d <> date_of now -> l' !! d = l !! d.
Proof.
  intros H Hd. destruct H as [|emp_id e|i row Hrow Hco].
  - unfold _ensure_attendance_file.
    destruct (l !! date_of now); simpl; [reflexivity|].
    apply lookup_insert_ne. congruence.
  - apply lookup_insert_ne. congruence.
  - apply lookup_insert_ne. congruence.
Qed.

Lemma ledger_steps_other_days now l l' d :
  rtc (ledger_step now) l l' -> d <> date_of now -> l' !! d = l !! d.
Proof.
  intros H Hd. induction H as [|l1 l2 l3 H _ IH]; [reflexivity|].
  rewrite IH. apply (ledger_step_other_days now); assumption.
Qed.

(** X1. An operation at the instant [now] writes the ledger of [now]'s
    date only: whatever the operation, the ledger of every other date is
    afterwards what it was before. (So an operation on a later date never
    closes a row that was left open.) *)
Theorem other_days_untouched (s : Manager * FaceUtils.Disk) (op : operation)
  (now d : Z) :
  d <> date_of now ->
  ledgers (fst (perform s op now)) !! d = ledgers (fst s) !! d.
Proof.
  intros Hd. apply (ledger_steps_other_days now); [|exact Hd].
  apply perform_steps.
Qed.

(** *** Rows are never removed, and a closed row keeps its times *)

Lemma later_row_refl r : later_row r r.
Proof. left. reflexivity. Qed.

Lemma later_row_trans r1 r2 r3 :
  later_row r1 r2 -> later_row r2 r3 -> later_row r1 r3.
Proof.
  intros [->|(Ho & t & h & ->)] H23; [exact H23|].
  destruct H23 as [->|(Ho' & _)].
  - right. split; [exact Ho|]. exists t, h. reflexivity.
  - discriminate.
Qed.

Lemma rows_kept_refl l : rows_kept l l.
Proof.
  intros d df i r Hd Hi. exists df, r. repeat split; try assumption.
  apply later_row_refl.
Qed.

Lemma rows_kept_trans l1 l2 l3 :
  rows_kept l1 l2 -> rows_kept l2 l3 -> rows_kept l1 l3.
Proof.
  intros H12 H23 d df i r Hd Hi.
  destruct (H12 d df i r Hd Hi) as (df2 & r2 & Hd2 & Hi2 & Hl2).
  destruct (H23 d df2 i r2 Hd2 Hi2) as (df3 & r3 & Hd3 & Hi3 & Hl3).
  exists df3, r3. repeat split; try assumption.
  eapply later_row_trans; eassumption.
Qed.

Lemma ledger_step_rows_kept now l l' : ledger_step now l l' -> rows_kept l l'.
Proof.
  intros H d df i r Hd Hi.
  destruct H as [|emp_id e|j row Hrow Hco].
  - unfold _ensure_attendance_file.
    destruct (l !! date_of now) as [df0|] eqn:E; simpl.
    + exists df, r. repeat split; try assumption. apply later_row_refl.
    + exists df, r. repeat split; try assumption; [|apply later_row_refl].
      rewrite lookup_insert_ne; [exact Hd|]. congruence.
  - destruct (Z.eq_dec d (date_of now)) as [->|Hne].
    + rewrite Hd. cbn [default from_option]. unfold id.
      exists (df ++ [new_record emp_id e now])%list, r.
      rewrite lookup_insert_eq. repeat split; [|apply later_row_refl].
      apply lookup_app_l_Some, Hi.
    + exists df, r. rewrite lookup_insert_ne by congruence.
      repeat split; try assumption. apply later_row_refl.
  - destruct (Z.eq_dec d (date_of now)) as [->|Hne].
    + rewrite Hd in *. cbn [default from_option] in *. unfold id in *.
      rewrite lookup_insert_eq.
      destruct (Nat.eq_dec i j) as [->|Hij].
      * assert (r = row) by congruence. subst r.
        eexists _, _. split; [reflexivity|]. split.
        -- apply list_lookup_insert_eq. apply lookup_lt_Some in Hi. exact Hi.
        -- right. split; [exact Hco|]. eexists _, _. reflexivity.
      * eexists _, r. split; [reflexivity|]. split.
        -- rewrite list_lookup_insert_ne by congruence. exact Hi.
        -- apply later_row_refl.
    + exists df, r. rewrite lookup_insert_ne by congruence.
      repeat split; try assumption. apply later_row_refl.
Qed.

Lemma any_steps_rows_kept l l' : rtc any_step l l' -> rows_kept l l'.
Proof.
  induction 1 as [|l1 l2 l3 [now H] _ IH]; [apply rows_kept_refl|].
  eapply rows_kept_trans; [|exact IH].
  apply (ledger_step_rows_kept now), H.
Qed.

(** X2. The ledgers only grow. Over every sequence of operations
    (recognition, manual attendance, adding and removing employees), a row
    that is in a ledger stays in that ledger at the same position; its
    date and its check-in time never change, nor does its employee id when
    that is read back as text; once it is closed, its check-out time and
    its hours never change again; and while it stays open its hours stay
    as they are. The only change a call makes to a row is to close it
    while it is open. (What reading and writing a ledger do to the other
    text cells is not stated.) *)
Theorem ledger_rows_are_kept (s : Manager * FaceUtils.Disk)
  (ops : list (operation * Z)) (d : Z) (df : list Row) (i : nat) (r : Row) :
  ledgers (fst s) !! d = Some df ->
  df !! i = Some r ->
  exists (df' : list Row) (r' : Row),
    ledgers (fst (run s ops)) !! d = Some df' /\
    df' !! i = Some r' /\
    (length df <= length df')%nat /\
    Date r' = Date r /\ Check_In r' = Check_In r /\
    (kept_as_text (Employee_ID r) = true -> Employee_ID r' = Employee_ID r) /\
    (Check_Out r <> None ->
     Check_Out r' = Check_Out r /\ Total_Hours r' = Total_Hours r) /\
    (Check_Out r = None -> Check_Out r' = None ->
     Total_Hours r' = Total_Hours r).
Proof.
  intros Hd Hi.
  destruct (any_steps_rows_kept _ _ (run_steps ops s) d df i r Hd Hi)
    as (df' & r' & Hd' & Hi' & Hl).
  exists df', r'. split; [exact Hd'|]. split; [exact Hi'|].
  split.
  { destruct (Nat.le_gt_cases (length df) (length df')) as [Hle|Hgt];
      [exact Hle|exfalso].
    destruct (lookup_lt_is_Some_2 df (length df') Hgt) as [x Hx].
    destruct (any_steps_rows_kept _ _ (run_steps ops s) d df _ x Hd Hx)
      as (df2 & r2 & Hd2 & Hi2 & _).
    assert (df2 = df') by congruence. subst df2.
    apply lookup_lt_Some in Hi2. lia. }
  destruct Hl as [->|(Ho & t & h & ->)].
  - repeat split; reflexivity.
  - cbn [close_record Date Check_In Employee_ID Check_Out Total_Hours].
    split; [reflexivity|]. split; [reflexivity|]. split; [reflexivity|].
    split.
    + intros Hc. contradiction.
    + intros _ Hc. discriminate Hc.
Qed.

(** *** Rows are filed by date and show their hours *)

Lemma ledger_step_dated now l l' : ledger_step now l l' -> dated l -> dated l'.
Proof.
  intros H Hl d df r Hd Hr.
  destruct H as [|emp_id e|j row Hrow Hco].
  - unfold _ensure_attendance_file in Hd.
    destruct (l !! date_of now) as [df0|] eqn:E; simpl in Hd.
    + apply (Hl d df r Hd Hr).
    + destruct (Z.eq_dec d (date_of now)) as [->|Hne].
      * rewrite lookup_insert_eq in Hd. injection Hd as <-. inversion Hr.
      * rewrite lookup_insert_ne in Hd by congruence. apply (Hl d df r Hd Hr).
  - destruct (Z.eq_dec d (date_of now)) as [->|Hne].
    + rewrite lookup_insert_eq in Hd. injection Hd as <-.
      apply elem_of_app in Hr as [Hr|Hr].
      * destruct (l !! date_of now) as [df0|] eqn:E; simpl in Hr.
        -- apply (Hl _ df0 r E Hr).
        -- inversion Hr.
      * apply list_elem_of_singleton in Hr. subst r. reflexivity.
    + rewrite lookup_insert_ne in Hd by congruence. apply (Hl d df r Hd Hr).
  - destruct (Z.eq_dec d (date_of now)) as [->|Hne].
    + rewrite lookup_insert_eq in Hd. injection Hd as <-.
      destruct (l !! date_of now) as [df0|] eqn:E; simpl in Hr, Hrow;
        [|rewrite lookup_nil in Hrow; discriminate].
      apply list_elem_of_lookup in Hr as [k Hk].
      destruct (Nat.eq_dec k j) as [->|Hkj].
      * rewrite list_lookup_insert_eq in Hk by (apply lookup_lt_Some in Hrow; exact Hrow).
        injection Hk as <-. cbn [close_record Date].
        apply (Hl _ df0 row E). apply list_elem_of_lookup. exists j. exact Hrow.
      * rewrite list_lookup_insert_ne in Hk by congruence.
        apply (Hl _ df0 r E). apply list_elem_of_lookup. exists k. exact Hk.
    + rewrite lookup_insert_ne in Hd by congruence. apply (Hl d df r Hd Hr).
Qed.

Lemma ledger_step_consistent now l l' :
  ledger_step now l l' -> all_consistent l -> all_consistent l'.
Proof.
  intros H Hl d df r Hd Hr.
  destruct H as [|emp_id e|j row Hrow Hco].
  - unfold _ensure_attendance_file in Hd.
    destruct (l !! date_of now) as [df0|] eqn:E; simpl in Hd.
    + apply (Hl d df r Hd Hr).
    + destruct (Z.eq_dec d (date_of now)) as [->|Hne].
      * rewrite lookup_insert_eq in Hd. injection Hd as <-. inversion Hr.
      * rewrite lookup_insert_ne in Hd by congruence. apply (Hl d df r Hd Hr).
  - destruct (Z.eq_dec d (date_of now)) as [->|Hne].
    + rewrite lookup_insert_eq in Hd. injection Hd as <-.
      apply elem_of_app in Hr as [Hr|Hr].
      * destruct (l !! date_of now) as [df0|] eqn:E; simpl in Hr.
        -- apply (Hl _ df0 r E Hr).
        -- inversion Hr.
      * apply list_elem_of_singleton in Hr. subst r. reflexivity.
    + rewrite lookup_insert_ne in Hd by congruence. apply (Hl d df r Hd Hr).
  - destruct (Z.eq_dec d (date_of now)) as [->|Hne].
    + rewrite lookup_insert_eq in Hd. injection Hd as <-.
      destruct (l !! date_of now) as [df0|] eqn:E; simpl in Hr, Hrow;
        [|rewrite lookup_nil in Hrow; discriminate].
      apply list_elem_of_lookup in Hr as [k Hk].
      destruct (Nat.eq_dec k j) as [->|Hkj].
      * rewrite list_lookup_insert_eq in Hk by (apply lookup_lt_Some in Hrow; exact Hrow).
        injection Hk as <-. unfold consistent.
        cbn [close_record Check_Out Check_In Total_Hours]. reflexivity.
      * rewrite list_lookup_insert_ne in Hk by congruence.
        apply (Hl _ df0 r E). apply list_elem_of_lookup. exists k. exact Hk.
    + rewrite lookup_insert_ne in Hd by congruence. apply (Hl d df r Hd Hr).
Qed.

Lemma any_steps_dated l l' : rtc any_step l l' -> dated l -> dated l'.
Proof.
  induction 1 as [|l1 l2 l3 [now H] _ IH]; [auto|].
  intros Hd. apply IH, (ledger_step_dated now l1), Hd. exact H.
Qed.

Lemma any_steps_consistent l l' :
  rtc any_step l l' -> all_consistent l -> all_consistent l'.
Proof.
  induction 1 as [|l1 l2 l3 [now H] _ IH]; [auto|].
  intros Hd. apply IH, (ledger_step_consistent now l1), Hd. exact H.
Qed.

Lemma no_ledgers_dated : dated ∅.
Proof. intros d df r H. rewrite lookup_empty in H. discriminate. Qed.

Lemma no_ledgers_consistent : all_consistent ∅.
Proof. intros d df r H. rewrite lookup_empty in H. discriminate. Qed.

Lemma run_dated emps stamps files ops :
  dated (ledgers (fst (run (mkManager emps stamps ∅, files) ops))).
Proof.
  apply (any_steps_dated _ _ (run_steps ops (mkManager emps stamps ∅, files))).
  apply no_ledgers_dated.
Qed.

Lemma run_consistent emps stamps files ops :
  all_consistent (ledgers (fst (run (mkManager emps stamps ∅, files) ops))).
Proof.
  apply (any_steps_consistent _ _ (run_steps ops (mkManager emps stamps ∅, files))).
  apply no_ledgers_consistent.
Qed.

(** X3. Starting without ledgers, over every sequence of operations, every
    row of the ledger of a date bears that date. *)
Theorem rows_filed_under_their_date
  (emps : list (string * Employee)) (stamps : gmap string Z)
  (files : FaceUtils.Disk) (ops : list (operation * Z))
  (d : Z) (df : list Row) (r : Row) :
  ledgers (fst (run (mkManager emps stamps ∅, files) ops)) !! d = Some df ->
  r ∈ df ->
  Date r = d.
Proof. apply run_dated. Qed.

(** X4. Starting without ledgers, over every sequence of operations on
    either path, the [Total_Hours] of every closed row is
    [round(seconds / 3600, 2)] of the seconds between its own check-in and
    check-out times, and every open row shows 0 hours. *)
Theorem rows_show_their_hours
  (emps : list (string * Employee)) (stamps : gmap string Z)
  (files : FaceUtils.Disk) (ops : list (operation * Z))
  (d : Z) (df : list Row) (r : Row) :
  ledgers (fst (run (mkManager emps stamps ∅, files) ops)) !! d = Some df ->
  r ∈ df ->
  match Check_Out r with
  | None => Total_Hours r = 0%float
  | Some t => Total_Hours r = PyFloat.round2 (hours_between (Check_In r) t)
  end.
Proof. apply (run_consistent emps stamps files ops d df r). Qed.

(** *** The properties on two mornings *)

Lemma other_days_untouched_witness :
  today <> date_of (at_clock 9 0 0 + US_PER_DAY)
  /\ ledgers (fst (perform (office_0900, no_files)
                     (ManualAttendance "E1" "CHECK_OUT")
                     (at_clock 9 0 0 + US_PER_DAY))) !! today
     = ledgers office_0900 !! today.
Proof.
  assert (H : today <> date_of (at_clock 9 0 0 + US_PER_DAY))
    by (vm_compute; discriminate).
  split; [exact H|].
  exact (other_days_untouched (office_0900, no_files)
           (ManualAttendance "E1" "CHECK_OUT") _ today H).
Defined.

Lemma ledger_rows_are_kept_witness :
  ledgers (fst (office_0900, no_files)) !! today
  = Some [alice_row (hms 9 0 0) None 0%float]
  /\ [alice_row (hms 9 0 0) None 0%float] !! 0%nat
     = Some (alice_row (hms 9 0 0) None 0%float)
  /\ kept_as_text (Employee_ID (alice_row (hms 9 0 0) None 0%float)) = true
  /\ exists (df' : list Row) (r' : Row),
       ledgers (fst (run (office_0900, no_files)
                       [(ManualAttendance "E1" "CHECK_OUT", at_clock 10 1 0)]))
         !! today = Some df'
       /\ df' !! 0%nat = Some r'
       /\ (length [alice_row (hms 9 0 0) None 0%float] <= length df')%nat
       /\ Date r' = today /\ Check_In r' = hms 9 0 0
       /\ Employee_ID r' = "E1".
Proof.
  assert (H1 : ledgers (fst (office_0900, no_files)) !! today
               = Some [alice_row (hms 9 0 0) None 0%float])
    by (vm_compute; reflexivity).
  assert (H2 : [alice_row (hms 9 0 0) None 0%float] !! 0%nat
               = Some (alice_row (hms 9 0 0) None 0%float)) by reflexivity.
  assert (H3 : kept_as_text (Employee_ID (alice_row (hms 9 0 0) None 0%float))
               = true) by reflexivity.
  split; [exact H1|]. split; [exact H2|]. split; [exact H3|].
  destruct (ledger_rows_are_kept (office_0900, no_files)
              [(ManualAttendance "E1" "CHECK_OUT", at_clock 10 1 0)]
              today _ 0%nat _ H1 H2)
    as (df' & r' & Hd & Hi & Hlen & Hdate & Hin & Hid & _).
  exists df', r'. split; [exact Hd|]. split; [exact Hi|].
  split; [exact Hlen|]. split; [exact Hdate|]. split; [exact Hin|].
  exact (Hid H3).
Defined.

Lemma rows_filed_under_their_date_witness :
  ledgers (fst (run (mkManager [("E1", alice)] ∅ ∅, no_files) morning_by_hand))
    !! today
  = Some [alice_row (hms 9 0 0) (Some (hms 10 1 0)) 1.02%float]
  /\ alice_row (hms 9 0 0) (Some (hms 10 1 0)) 1.02%float
     ∈ [alice_row (hms 9 0 0) (Some (hms 10 1 0)) 1.02%float]
  /\ Date (alice_row (hms 9 0 0) (Some (hms 10 1 0)) 1.02%float) = today.
Proof.
  assert (H1 : ledgers (fst (run (mkManager [("E1", alice)] ∅ ∅, no_files)
                               morning_by_hand)) !! today
               = Some [alice_row (hms 9 0 0) (Some (hms 10 1 0)) 1.02%float])
    by (vm_compute; reflexivity).
  assert (H2 : alice_row (hms 9 0 0) (Some (hms 10 1 0)) 1.02%float
               ∈ [alice_row (hms 9 0 0) (Some (hms 10 1 0)) 1.02%float])
    by apply list_elem_of_here.
  split; [exact H1|]. split; [exact H2|].
  exact (rows_filed_under_their_date _ _ _ _ _ _ _ H1 H2).
Defined.

Lemma rows_show_their_hours_witness :
  ledgers (fst (run (mkManager [("E1", alice)] ∅ ∅, no_files) morning_by_camera))
    !! today
  = Some [alice_row (hms 9 0 0) (Some (hms 10 1 0)) 1.02%float]
  /\ alice_row (hms 9 0 0) (Some (hms 10 1 0)) 1.02%float
     ∈ [alice_row (hms 9 0 0) (Some (hms 10 1 0)) 1.02%float]
  /\ 1.02%float = PyFloat.round2 (hours_between (hms 9 0 0) (hms 10 1 0)).
Proof.
  assert (H1 : ledgers (fst (run (mkManager [("E1", alice)] ∅ ∅, no_files)
                               morning_by_camera)) !! today
               = Some [alice_row (hms 9 0 0) (Some (hms 10 1 0)) 1.02%float])
    by (vm_compute; reflexivity).
  assert (H2 : alice_row (hms 9 0 0) (Some (hms 10 1 0)) 1.02%float
               ∈ [alice_row (hms 9 0 0) (Some (hms 10 1 0)) 1.02%float])
    by apply list_elem_of_here.
  split; [exact H1|]. split; [exact H2|].
  exact (rows_show_their_hours _ _ _ _ _ _ _ H1 H2).
Defined.

End LedgerProps.

(** ** Properties of the calls *)

Module CallProps.

Import Attendance AttendanceProps Registry LedgerProps.

(** *** Calls return *)

Lemma process_employee_returns m emp_id e mode now :
  is_Some (get_employee_details (employees m) emp_id) ->
  exists r, fst (process_employee m emp_id e mode now) = Ret r.
Proof.
  intros [e' He]. unfold process_employee. rewrite get_current_status_eq.
  destruct (String.eqb mode "CHECK_IN" || String.eqb mode "CHECK IN").
  - destruct (already_checked_in_today _); [eexists; reflexivity|].
    destruct (is_checked_in _); [eexists; reflexivity|].
    destruct (negb (has_incomplete_record _)); [|eexists; reflexivity].
    rewrite (_process_check_in_eq (ensured m now) emp_id e' now He).
    destruct (is_checked_in _ || has_incomplete_record _); eexists; reflexivity.
  - destruct (String.eqb mode "CHECK_OUT" || String.eqb mode "CHECK OUT");
      [|eexists; reflexivity].
    destruct (already_checked_in_today _); [eexists; reflexivity|].
    destruct (negb (is_checked_in _)); [eexists; reflexivity|].
    destruct (below_minimum _); [eexists; reflexivity|].
    destruct (_process_check_out_eq (ensured m now) emp_id e' now He)
      as [(_ & ->)|[(_ & _ & ->)|(_ & _ & i & row & _ & _ & _ & _ & _ & ->)]];
      eexists; reflexivity.
Qed.

Lemma recognised_employees m m' name :
  employees m' = employees m -> recognised m' name = recognised m name.
Proof. intros H. unfold recognised. rewrite H. reflexivity. Qed.

Lemma filter_recognised m m' names :
  employees m' = employees m ->
  List.filter (recognised m') names = List.filter (recognised m) names.
Proof.
  intros H. apply List.filter_ext. intros name. apply recognised_employees, H.
Qed.

Lemma process_names_returns names mode now : forall m acc,
  exists rs,
    fst (process_names m names mode now acc) = Ret rs /\
    length rs = (length acc + length (List.filter (recognised m) names))%nat.
Proof.
  induction names as [|name rest IH]; intros m acc; simpl.
  - exists acc. split; [reflexivity|lia].
  - unfold recognised at 1.
    destruct (String.eqb name "Unknown"); [apply IH|]. cbn [negb andb].
    destruct (get_employee_by_name (employees m) name) as [[emp_id e]|] eqn:Hn;
      [|apply IH].
    destruct (cooldown_check m emp_id now).
    + destruct (IH m (acc ++ [mkResult ERROR (MsgCooldown z)])%list)
        as (rs & Hrs & Hlen).
      exists rs. split; [exact Hrs|]. rewrite Hlen, length_app. simpl. lia.
    + destruct (process_employee_returns m emp_id e mode now
                  (get_employee_by_name_details _ _ _ _ Hn)) as [r Hr].
      pose proof (process_employee_employees m emp_id e mode now) as He.
      destruct (process_employee m emp_id e mode now) as [o m1].
      cbn [fst snd] in Hr, He. subst o.
      destruct (IH m1 (acc ++ [r])%list) as (rs & Hrs & Hlen).
      exists rs. split; [exact Hrs|].
      rewrite Hlen, length_app, (filter_recognised m m1 rest He). simpl. lia.
Qed.

Lemma process_names_app a b mode now : forall m acc,
  process_names m (a ++ b) mode now acc
  = match process_names m a mode now acc with
    | (Ret rs, m1) => process_names m1 b mode now rs
    | (Raise exn, m1) => (Raise exn, m1)
    end.
Proof.
  induction a as [|name rest IH]; intros m acc; simpl; [reflexivity|].
  destruct (String.eqb name "Unknown"); [apply IH|].
  destruct (get_employee_by_name (employees m) name) as [[emp_id e]|];
    [|apply IH].
  destruct (cooldown_check m emp_id now); [apply IH|].
  destruct (process_employee m emp_id e mode now) as [[r|exn] m1];
    [apply IH|reflexivity].
Qed.

Lemma process_names_acc names mode now : forall m acc rs m',
  process_names m names mode now [] = (Ret rs, m') ->
  process_names m names mode now acc = (Ret (acc ++ rs)%list, m').
Proof.
  induction names as [|name rest IH] using rev_ind; intros m acc rs m' H.
  - simpl in *. injection H as <- <-. rewrite app_nil_r. reflexivity.
  - rewrite process_names_app in *.
    destruct (process_names m rest mode now []) as [[rs0|exn] m0] eqn:E0;
      [|discriminate].
    rewrite (IH m acc rs0 m0 E0).
    simpl in *.
    destruct (String.eqb name "Unknown").
    { injection H as <- <-. reflexivity. }
    destruct (get_employee_by_name (employees m0) name) as [[emp_id e]|].
    2:{ injection H as <- <-. reflexivity. }
    destruct (cooldown_check m0 emp_id now).
    { injection H as <- <-. rewrite app_assoc. reflexivity. }
    destruct (process_employee m0 emp_id e mode now) as [[r|exn] m1];
      [|discriminate].
    injection H as <- <-. rewrite app_assoc. reflexivity.
Qed.

(** X5. Neither entry point raises (the ledger files being readable and
    writable). [process_attendance] returns a list with exactly one result
    for each occurrence of a name that is not "Unknown" and is the name of
    a registered employee, whatever the mode; the other names are passed
    over. A call for a list of names does what the calls for its parts do
    one after the other at the same instant: the results are those of the
    first part followed by those of the second, and the manager is the one
    the second call leaves. [manual_attendance] returns a result for every
    employee id and action. *)
Theorem attendance_calls_return (m : Manager) (now : Z) :
  (forall (names : list string) (mode : string),
      exists rs : list result,
        fst (process_attendance m names mode now) = Ret rs /\
        length rs = length (List.filter (recognised m) names))
  /\ (forall (names1 names2 : list string) (mode : string),
        exists (rs1 rs2 : list result) (m1 m2 : Manager),
          process_attendance m names1 mode now = (Ret rs1, m1) /\
          process_attendance m1 names2 mode now = (Ret rs2, m2) /\
          process_attendance m (names1 ++ names2) mode now
          = (Ret (rs1 ++ rs2)%list, m2))
  /\ (forall emp_id action : string,
        exists r : result, fst (manual_attendance m emp_id action now) = Ret r).
Proof.
  split; [|split].
  - intros names mode. unfold process_attendance.
    destruct (process_names_returns names (upper mode) now m [])
      as (rs & Hrs & Hlen).
    exists rs. split; [exact Hrs|exact Hlen].
  - intros names1 names2 mode. unfold process_attendance.
    destruct (process_names_returns names1 (upper mode) now m [])
      as (rs1 & H1 & _).
    destruct (process_names m names1 (upper mode) now []) as [o1 m1] eqn:E1.
    cbn [fst] in H1. subst o1.
    destruct (process_names_returns names2 (upper mode) now m1 [])
      as (rs2 & H2 & _).
    destruct (process_names m1 names2 (upper mode) now []) as [o2 m2] eqn:E2.
    cbn [fst] in H2. subst o2.
    exists rs1, rs2, m1, m2. split; [reflexivity|]. split; [exact E2|].
    rewrite process_names_app, E1.
    apply process_names_acc, E2.
  - intros emp_id action. unfold manual_attendance.
    destruct (get_employee_details (employees m) emp_id) as [e|] eqn:He;
      [|eexists; reflexivity].
    destruct (String.eqb action "CHECK_IN").
    { rewrite (_process_check_in_eq m emp_id e now He).
      destruct (is_checked_in _ || has_incomplete_record _); eexists; reflexivity. }
    destruct (String.eqb action "CHECK_OUT"); [|eexists; reflexivity].
    destruct (_process_check_out_eq m emp_id e now He)
      as [(_ & ->)|[(_ & _ & ->)|(_ & _ & i & row & _ & _ & _ & _ & _ & ->)]];
      eexists; reflexivity.
Qed.

(** *** A call that is refused writes nothing *)

Lemma same_rows_refl l : same_rows l l.
Proof. intros d. reflexivity. Qed.

Lemma same_rows_trans l1 l2 l3 :
  same_rows l1 l2 -> same_rows l2 l3 -> same_rows l1 l3.
Proof. intros H12 H23 d. rewrite H23. apply H12. Qed.

Lemma same_rows_ensured m now : same_rows (ledgers m) (ledgers (ensured m now)).
Proof.
  intros d. destruct (Z.eq_dec d (date_of now)) as [->|Hd].
  - rewrite ensured_lookup. reflexivity.
  - rewrite ensured_lookup_ne by exact Hd. reflexivity.
Qed.

Lemma untouched_refl m : untouched m m.
Proof. split; [reflexivity|]. split; [reflexivity|]. apply same_rows_refl. Qed.

Lemma untouched_trans m1 m2 m3 :
  untouched m1 m2 -> untouched m2 m3 -> untouched m1 m3.
Proof.
  intros (E1 & L1 & R1) (E2 & L2 & R2).
  split; [congruence|]. split; [congruence|].
  eapply same_rows_trans; eassumption.
Qed.

Lemma untouched_ensured m now : untouched m (ensured m now).
Proof.
  split; [reflexivity|]. split; [reflexivity|]. apply same_rows_ensured.
Qed.

Lemma _process_check_in_refused m emp_id e now r m' :
  get_employee_details (employees m) emp_id = Some e ->
  _process_check_in m emp_id now = (Ret r, m') ->
  succeeded r = false ->
  m' = ensured m now.
Proof.
  intros He H Hs. rewrite (_process_check_in_eq _ _ _ _ He) in H.
  destruct (is_checked_in _ || has_incomplete_record _).
  - injection H as _ <-. reflexivity.
  - injection H as <- _. discriminate.
Qed.

Lemma _process_check_out_refused m emp_id e now r m' :
  get_employee_details (employees m) emp_id = Some e ->
  _process_check_out m emp_id now = (Ret r, m') ->
  succeeded r = false ->
  m' = ensured m now.
Proof.
  intros He H Hs.
  destruct (_process_check_out_eq m emp_id e now He)
    as [(_ & E)|[(_ & _ & E)|(_ & _ & i & row & _ & _ & _ & _ & _ & E)]];
    rewrite E in H.
  - injection H as _ <-. reflexivity.
  - injection H as _ <-. reflexivity.
  - injection H as <- _. discriminate.
Qed.

Lemma record_success_refused m emp_id now r :
  succeeded r = false -> record_success m emp_id now (Ret r) = m.
Proof. destruct r as [[] ?]; simpl; [discriminate|reflexivity|reflexivity]. Qed.

Lemma process_employee_refused m emp_id e mode now r m' :
  is_Some (get_employee_details (employees m) emp_id) ->
  process_employee m emp_id e mode now = (Ret r, m') ->
  succeeded r = false ->
  m' = ensured m now.
Proof.
  intros [e' He]. unfold process_employee. rewrite get_current_status_eq.
  intros H Hs.
  destruct (String.eqb mode "CHECK_IN" || String.eqb mode "CHECK IN").
  - destruct (already_checked_in_today _); [injection H as _ <-; reflexivity|].
    destruct (is_checked_in _); [injection H as _ <-; reflexivity|].
    destruct (negb (has_incomplete_record _));
      [|injection H as _ <-; reflexivity].
    destruct (_process_check_in (ensured m now) emp_id now) as [r0 m2] eqn:E.
    injection H as -> <-.
    rewrite (record_success_refused _ _ _ _ Hs).
    rewrite (_process_check_in_refused (ensured m now) _ _ _ _ _ He E Hs).
    apply ensured_idem.
  - destruct (String.eqb mode "CHECK_OUT" || String.eqb mode "CHECK OUT");
      [|injection H as _ <-; reflexivity].
    destruct (already_checked_in_today _); [injection H as _ <-; reflexivity|].
    destruct (negb (is_checked_in _)); [injection H as _ <-; reflexivity|].
    destruct (below_minimum _); [injection H as _ <-; reflexivity|].
    destruct (_process_check_out (ensured m now) emp_id now) as [r0 m2] eqn:E.
    injection H as -> <-.
    rewrite (record_success_refused _ _ _ _ Hs).
    rewrite (_process_check_out_refused (ensured m now) _ _ _ _ _ He E Hs).
    apply ensured_idem.
Qed.

Lemma process_names_extends names mode now : forall m acc rs m',
  process_names m names mode now acc = (Ret rs, m') ->
  exists tail, rs = (acc ++ tail)%list.
Proof.
  induction names as [|name rest IH]; intros m acc rs m'; simpl.
  - intros H. injection H as <- _. exists []. rewrite app_nil_r. reflexivity.
  - destruct (String.eqb name "Unknown"); [apply IH|].
    destruct (get_employee_by_name _ _) as [[emp_id e]|]; [|apply IH].
    destruct (cooldown_check _ _ _).
    + intros H. apply IH in H as [tail ->].
      rewrite <- app_assoc. eexists; reflexivity.
    + destruct (process_employee m emp_id e mode now) as [[r|exn] m1];
        [|discriminate].
      intros H. apply IH in H as [tail ->].
      rewrite <- app_assoc. eexists; reflexivity.
Qed.

Lemma process_names_refused names mode now : forall m acc rs m',
  process_names m names mode now acc = (Ret rs, m') ->
  forallb (fun r => negb (succeeded r)) rs = true ->
  untouched m m'.
Proof.
  induction names as [|name rest IH]; intros m acc rs m'; simpl.
  - intros H _. injection H as _ <-. apply untouched_refl.
  - destruct (String.eqb name "Unknown"); [apply IH|].
    destruct (get_employee_by_name _ _) as [[emp_id e]|] eqn:Hn; [|apply IH].
    destruct (cooldown_check _ _ _); [apply IH|].
    destruct (process_employee m emp_id e mode now) as [[r|exn] m1] eqn:Hp;
      [|discriminate].
    intros H Hall.
    destruct (process_names_extends _ _ _ _ _ _ _ H) as [tail ->].
    assert (Hr : succeeded r = false).
    { rewrite !forallb_app in Hall. simpl in Hall.
      apply andb_prop in Hall as [Hall _]. apply andb_prop in Hall as [_ Hall].
      apply andb_prop in Hall as [Hall _]. apply negb_true_iff, Hall. }
    rewrite (process_employee_refused _ _ _ _ _ _ _
               (get_employee_by_name_details _ _ _ _ Hn) Hp Hr) in H.
    eapply untouched_trans; [apply untouched_ensured|].
    apply (IH _ _ _ _ H Hall).
Qed.

(** X6. A call that reports no SUCCESS changes nothing that can be read
    back: when none of the results of a [process_attendance] call is a
    SUCCESS, and when the result of a [manual_attendance] call is not a
    SUCCESS, the registry and the cooldown stamps are what they were and
    every date shows the rows it showed (the only possible trace is
    today's ledger, created empty). *)
Theorem refused_calls_write_nothing (m m' : Manager) (now : Z) :
  (forall (names : list string) (mode : string) (rs : list result),
      process_attendance m names mode now = (Ret rs, m') ->
      forallb (fun r => negb (succeeded r)) rs = true ->
      employees m' = employees m /\ last_processed m' = last_processed m /\
      forall d : Z, default [] (ledgers m' !! d) = default [] (ledgers m !! d))
  /\ (forall (emp_id action : string) (r : result),
        manual_attendance m emp_id action now = (Ret r, m') ->
        succeeded r = false ->
        employees m' = employees m /\ last_processed m' = last_processed m /\
        forall d : Z, default [] (ledgers m' !! d) = default [] (ledgers m !! d)).
Proof.
  split.
  - intros names mode rs H Hall.
    apply (process_names_refused _ _ _ _ _ _ _ H Hall).
  - intros emp_id action r H Hs. unfold manual_attendance in H.
    destruct (get_employee_details (employees m) emp_id) as [e|] eqn:He.
    2:{ injection H as _ <-. apply untouched_refl. }
    destruct (String.eqb action "CHECK_IN").
    { rewrite (_process_check_in_refused _ _ _ _ _ _ He H Hs).
      apply untouched_ensured. }
    destruct (String.eqb action "CHECK_OUT").
    { rewrite (_process_check_out_refused _ _ _ _ _ _ He H Hs).
      apply untouched_ensured. }
    injection H as _ <-. apply untouched_refl.
Qed.

(** *** A refused call *)

Lemma refused_calls_write_nothing_witness :
  process_attendance office_0900 ["Alice"] "check_out" (at_clock 9 5 0)
  = (Ret [mkResult ERROR (MsgMustWait 55 60)], office_0900)
  /\ forallb (fun r => negb (succeeded r)) [mkResult ERROR (MsgMustWait 55 60)]
     = true
  /\ manual_attendance office_0900 "E1" "CHECK_IN" (at_clock 9 5 0)
     = (Ret (mkResult ERROR (MsgCheckOutFirst "Alice")), office_0900)
  /\ succeeded (mkResult ERROR (MsgCheckOutFirst "Alice")) = false
  /\ employees office_0900 = employees office_0900
  /\ last_processed office_0900 = last_processed office_0900
  /\ forall d : Z,
       default [] (ledgers office_0900 !! d) = default [] (ledgers office_0900 !! d).
Proof.
  assert (H1 : process_attendance office_0900 ["Alice"] "check_out" (at_clock 9 5 0)
               = (Ret [mkResult ERROR (MsgMustWait 55 60)], office_0900))
    by (vm_compute; reflexivity).
  assert (H2 : manual_attendance office_0900 "E1" "CHECK_IN" (at_clock 9 5 0)
               = (Ret (mkResult ERROR (MsgCheckOutFirst "Alice")), office_0900))
    by (vm_compute; reflexivity).
  split; [exact H1|]. split; [reflexivity|].
  split; [exact H2|]. split; [reflexivity|].
  exact (proj2 (refused_calls_write_nothing office_0900 office_0900 (at_clock 9 5 0))
           "E1" "CHECK_IN" _ H2 eq_refl).
Defined.

End CallProps.

(** ** Properties of the status after a transition *)

Module StatusProps.

Import Attendance AttendanceProps Registry LedgerProps.

(** *** Index labels *)

Lemma tagged_app {A} (a b : list A) : forall k : nat,
  combine (seq k (length (a ++ b))) (a ++ b)
  = (combine (seq k (length a)) a
     ++ combine (seq (k + length a) (length b)) b)%list.
Proof.
  induction a as [|x a IH]; intros k; simpl.
  - rewrite Nat.add_0_r. reflexivity.
  - rewrite IH. replace (S k + length a)%nat with (k + S (length a))%nat by lia.
    reflexivity.
Qed.

Lemma tagged_bound {A} (l : list A) : forall (k : nat) (ix : nat * A),
  In ix (combine (seq k (length l)) l) -> (k <= fst ix)%nat.
Proof.
  induction l as [|a l IH]; intros k ix H; [destruct H|].
  simpl in H. destruct H as [<-|H]; [simpl; lia|].
  apply IH in H. lia.
Qed.

Lemma indexed_middle (pre post : list Row) (r : Row) :
  indexed (pre ++ r :: post)
  = (indexed pre ++ (length pre, r)
     :: combine (seq (S (length pre)) (length post)) post)%list.
Proof.
  unfold indexed. rewrite tagged_app. simpl.
  replace (S (length pre)) with (0 + S (length pre))%nat at 2 by lia.
  replace (0 + length pre + 1)%nat with (0 + S (length pre))%nat by lia.
  reflexivity.
Qed.



(** *** After a check-in *)


Lemma today_rows_written m now df :
  today_rows (set_ledgers m (<[date_of now := df]> (ledgers m))) now = df.
Proof. unfold today_rows. cbn [ledgers set_ledgers]. rewrite lookup_insert_eq. reflexivity. Qed.

Lemma today_rows_same_date m now later :
  date_of later = date_of now -> today_rows m later = today_rows m now.
Proof. intros H. unfold today_rows. rewrite H. reflexivity. Qed.

Lemma current_stamp m emp_id now r emp later :
  current (record_success m emp_id now r) emp later = current m emp later.
Proof.
  unfold current, today_rows. rewrite record_success_ledgers. reflexivity.
Qed.




(** *** After a check-out *)

Lemma checked_in_last df emp_id now i row :
  is_checked_in (status_of_ledger df emp_id now) = true ->
  record_index (status_of_ledger df emp_id now) = Some i ->
  df !! i = Some row ->
  last (List.filter (for_employee emp_id) (indexed df)) = Some (i, row).
Proof.
  intros Hin Hri Hrow.
  destruct (status_cases df emp_id now)
    as [E|[(E & _)|(_ & _ & [j row'] & Hl & _ & _ & E)]].
  - rewrite E in Hin. discriminate.
  - rewrite E in Hin. discriminate.
  - rewrite E in Hri. cbn in Hri. injection Hri as ->.
    assert (Hj : df !! i = Some row').
    { apply indexed_lookup. apply last_Some_elem_of in Hl.
      apply list_elem_of_In, filter_In in Hl as [Hl _].
      apply list_elem_of_In, Hl. }
    rewrite Hl. congruence.
Qed.

Lemma status_after_close df emp_id later i row t h :
  df !! i = Some row ->
  last (List.filter (for_employee emp_id) (indexed df)) = Some (i, row) ->
  status_of_ledger (<[i := close_record t h row]> df) emp_id later
  = completed_status t.
Proof.
  intros Hrow Hl.
  assert (Hemp : for_employee emp_id (i, row) = true).
  { apply last_Some_elem_of, list_elem_of_In, filter_In in Hl as [_ Hl].
    exact Hl. }
  destruct (list_elem_of_split_length _ _ _ Hrow) as (pre & post & -> & ->).
  rewrite indexed_middle in Hl.
  rewrite List.filter_app in Hl. cbn [List.filter] in Hl. rewrite Hemp in Hl.
  assert (Hpost : List.filter (for_employee emp_id)
                    (combine (seq (S (length pre)) (length post)) post) = []).
  { apply last_None.
    destruct (last (List.filter (for_employee emp_id)
                      (combine (seq (S (length pre)) (length post)) post)))
      as [y|] eqn:Hy; [|reflexivity].
    exfalso. rewrite last_app, last_cons, Hy in Hl. injection Hl as ->.
    apply last_Some_elem_of, list_elem_of_In, filter_In in Hy as [Hy _].
    apply tagged_bound in Hy. simpl in Hy. lia. }
  replace (length pre) with (length pre + 0)%nat at 1 by lia.
  rewrite insert_app_r. cbn [insert list_insert].
  unfold status_of_ledger. rewrite indexed_middle.
  rewrite List.filter_app. cbn [List.filter].
  assert (Hemp' : for_employee emp_id (length pre, close_record t h row) = true)
    by exact Hemp.
  rewrite Hemp', Hpost.
  rewrite last_snoc.
  rewrite List.filter_app. cbn [List.filter is_completed snd close_record Check_Out].
  rewrite last_snoc. reflexivity.
Qed.

Lemma _process_check_out_status m emp_id e now later r m' :
  get_employee_details (employees m) emp_id = Some e ->
  _process_check_out m emp_id now = (Ret r, m') ->
  succeeded r = true ->
  date_of later = date_of now ->
  current m' emp_id later = completed_status (time_of now).
Proof.
  intros He H Hs Hd.
  destruct (_process_check_out_eq m emp_id e now He)
    as [(_ & E)|[(_ & _ & E)|(Hin & _ & i & row & Hrow & _ & _ & _ & Hri & E)]];
    rewrite E in H.
  - injection H as <- _. discriminate.
  - injection H as <- _. discriminate.
  - injection H as _ <-.
    unfold current. rewrite (today_rows_same_date _ _ _ Hd), today_rows_written.
    apply status_after_close; [exact Hrow|].
    apply (checked_in_last _ _ now); assumption.
Qed.

(** The status after a check-out that succeeded, on either path. *)
Lemma status_after_success_out
  (m m' : Manager) (emp_id who : string) (e : Employee)
  (minutes now later : Z) :
  get_employee_details (employees m) emp_id = Some e ->
  manual_attendance m emp_id "CHECK_OUT" now
  = (Ret (mkResult SUCCESS (MsgCheckedOut who minutes)), m')
  \/ (exists (name mode : string) (e0 : Employee),
        get_employee_by_name (employees m) name = Some (emp_id, e0) /\
        process_attendance m [name] mode now
        = (Ret [mkResult SUCCESS (MsgCheckedOut who minutes)], m')) ->
  date_of later = date_of now ->
  fst (get_current_status m' emp_id later)
  = {| is_checked_in := false; check_in_time := None; elapsed_us := 0;
       record_index := None; has_incomplete_record := false;
       already_checked_in_today := true;
       last_check_out := Some (time_of now) |}.
Proof.
  intros He H Hd. rewrite get_current_status_eq. cbn [fst].
  destruct H as [H|(name & mode & e0 & Hn & H)].
  - unfold manual_attendance in H. rewrite He in H.
    change (String.eqb "CHECK_OUT" "CHECK_IN") with false in H.
    change (String.eqb "CHECK_OUT" "CHECK_OUT") with true in H.
    cbv iota in H.
    apply (_process_check_out_status _ _ _ _ _ _ _ He H eq_refl Hd).
  - rewrite process_attendance_single, Hn in H.
    destruct (String.eqb name "Unknown"); [discriminate|].
    destruct (cooldown_check m emp_id now); [discriminate|].
    destruct (process_employee m emp_id e0 (upper mode) now) as [[r|exn] m1] eqn:Hp;
      [|discriminate].
    injection H as -> ->.
    unfold process_employee in Hp. rewrite get_current_status_eq in Hp.
    destruct (String.eqb (upper mode) "CHECK_IN" || String.eqb (upper mode) "CHECK IN").
    + exfalso.
      destruct (already_checked_in_today _); [discriminate|].
      destruct (is_checked_in (current m emp_id now)); [discriminate|].
      destruct (negb (has_incomplete_record _)); [|discriminate].
      rewrite (_process_check_in_eq (ensured m now) emp_id e now He) in Hp.
      destruct (is_checked_in _ || has_incomplete_record _); discriminate.
    + destruct (String.eqb (upper mode) "CHECK_OUT" || String.eqb (upper mode) "CHECK OUT");
        [|discriminate].
      destruct (already_checked_in_today _); [discriminate|].
      destruct (negb (is_checked_in _)); [discriminate|].
      destruct (below_minimum _); [discriminate|].
      destruct (_process_check_out (ensured m now) emp_id now) as [r0 m2] eqn:E.
      injection Hp as -> <-.
      rewrite current_stamp.
      apply (_process_check_out_status (ensured m now) _ _ _ _ _ _ He E eq_refl Hd).
Qed.


(** *** The manual page *)

Lemma incomplete_iff_checked_in df emp_id now :
  has_incomplete_record (status_of_ledger df emp_id now)
  = is_checked_in (status_of_ledger df emp_id now).
Proof.
  unfold status_of_ledger.
  destruct (last (List.filter (for_employee emp_id) (indexed df))); [|reflexivity].
  destruct (last (List.filter is_completed _)); [reflexivity|].
  destruct (Check_Out _); reflexivity.
Qed.

(** X9. What the manual page of [app.py] does for a registered employee.
    The page offers CHECK_OUT when the status says checked in and CHECK_IN
    otherwise. So when the employee is not checked in, the check-in is
    never refused: it succeeds and appends an open row, also when the
    employee has completed a cycle on that date already. When the employee
    is checked in, the check-out is refused with the elapsed minutes before
    an hour has passed and succeeds from then on. *)
Theorem manual_page_outcomes (m : Manager) (emp_id : string) (e : Employee)
  (now : Z) :
  get_employee_details (employees m) emp_id = Some e ->
  let st := current m emp_id now in
  (is_checked_in st = false ->
   manual_attendance_page m emp_id now
   = (Ret (mkResult SUCCESS (MsgCheckedIn (emp_name e))),
      set_ledgers (ensured m now)
        (<[date_of now := (today_rows m now ++ [new_record emp_id e now])%list]>
           (ledgers (ensured m now)))))
  /\ (is_checked_in st = true ->
      elapsed_us st < MIN_CHECKOUT_MINUTES * US_PER_MINUTE ->
      manual_attendance_page m emp_id now
      = (Ret (mkResult ERROR
                (MsgTooEarly MIN_CHECKOUT_MINUTES (elapsed_whole_minutes st))),
         ensured m now))
  /\ (is_checked_in st = true ->
      MIN_CHECKOUT_MINUTES * US_PER_MINUTE <= elapsed_us st ->
      fst (manual_attendance_page m emp_id now)
      = Ret (mkResult SUCCESS
               (MsgCheckedOut (emp_name e) (elapsed_whole_minutes st)))).
Proof.
  intros He st.
  assert (Hpage : manual_attendance_page m emp_id now
                  = manual_attendance (ensured m now) emp_id (page_action st) now).
  { unfold manual_attendance_page. rewrite get_current_status_eq. reflexivity. }
  assert (He' : get_employee_details (employees (ensured m now)) emp_id = Some e)
    by exact He.
  rewrite Hpage. unfold manual_attendance. rewrite He'.
  split; [|split].
  - intros Hin. unfold page_action. rewrite Hin.
    change (String.eqb "CHECK_IN" "CHECK_IN") with true. cbv iota.
    rewrite (_process_check_in_eq _ _ _ _ He').
    rewrite current_ensured, today_rows_ensured, ensured_idem.
    fold st. unfold st at 2, current. rewrite incomplete_iff_checked_in.
    fold (current m emp_id now). fold st. rewrite Hin. reflexivity.
  - intros Hin Hlt. unfold page_action. rewrite Hin.
    change (String.eqb "CHECK_OUT" "CHECK_IN") with false.
    change (String.eqb "CHECK_OUT" "CHECK_OUT") with true. cbv iota.
    apply below_minimum_true in Hlt.
    destruct (_process_check_out_eq (ensured m now) emp_id e now He')
      as [(E & _)|[(_ & _ & E)|(_ & E & _)]];
      rewrite current_ensured in E; fold st in E.
    + congruence.
    + rewrite E, ensured_idem. reflexivity.
    + congruence.
  - intros Hin Hge. unfold page_action. rewrite Hin.
    change (String.eqb "CHECK_OUT" "CHECK_IN") with false.
    change (String.eqb "CHECK_OUT" "CHECK_OUT") with true. cbv iota.
    assert (Hb : below_minimum st = false).
    { unfold below_minimum. apply Z.ltb_ge. exact Hge. }
    destruct (_process_check_out_eq (ensured m now) emp_id e now He')
      as [(E & _)|[(_ & E & _)|(_ & _ & i & row & _ & _ & _ & _ & _ & E)]];
      rewrite ?current_ensured in E; fold st in E.
    + congruence.
    + congruence.
    + rewrite E. reflexivity.
Qed.

(** *** Recognition alone *)

Lemma perform_one_row s op now :
  is_manual op = false ->
  one_row_each (fst s) -> one_row_each (fst (perform s op now)).
Proof.
  destruct op as [names mode|emp_id action|emp_id name dep pos|emp_id];
    cbn [perform fst is_manual]; intros Hm H; try discriminate.
  - apply process_names_one_row, H.
  - unfold add_employee. destruct (get_employee_details _ _); exact H.
  - unfold remove_employee. destruct (get_employee_details _ _); exact H.
Qed.

Lemma run_one_row ops : forall s,
  forallb (fun o => negb (is_manual (fst o))) ops = true ->
  one_row_each (fst s) -> one_row_each (fst (run s ops)).
Proof.
  induction ops as [|[op now] ops IH]; intros s Hall H; [exact H|].
  simpl in Hall. apply andb_prop in Hall as [Hop Hall].
  simpl. apply IH; [exact Hall|].
  apply perform_one_row; [|exact H].
  apply negb_true_iff, Hop.
Qed.

Lemma run_from_no_ledgers_one_row emps stamps files ops :
  forallb (fun o => negb (is_manual (fst o))) ops = true ->
  one_row_each (fst (run (mkManager emps stamps ∅, files) ops)).
Proof.
  intros Hall. apply (run_one_row ops (mkManager emps stamps ∅, files) Hall).
  intros d' df' e' H'. simpl in H'. rewrite lookup_empty in H'. discriminate.
Qed.

(** X10. Without the manual path there is one row per employee and date.
    Starting without ledgers, over every sequence of [process_attendance],
    [add_employee] and [remove_employee] calls, every ledger holds at most
    one row, open or closed, for each employee id that is read back as
    text. *)
Theorem recognition_keeps_one_row_each
  (emps : list (string * Employee)) (stamps : gmap string Z)
  (files : FaceUtils.Disk) (ops : list (operation * Z))
  (d : Z) (df : list Row) (emp_id : string) :
  forallb (fun o => negb (is_manual (fst o))) ops = true ->
  kept_as_text emp_id = true ->
  ledgers (fst (run (mkManager emps stamps ∅, files) ops)) !! d = Some df ->
  (length (rows_of emp_id df) <= 1)%nat.
Proof.
  intros Hall _.
  apply (run_from_no_ledgers_one_row emps stamps files ops Hall d df emp_id).
Qed.

(** *** The properties on Alice's morning *)



Lemma manual_page_outcomes_witness :
  get_employee_details (employees office_1001) "E1" = Some alice
  /\ is_checked_in (current office_1001 "E1" (at_clock 10 2 0)) = false
  /\ already_checked_in_today (current office_1001 "E1" (at_clock 10 2 0)) = true
  /\ manual_attendance_page office_1001 "E1" (at_clock 10 2 0)
     = (Ret (mkResult SUCCESS (MsgCheckedIn (emp_name alice))),
        set_ledgers (ensured office_1001 (at_clock 10 2 0))
          (<[date_of (at_clock 10 2 0) :=
               (today_rows office_1001 (at_clock 10 2 0)
                ++ [new_record "E1" alice (at_clock 10 2 0)])%list]>
             (ledgers (ensured office_1001 (at_clock 10 2 0)))))
  /\ get_employee_details (employees office_0900) "E1" = Some alice
  /\ is_checked_in (current office_0900 "E1" (at_clock 9 5 0)) = true
  /\ elapsed_us (current office_0900 "E1" (at_clock 9 5 0))
     < MIN_CHECKOUT_MINUTES * US_PER_MINUTE
  /\ manual_attendance_page office_0900 "E1" (at_clock 9 5 0)
     = (Ret (mkResult ERROR
               (MsgTooEarly MIN_CHECKOUT_MINUTES
                  (elapsed_whole_minutes (current office_0900 "E1" (at_clock 9 5 0))))),
        ensured office_0900 (at_clock 9 5 0)).
Proof.
  destruct (manual_page_outcomes office_1001 "E1" alice (at_clock 10 2 0) eq_refl)
    as (Hin & _).
  destruct (manual_page_outcomes office_0900 "E1" alice (at_clock 9 5 0) eq_refl)
    as (_ & Hearly & _).
  split; [reflexivity|]. split; [reflexivity|]. split; [reflexivity|].
  split; [exact (Hin eq_refl)|].
  split; [reflexivity|]. split; [reflexivity|]. split; [reflexivity|].
  exact (Hearly eq_refl eq_refl).
Defined.

Lemma recognition_keeps_one_row_each_witness :
  forallb (fun o => negb (is_manual (fst o))) morning_by_camera = true
  /\ kept_as_text "E1" = true
  /\ ledgers (fst (run (mkManager [("E1", alice)] ∅ ∅, no_files) morning_by_camera))
       !! today
     = Some [alice_row (hms 9 0 0) (Some (hms 10 1 0)) 1.02%float]
  /\ (length (rows_of "E1" [alice_row (hms 9 0 0) (Some (hms 10 1 0)) 1.02%float])
      <= 1)%nat.
Proof.
  assert (H : ledgers (fst (run (mkManager [("E1", alice)] ∅ ∅, no_files)
                              morning_by_camera)) !! today
              = Some [alice_row (hms 9 0 0) (Some (hms 10 1 0)) 1.02%float])
    by (vm_compute; reflexivity).
  split; [reflexivity|]. split; [reflexivity|]. split; [exact H|].
  exact (recognition_keeps_one_row_each [("E1", alice)] ∅ no_files
           morning_by_camera today _ "E1" eq_refl eq_refl H).
Defined.

End StatusProps.

(** ** Properties of the registry *)

Module RegistryProps.

Import Attendance AttendanceProps Registry.

Lemma get_employee_details_app emps k e emp_id :
  get_employee_details (emps ++ [(k, e)])%list emp_id
  = match get_employee_details emps emp_id with
    | Some x => Some x
    | None => if String.eqb k emp_id then Some e else None
    end.
Proof.
  induction emps as [|[k0 e0] emps IH]; simpl; [reflexivity|].
  destruct (String.eqb k0 emp_id); [reflexivity|exact IH].
Qed.

Lemma get_employee_by_name_app emps k e name :
  get_employee_by_name (emps ++ [(k, e)])%list name
  = match get_employee_by_name emps name with
    | Some x => Some x
    | None => if String.eqb (emp_name e) name then Some (k, e) else None
    end.
Proof.
  induction emps as [|[k0 e0] emps IH]; simpl; [reflexivity|].
  destruct (String.eqb (emp_name e0) name); [reflexivity|exact IH].
Qed.

(** X11. [add_employee] and the lookup by id. For an id that is not
    registered, [add_employee] returns true, and afterwards the id looks up
    to the details given, dated with the day of the call; every other id
    looks up as before, and the ledgers and cooldown stamps are untouched.
    For a registered id it returns false and changes nothing, so the
    details first registered stay. *)
Theorem add_employee_then_lookup
  (m : Manager) (emp_id name department position : string) (now : Z) :
  let r := add_employee m emp_id name department position now in
  match get_employee_details (employees m) emp_id with
  | Some _ => r = (false, m)
  | None =>
      fst r = true
      /\ get_employee_details (employees (snd r)) emp_id
         = Some (mkEmployee name department position (date_of now))
      /\ (forall other : string,
            other <> emp_id ->
            get_employee_details (employees (snd r)) other
            = get_employee_details (employees m) other)
      /\ ledgers (snd r) = ledgers m
      /\ last_processed (snd r) = last_processed m
  end.
Proof.
  intros r. subst r. unfold add_employee.
  destruct (get_employee_details (employees m) emp_id) eqn:He; [reflexivity|].
  cbn [fst snd employees set_employees ledgers last_processed].
  split; [reflexivity|]. split.
  - rewrite get_employee_details_app, He, String.eqb_refl. reflexivity.
  - split; [|split; reflexivity].
    intros other Hne. rewrite get_employee_details_app.
    destruct (get_employee_details (employees m) other); [reflexivity|].
    destruct (String.eqb emp_id other) eqn:E; [|reflexivity].
    apply String.eqb_eq in E. congruence.
Qed.

Lemma get_employee_by_name_del emps name emp_id e other :
  get_employee_by_name emps name = Some (emp_id, e) ->
  other <> emp_id ->
  get_employee_by_name (del other emps) name = Some (emp_id, e).
Proof.
  intros H Hne. unfold del.
  induction emps as [|[k e0] emps IH]; simpl in *; [discriminate|].
  destruct (String.eqb (emp_name e0) name) eqn:En.
  - injection H as -> ->.
    assert (Hk : String.eqb emp_id other = false)
      by (apply String.eqb_neq; congruence).
    rewrite Hk. simpl. rewrite En. reflexivity.
  - destruct (String.eqb k other); simpl; [|rewrite En]; apply IH, H.
Qed.

Lemma del_app other emps emps' :
  del other (emps ++ emps')%list = (del other emps ++ del other emps')%list.
Proof. unfold del. apply List.filter_app. Qed.

Lemma process_names_employees names mode now : forall m acc,
  employees (snd (process_names m names mode now acc)) = employees m.
Proof.
  induction names as [|name rest IH]; intros m acc; simpl; [reflexivity|].
  destruct (String.eqb name "Unknown"); [apply IH|].
  destruct (get_employee_by_name (employees m) name) as [[emp_id e]|];
    [|apply IH].
  destruct (cooldown_check m emp_id now); [apply IH|].
  pose proof (process_employee_employees m emp_id e mode now) as He.
  destruct (process_employee m emp_id e mode now) as [[r|exn] m1];
    cbn [snd] in He; [|exact He].
  rewrite IH. exact He.
Qed.

Lemma manual_attendance_employees m emp_id action now :
  employees (snd (manual_attendance m emp_id action now)) = employees m.
Proof.
  unfold manual_attendance.
  destruct (get_employee_details (employees m) emp_id); [|reflexivity].
  destruct (String.eqb action "CHECK_IN");
    [apply _process_check_in_frame|].
  destruct (String.eqb action "CHECK_OUT");
    [apply _process_check_out_frame|reflexivity].
Qed.

Lemma perform_keeps_first_holder s op now name emp_id e :
  get_employee_by_name (employees (fst s)) name = Some (emp_id, e) ->
  removes emp_id op = false ->
  get_employee_by_name (employees (fst (perform s op now))) name
  = Some (emp_id, e).
Proof.
  intros H Hop.
  destruct op as [names mode|id action|id nm dep pos|id];
    cbn [perform fst removes] in *.
  - unfold process_attendance. rewrite process_names_employees. exact H.
  - rewrite manual_attendance_employees. exact H.
  - unfold add_employee.
    destruct (get_employee_details (employees (fst s)) id); [exact H|].
    cbn [snd employees set_employees].
    rewrite get_employee_by_name_app, H. reflexivity.
  - unfold remove_employee.
    destruct (get_employee_details (employees (fst s)) id); [|exact H].
    cbn [fst employees set_employees].
    apply get_employee_by_name_del; [exact H|].
    apply String.eqb_neq, Hop.
Qed.

Lemma run_keeps_first_holder ops name emp_id e : forall s,
  get_employee_by_name (employees (fst s)) name = Some (emp_id, e) ->
  forallb (fun o => negb (removes emp_id (fst o))) ops = true ->
  get_employee_by_name (employees (fst (run s ops))) name = Some (emp_id, e).
Proof.
  induction ops as [|[op now] ops IH]; intros s H Hall; [exact H|].
  simpl in Hall. apply andb_prop in Hall as [Hop Hall].
  simpl. apply IH; [|exact Hall].
  apply perform_keeps_first_holder; [exact H|].
  apply negb_true_iff, Hop.
Qed.

(** X12. Names are not checked. When an employee named [name] is
    registered, registering another id under the same name succeeds. The
    lookup by name, which is what recognition uses, then keeps answering
    with the employee registered first over every sequence of operations,
    for as long as that employee is not removed. Once the first holder is
    removed, and no other employee registered before the namesake bears
    the name, the lookup answers with the namesake. *)
Theorem namesake_waits_for_the_first
  (m : Manager) (first_id second_id name department position : string)
  (first_details : Employee) (now : Z) :
  get_employee_by_name (employees m) name = Some (first_id, first_details) ->
  get_employee_details (employees m) second_id = None ->
  let r := add_employee m second_id name department position now in
  let namesake := mkEmployee name department position (date_of now) in
  fst r = true
  /\ first_id <> second_id
  /\ get_employee_details (employees (snd r)) second_id = Some namesake
  /\ (forall (files : FaceUtils.Disk) (ops : list (operation * Z)),
        forallb (fun o => negb (removes first_id (fst o))) ops = true ->
        get_employee_by_name (employees (fst (run (snd r, files) ops))) name
        = Some (first_id, first_details))
  /\ (forall files : FaceUtils.Disk,
        get_employee_by_name (del first_id (employees m)) name = None ->
        get_employee_by_name
          (employees (snd (fst (remove_employee (snd r) files first_id)))) name
        = Some (second_id, namesake)).
Proof.
  intros Hn He r namesake. subst r namesake. unfold add_employee. rewrite He.
  cbn [fst snd employees set_employees].
  destruct (LedgerProps.get_employee_by_name_details _ _ _ _ Hn) as [x Hx].
  assert (Hne : first_id <> second_id) by (intros ->; congruence).
  split; [reflexivity|]. split; [exact Hne|]. split.
  { rewrite get_employee_details_app, He, String.eqb_refl. reflexivity. }
  split.
  - intros files ops Hall. apply run_keeps_first_holder; [|exact Hall].
    cbn [fst employees set_employees].
    rewrite get_employee_by_name_app, Hn. reflexivity.
  - intros files Hnone. unfold remove_employee.
    cbn [employees set_employees].
    rewrite get_employee_details_app, Hx.
    cbn [fst snd employees set_employees].
    assert (Hk : String.eqb second_id first_id = false)
      by (apply String.eqb_neq; congruence).
    assert (Hd : del first_id
                   [(second_id,
                     mkEmployee name department position (date_of now))]
                 = [(second_id,
                     mkEmployee name department position (date_of now))]).
    { unfold del. cbn [List.filter fst]. rewrite Hk. reflexivity. }
    rewrite del_app, Hd, get_employee_by_name_app, Hnone.
    cbn [emp_name]. rewrite String.eqb_refl. reflexivity.
Qed.

Lemma get_employee_details_del emps emp_id other :
  get_employee_details (del emp_id emps) other
  = if String.eqb emp_id other then None else get_employee_details emps other.
Proof.
  unfold del. induction emps as [|[k e] emps IH]; simpl.
  - destruct (String.eqb emp_id other); reflexivity.
  - destruct (String.eqb k emp_id) eqn:Ek; simpl.
    + apply String.eqb_eq in Ek. subst k. rewrite IH.
      destruct (String.eqb emp_id other); reflexivity.
    + rewrite IH. destruct (String.eqb k other) eqn:Eo; [|reflexivity].
      apply String.eqb_eq in Eo. subst k.
      rewrite String.eqb_sym, Ek. reflexivity.
Qed.

(** X13. [remove_employee]. For a registered id it returns true;
    afterwards the id is not registered and every other id looks up as
    before; the path of the image named after the employee's name under
    ["known_faces"] names no file any more; the ledgers keep the
    employee's rows; and [manual_attendance] for the id answers "Employee
    not found" without writing. For an id that is not registered it
    returns false and changes nothing. *)
Theorem remove_employee_forgets
  (m : Manager) (files : FaceUtils.Disk) (emp_id : string) :
  let '(ok, m', files') := remove_employee m files emp_id in
  match get_employee_details (employees m) emp_id with
  | None => ok = false /\ m' = m /\ files' = files
  | Some e =>
      let image_path :=
        FaceUtils.path_join "known_faces" (emp_name e ++ ".jpg") in
      ok = true
      /\ get_employee_details (employees m') emp_id = None
      /\ (forall other : string,
            other <> emp_id ->
            get_employee_details (employees m') other
            = get_employee_details (employees m) other)
      /\ ledgers m' = ledgers m
      /\ last_processed m' = last_processed m
      /\ files' !! image_path = None
      /\ (forall (action : string) (now : Z),
            manual_attendance m' emp_id action now
            = (Ret (mkResult ERROR MsgEmployeeNotFound), m'))
  end.
Proof.
  unfold remove_employee.
  destruct (get_employee_details (employees m) emp_id) as [e|] eqn:He;
    [|repeat split].
  cbn [employees set_employees ledgers last_processed].
  assert (Hgone : get_employee_details (del emp_id (employees m)) emp_id = None).
  { rewrite get_employee_details_del, String.eqb_refl. reflexivity. }
  split; [reflexivity|]. split; [exact Hgone|]. split.
  { intros other Hne. rewrite get_employee_details_del.
    destruct (String.eqb emp_id other) eqn:E; [|reflexivity].
    apply String.eqb_eq in E. congruence. }
  split; [reflexivity|]. split; [reflexivity|].
  split; [apply lookup_delete_eq|].
  intros action now. unfold manual_attendance.
  cbn [employees set_employees]. rewrite Hgone. reflexivity.
Qed.

Lemma del_absent emps emp_id :
  get_employee_details emps emp_id = None -> del emp_id emps = emps.
Proof.
  unfold del. induction emps as [|[k e] emps IH]; simpl; [reflexivity|].
  destruct (String.eqb k emp_id); [discriminate|].
  intros H. simpl. rewrite (IH H). reflexivity.
Qed.

(** X14. Adding an employee under a new id and removing it again gives
    back the registry as it was, entry for entry and in the same order;
    both calls return true. *)
Theorem add_then_remove_restores
  (m : Manager) (files : FaceUtils.Disk)
  (emp_id name department position : string) (now : Z) :
  get_employee_details (employees m) emp_id = None ->
  let added := add_employee m emp_id name department position now in
  let removed := remove_employee (snd added) files emp_id in
  fst added = true
  /\ fst (fst removed) = true
  /\ snd (fst removed) = m
  /\ get_all_employees (snd (fst removed)) = get_all_employees m.
Proof.
  intros He added removed. subst added removed.
  unfold add_employee. rewrite He. cbn [fst snd].
  unfold remove_employee. cbn [employees set_employees].
  rewrite get_employee_details_app, He, String.eqb_refl.
  cbn [fst snd]. split; [reflexivity|]. split; [reflexivity|].
  assert (Hd : del emp_id
                 (employees m
                  ++ [(emp_id, mkEmployee name department position (date_of now))])%list
               = employees m).
  { unfold del. rewrite List.filter_app. simpl. rewrite String.eqb_refl. simpl.
    rewrite app_nil_r. apply (del_absent _ _ He). }
  unfold set_employees. cbn [employees last_processed ledgers].
  rewrite Hd. split; [destruct m; reflexivity|reflexivity].
Qed.

(** *** The registry of the office *)

Lemma add_employee_then_lookup_witness :
  fst (add_employee office "E2" "Bob" "HR" "Clerk" (at_clock 9 30 0)) = true
  /\ get_employee_details
       (employees (snd (add_employee office "E2" "Bob" "HR" "Clerk" (at_clock 9 30 0))))
       "E2"
     = Some bob
  /\ get_employee_details
       (employees (snd (add_employee office "E2" "Bob" "HR" "Clerk" (at_clock 9 30 0))))
       "E1"
     = Some alice
  /\ add_employee office "E1" "Eve" "IT" "Intern" (at_clock 9 30 0) = (false, office).
Proof.
  pose proof (add_employee_then_lookup office "E2" "Bob" "HR" "Clerk" (at_clock 9 30 0))
    as H2.
  pose proof (add_employee_then_lookup office "E1" "Eve" "IT" "Intern" (at_clock 9 30 0))
    as H1.
  cbv zeta in H1, H2.
  change (get_employee_details (employees office) "E2") with (@None Employee) in H2.
  change (get_employee_details (employees office) "E1") with (Some alice) in H1.
  cbv iota in H1, H2.
  destruct H2 as (Hok & Hnew & Hother & _).
  assert (Hne : "E1" <> "E2") by discriminate.
  split; [exact Hok|]. split; [exact Hnew|].
  split; [exact (Hother "E1" Hne)|]. exact H1.
Defined.

Lemma namesake_waits_for_the_first_witness :
  get_employee_by_name (employees office) "Alice" = Some ("E1", alice)
  /\ get_employee_details (employees office) "E7" = None
  /\ forallb (fun o => negb (removes "E1" (fst o))) morning_by_camera = true
  /\ get_employee_by_name (del "E1" (employees office)) "Alice" = None
  /\ fst (add_employee office "E7" "Alice" "HR" "Clerk" (at_clock 9 30 0)) = true
  /\ "E1" <> "E7"
  /\ get_employee_details
       (employees (snd (add_employee office "E7" "Alice" "HR" "Clerk" (at_clock 9 30 0))))
       "E7"
     = Some (mkEmployee "Alice" "HR" "Clerk" (date_of (at_clock 9 30 0)))
  /\ get_employee_by_name
       (employees
          (fst (run (snd (add_employee office "E7" "Alice" "HR" "Clerk"
                            (at_clock 9 30 0)), no_files)
                  morning_by_camera)))
       "Alice"
     = Some ("E1", alice)
  /\ get_employee_by_name
       (employees
          (snd (fst (remove_employee
                       (snd (add_employee office "E7" "Alice" "HR" "Clerk"
                               (at_clock 9 30 0)))
                       no_files "E1"))))
       "Alice"
     = Some ("E7", mkEmployee "Alice" "HR" "Clerk" (date_of (at_clock 9 30 0))).
Proof.
  destruct (namesake_waits_for_the_first office "E1" "E7" "Alice" "HR" "Clerk"
              alice (at_clock 9 30 0) eq_refl eq_refl)
    as (Hok & Hne & Hnew & Hfirst & Hthen).
  split; [reflexivity|]. split; [reflexivity|]. split; [reflexivity|].
  split; [reflexivity|]. split; [exact Hok|]. split; [exact Hne|].
  split; [exact Hnew|].
  split; [exact (Hfirst no_files morning_by_camera eq_refl)|].
  exact (Hthen no_files eq_refl).
Defined.

Lemma remove_employee_forgets_witness :
  get_employee_details (employees office) "E1" = Some alice
  /\ "E2" <> "E1"
  /\ let '(ok, m', files') :=
       remove_employee office
         (<["known_faces/Alice.jpg" := FaceUtils.portrait]> no_files) "E1" in
     ok = true
     /\ get_employee_details (employees m') "E1" = None
     /\ get_employee_details (employees m') "E2"
        = get_employee_details (employees office) "E2"
     /\ files' !! "known_faces/Alice.jpg" = None
     /\ manual_attendance m' "E1" "CHECK_IN" (at_clock 9 0 0)
        = (Ret (mkResult ERROR MsgEmployeeNotFound), m').
Proof.
  assert (Hne : "E2" <> "E1") by discriminate.
  split; [reflexivity|]. split; [exact Hne|].
  pose proof (remove_employee_forgets office
                (<["known_faces/Alice.jpg" := FaceUtils.portrait]> no_files) "E1")
    as H.
  destruct (remove_employee office
              (<["known_faces/Alice.jpg" := FaceUtils.portrait]> no_files) "E1")
    as [[ok m'] files'].
  change (get_employee_details (employees office) "E1") with (Some alice) in H.
  cbv iota zeta in H.
  destruct H as (Hok & Hgone & Hother & _ & _ & Hfile & Hmanual).
  split; [exact Hok|]. split; [exact Hgone|].
  split; [exact (Hother "E2" Hne)|]. split; [exact Hfile|].
  exact (Hmanual "CHECK_IN" (at_clock 9 0 0)).
Defined.

Lemma add_then_remove_restores_witness :
  get_employee_details (employees office) "E2" = None
  /\ fst (add_employee office "E2" "Bob" "HR" "Clerk" (at_clock 9 30 0)) = true
  /\ fst (fst (remove_employee
                 (snd (add_employee office "E2" "Bob" "HR" "Clerk" (at_clock 9 30 0)))
                 no_files "E2")) = true
  /\ snd (fst (remove_employee
                 (snd (add_employee office "E2" "Bob" "HR" "Clerk" (at_clock 9 30 0)))
                 no_files "E2")) = office
  /\ get_all_employees
       (snd (fst (remove_employee
                    (snd (add_employee office "E2" "Bob" "HR" "Clerk" (at_clock 9 30 0)))
                    no_files "E2")))
     = get_all_employees office.
Proof.
  split; [reflexivity|].
  exact (add_then_remove_restores office no_files "E2" "Bob" "HR" "Clerk"
           (at_clock 9 30 0) eq_refl).
Defined.

End RegistryProps.

(** ** Properties of the reports and listings *)

Module ReportsProps.

Import Attendance AttendanceProps Registry Reports.

(** *** All records *)

Lemma rows_get_all_attendance m listing :
  rows (get_all_attendance m listing)
  = flat_map (fun d => default [] (ledgers m !! d)) listing.
Proof.
  unfold get_all_attendance. rewrite flat_map_concat_map.
  destruct (map _ listing); reflexivity.
Qed.

Lemma all_rows_elem m listing r :
  lists_ledgers m listing ->
  r ∈ rows (get_all_attendance m listing) <->
  exists (d : Z) (df : list Row), ledgers m !! d = Some df /\ r ∈ df.
Proof.
  intros [_ Hl]. rewrite rows_get_all_attendance, list_elem_of_In, in_flat_map.
  split.
  - intros (d & Hd & Hr). apply list_elem_of_In, Hl in Hd as [df Hdf].
    exists d, df. rewrite Hdf in Hr. split; [exact Hdf|].
    apply list_elem_of_In, Hr.
  - intros (d & df & Hdf & Hr). exists d. split.
    + apply list_elem_of_In, Hl. eexists; exact Hdf.
    + rewrite Hdf. apply list_elem_of_In, Hr.
Qed.

(** X15. [get_all_attendance] returns the rows of all the ledgers: a row is
    in the frame exactly when it is in the ledger of some date. The order
    of the rows follows the order in which the directory lists the files;
    two listings of the same ledgers give the same rows up to their order.
    The frame has the nine ledger columns as soon as the directory lists a
    ledger, and the seven fallback columns, without [Check_Out] and
    [Total_Hours], when it lists none. *)
Theorem all_attendance_has_every_row (m : Manager) (listing : list Z) :
  lists_ledgers m listing ->
  (forall r : Row,
      r ∈ rows (get_all_attendance m listing) <->
      exists (d : Z) (df : list Row), ledgers m !! d = Some df /\ r ∈ df)
  /\ (forall listing' : list Z,
        lists_ledgers m listing' ->
        rows (get_all_attendance m listing')
        ≡ₚ rows (get_all_attendance m listing))
  /\ columns (get_all_attendance m listing)
     = match listing with [] => FALLBACK_COLUMNS | _ => LEDGER_COLUMNS end.
Proof.
  intros H. split; [intros r; apply all_rows_elem, H|]. split.
  - intros listing' H'. rewrite !rows_get_all_attendance.
    apply Permutation_flat_map.
    destruct H as [Hn Hl], H' as [Hn' Hl'].
    apply NoDup_Permutation; try assumption.
    intros d. rewrite Hl, Hl'. reflexivity.
  - destruct listing; reflexivity.
Qed.

(** *** Reports *)

Lemma rows_get_employee_report m listing emp_id start_date end_date :
  rows (get_employee_report m listing emp_id start_date end_date)
  = List.filter (in_range start_date end_date)
      (List.filter (fun r => String.eqb (Employee_ID r) emp_id)
         (rows (get_all_attendance m listing))).
Proof.
  unfold get_employee_report, empty.
  destruct (rows (get_all_attendance m listing)) eqn:E; [|reflexivity].
  rewrite E. reflexivity.
Qed.

Lemma rows_get_department_report m listing department start_date end_date :
  rows (get_department_report m listing department start_date end_date)
  = List.filter (in_range start_date end_date)
      (List.filter (fun r => String.eqb (Department r) department)
         (rows (get_all_attendance m listing))).
Proof.
  unfold get_department_report, empty.
  destruct (rows (get_all_attendance m listing)) eqn:E; [|reflexivity].
  rewrite E. reflexivity.
Qed.

(** X16. The two reports. For an employee id (a department) that is read
    back as text, a row is in the report of the employee (of the
    department) exactly when it is in the ledger of some date, bears the
    employee id (the department), and, only when both a start and an end
    date are given, is dated from the start to the end date, both
    included. A bound given alone is ignored: the report is then the
    report without bounds. *)
Theorem reports_select_rows (m : Manager) (listing : list Z) :
  lists_ledgers m listing ->
  (forall (emp_id : string) (start_date end_date : option Z) (r : Row),
      kept_as_text emp_id = true ->
      r ∈ rows (get_employee_report m listing emp_id start_date end_date) <->
      (exists (d : Z) (df : list Row), ledgers m !! d = Some df /\ r ∈ df)
      /\ Employee_ID r = emp_id
      /\ match start_date, end_date with
         | Some s, Some e => s <= Date r <= e
         | _, _ => True
         end)
  /\ (forall (department : string) (start_date end_date : option Z) (r : Row),
        kept_as_text department = true ->
        r ∈ rows (get_department_report m listing department start_date end_date) <->
        (exists (d : Z) (df : list Row), ledgers m !! d = Some df /\ r ∈ df)
        /\ Department r = department
        /\ match start_date, end_date with
           | Some s, Some e => s <= Date r <= e
           | _, _ => True
           end)
  /\ (forall (emp_id : string) (bound : Z),
        get_employee_report m listing emp_id (Some bound) None
        = get_employee_report m listing emp_id None None
        /\ get_employee_report m listing emp_id None (Some bound)
           = get_employee_report m listing emp_id None None).
Proof.
  intros H.
  assert (Hrange : forall s e r,
             in_range s e r = true <->
             match s, e with
             | Some s, Some e => s <= Date r <= e
             | _, _ => True
             end).
  { intros [s|] [e|] r; simpl; try tauto.
    rewrite andb_true_iff, !Z.leb_le. reflexivity. }
  split; [|split].
  - intros emp_id s e r _. rewrite rows_get_employee_report.
    rewrite !list_elem_of_In, !filter_In, <- list_elem_of_In.
    rewrite (all_rows_elem _ _ _ H), String.eqb_eq, Hrange. tauto.
  - intros department s e r _. rewrite rows_get_department_report.
    rewrite !list_elem_of_In, !filter_In, <- list_elem_of_In.
    rewrite (all_rows_elem _ _ _ H), String.eqb_eq, Hrange. tauto.
  - intros emp_id bound. split; reflexivity.
Qed.

(** *** Days present *)

Lemma filter_flat_map {A B} (p : B -> bool) (f : A -> list B) (l : list A) :
  List.filter p (flat_map f l) = flat_map (fun a => List.filter p (f a)) l.
Proof.
  induction l as [|a l IH]; [reflexivity|].
  simpl. rewrite List.filter_app, IH. reflexivity.
Qed.

Lemma one_dated_row (l : gmap Z (list Row)) (emp_id : string)
  (s e d : Z) :
  dated l ->
  (forall df, l !! d = Some df -> (length (rows_of emp_id df) <= 1)%nat) ->
  map Date
    (List.filter (in_range (Some s) (Some e))
       (List.filter (fun r => String.eqb (Employee_ID r) emp_id)
          (default [] (l !! d))))
  = [] \/
  (s <= d <= e /\
   map Date
     (List.filter (in_range (Some s) (Some e))
        (List.filter (fun r => String.eqb (Employee_ID r) emp_id)
           (default [] (l !! d))))
   = [d]).
Proof.
  intros Hdated Hone.
  destruct (l !! d) as [df|] eqn:Hd; [|left; reflexivity].
  specialize (Hone df eq_refl). cbn [default from_option]. unfold id.
  fold (rows_of emp_id df).
  assert (Hin : forall r, In r (rows_of emp_id df) -> Date r = d).
  { intros r Hr. apply filter_In in Hr as [Hr _].
    apply (Hdated d df r Hd). apply list_elem_of_In, Hr. }
  destruct (rows_of emp_id df) as [|r [|r' rest]];
    [left; reflexivity| |simpl in Hone; lia].
  cbn [List.filter].
  destruct (in_range (Some s) (Some e) r) eqn:Hr; [|left; reflexivity].
  right. simpl in Hr. apply andb_prop in Hr as [H1 H2].
  apply Z.leb_le in H1, H2.
  pose proof (Hin r (or_introl eq_refl)) as Hdate.
  cbn [map]. rewrite Hdate in *. split; [lia|reflexivity].
Qed.

Lemma report_dates (l : gmap Z (list Row)) (emp_id : string) (s e : Z)
  (listing : list Z) :
  dated l ->
  (forall d df, l !! d = Some df -> (length (rows_of emp_id df) <= 1)%nat) ->
  NoDup listing ->
  NoDup (map Date
           (flat_map
              (fun d =>
                 List.filter (in_range (Some s) (Some e))
                   (List.filter (fun r => String.eqb (Employee_ID r) emp_id)
                      (default [] (l !! d))))
              listing))
  /\ forall d,
       d ∈ map Date
             (flat_map
                (fun d =>
                   List.filter (in_range (Some s) (Some e))
                     (List.filter (fun r => String.eqb (Employee_ID r) emp_id)
                        (default [] (l !! d))))
                listing) ->
       d ∈ listing /\ s <= d <= e.
Proof.
  intros Hdated Hone. induction 1 as [|d listing Hd Hn IH].
  - split; [constructor|]. intros d Hd. inversion Hd.
  - destruct IH as [IH1 IH2]. cbn [flat_map]. rewrite map_app.
    destruct (one_dated_row l emp_id s e d Hdated (Hone d)) as [E|[Hr E]];
      rewrite E; cbn [app].
    + split; [exact IH1|]. intros d' Hd'. apply IH2 in Hd' as [Hd' Hr].
      split; [apply list_elem_of_further, Hd'|exact Hr].
    + split.
      * constructor; [|exact IH1]. intros Hin. apply IH2 in Hin as [Hin _].
        contradiction.
      * intros d' Hd'. apply elem_of_cons in Hd' as [->|Hd'].
        -- split; [apply list_elem_of_here|exact Hr].
        -- apply IH2 in Hd' as [Hd' Hr']. split; [apply list_elem_of_further, Hd'|exact Hr'].
Qed.

(** X17. Days present. Starting without ledgers, over every sequence of
    [process_attendance], [add_employee] and [remove_employee] calls (no
    manual attendance), the report of an employee whose id is read back as
    text, from a start date to an end date, holds at most one row per date
    and only dates of the period:
    the dates of its rows are pairwise distinct and lie between the two
    bounds, so the number of rows, which [app.py] shows as the days
    present, is at most the number of days of the period. *)
Theorem days_present_within_period
  (emps : list (string * Employee)) (stamps : gmap string Z)
  (files : FaceUtils.Disk) (ops : list (operation * Z))
  (listing : list Z) (emp_id : string) (start_date end_date : Z) :
  forallb (fun o => negb (is_manual (fst o))) ops = true ->
  kept_as_text emp_id = true ->
  let m := fst (run (mkManager emps stamps ∅, files) ops) in
  lists_ledgers m listing ->
  let report :=
    rows (get_employee_report m listing emp_id (Some start_date) (Some end_date)) in
  NoDup (map Date report)
  /\ (forall r : Row, r ∈ report -> start_date <= Date r <= end_date)
  /\ (length report <= Z.to_nat (end_date - start_date + 1))%nat.
Proof.
  intros Hall _ m [Hn Hl] report.
  assert (Hdated : dated (ledgers m)).
  { apply LedgerProps.run_dated. }
  assert (Hone : forall d df, ledgers m !! d = Some df ->
                              (length (rows_of emp_id df) <= 1)%nat).
  { intros d df Hd.
    apply (StatusProps.run_from_no_ledgers_one_row emps stamps files ops Hall
             d df emp_id Hd). }
  assert (Hrep : report
                 = flat_map
                     (fun d =>
                        List.filter (in_range (Some start_date) (Some end_date))
                          (List.filter (fun r => String.eqb (Employee_ID r) emp_id)
                             (default [] (ledgers m !! d))))
                     listing).
  { unfold report. rewrite rows_get_employee_report, rows_get_all_attendance.
    rewrite !filter_flat_map. reflexivity. }
  destruct (report_dates (ledgers m) emp_id start_date end_date listing
              Hdated Hone Hn) as [Hnd Hin].
  rewrite <- Hrep in Hnd, Hin.
  split; [exact Hnd|]. split.
  - intros r Hr. apply (Hin (Date r)).
    apply list_elem_of_In, in_map, list_elem_of_In, Hr.
  - rewrite <- (length_map Date), <- (length_seqZ start_date).
    apply submseteq_length, NoDup_submseteq; [exact Hnd|].
    intros d Hd. apply Hin in Hd as [_ Hd]. apply elem_of_seqZ. lia.
Qed.

(** *** Who is in *)

Lemma rows_of_singleton emp_id df r :
  rows_of emp_id df = [r] ->
  exists i, List.filter (for_employee emp_id) (indexed df) = [(i, r)].
Proof.
  rewrite rows_of_indexed.
  destruct (List.filter (for_employee emp_id) (indexed df)) as [|[i r0] [|x rest]];
    try discriminate.
  simpl. intros H. injection H as ->. exists i. reflexivity.
Qed.

(** X18. Active sessions and status. An employee whom
    [get_current_status] finds checked in is listed by
    [get_active_sessions], with the same check-in time and the same whole
    minutes. When every ledger holds at most one row per employee (as
    recognition alone keeps them), the converse holds too for an id that
    is read back as text: an employee listed as an active session under
    that id has the status checked in. *)
Theorem active_sessions_match_status (m : Manager) (emp_id : string) (now : Z) :
  (is_checked_in (current m emp_id now) = true ->
   exists s : Session,
     s ∈ get_active_sessions m now /\
     session_Employee_ID s = emp_id /\
     Some (session_Check_In s) = check_in_time (current m emp_id now) /\
     session_Duration s
     = pretty (elapsed_whole_minutes (current m emp_id now)) ++ " minutes")
  /\ (one_row_each m ->
      kept_as_text emp_id = true ->
      (exists s : Session,
          s ∈ get_active_sessions m now /\ session_Employee_ID s = emp_id) ->
      is_checked_in (current m emp_id now) = true).
Proof.
  split.
  - intros Hin. unfold current in *.
    destruct (checked_in_row _ _ _ Hin)
      as (i & row & Hrow & Hid & Hco & _ & Hci & Hel).
    exists (session_of now row). unfold get_active_sessions.
    unfold today_rows in Hrow.
    destruct (ledgers m !! date_of now) as [df|] eqn:Hd;
      [|simpl in Hrow; discriminate Hrow].
    cbn [default from_option] in Hrow. unfold id in Hrow.
    split.
    { apply list_elem_of_In, in_map, filter_In. split.
      - apply list_elem_of_In, list_elem_of_lookup. exists i. exact Hrow.
      - unfold is_open. rewrite Hco. reflexivity. }
    split; [exact Hid|]. split.
    { rewrite Hci. reflexivity. }
    unfold session_of, minutes_since, elapsed_whole_minutes. cbn [session_Duration].
    unfold today_rows. rewrite Hd. cbn [default from_option]. unfold id.
    unfold today_rows in Hel. rewrite Hd in Hel. cbn [default from_option] in Hel.
    unfold id in Hel. rewrite Hel. reflexivity.
  - intros Hone _ (s & Hs & Hid). unfold get_active_sessions in Hs.
    destruct (ledgers m !! date_of now) as [df|] eqn:Hd; [|inversion Hs].
    apply list_elem_of_In, in_map_iff in Hs as (r & <- & Hr).
    apply filter_In in Hr as [Hr Hopen]. cbn [session_of session_Employee_ID] in Hid.
    assert (Hrows : rows_of emp_id df = [r]).
    { pose proof (Hone _ _ emp_id Hd) as Hlen.
      assert (Hin : In r (rows_of emp_id df)).
      { apply filter_In. split; [exact Hr|]. apply String.eqb_eq, Hid. }
      destruct (rows_of emp_id df) as [|r0 [|r1 rest]]; simpl in *;
        [contradiction| |lia].
      destruct Hin as [->|[]]. reflexivity. }
    destruct (rows_of_singleton _ _ _ Hrows) as [i Hf].
    unfold current, today_rows. rewrite Hd. cbn [default from_option]. unfold id.
    assert (Hco : Check_Out r = None).
    { unfold is_open in Hopen. destruct (Check_Out r); [discriminate|reflexivity]. }
    unfold status_of_ledger. rewrite Hf. cbn [last List.filter].
    unfold is_completed. cbn [snd]. rewrite Hco. reflexivity.
Qed.

(** X19. The listings of the day agree. [get_today_present_employees]
    has one entry for each row that [get_today_attendance] returns, in the
    same order and for the same employee; its entries marked "Checked In"
    are, in order and with the same employee, name, department, check-in
    time and duration, the sessions that [get_active_sessions] returns. *)
Theorem present_list_matches_sessions (m : Manager) (now : Z) :
  length (get_today_present_employees m now)
  = length (rows (get_today_attendance m now))
  /\ map presence_Employee_ID (get_today_present_employees m now)
     = map Employee_ID (rows (get_today_attendance m now))
  /\ map session_of_presence
       (List.filter checked_in_entry (get_today_present_employees m now))
     = get_active_sessions m now.
Proof.
  unfold get_today_present_employees, get_active_sessions, get_today_attendance,
    get_attendance_by_date.
  destruct (ledgers m !! date_of now) as [df|]; [|repeat split].
  cbn [rows].
  split; [apply length_map|]. split; [rewrite map_map; reflexivity|].
  induction df as [|r df IH]; [reflexivity|].
  cbn [map List.filter]. unfold checked_in_entry at 1.
  unfold presence_of at 1. cbn [presence_Status].
  destruct (is_open r) eqn:Ho.
  - change (String.eqb "Checked In" "Checked In") with true. cbv iota.
    cbn [map]. rewrite IH. f_equal.
    unfold session_of_presence, presence_of, session_of. rewrite Ho. reflexivity.
  - change (String.eqb "Checked Out" "Checked In") with false. cbv iota.
    exact IH.
Qed.

(** *** The reports of the office *)

Lemma office_1001_ledgers :
  ledgers office_1001
  = {[today := [alice_row (hms 9 0 0) (Some (hms 10 1 0)) 1.02%float]]}.
Proof. vm_compute. reflexivity. Qed.

Lemma singleton_lists_ledgers (m : Manager) (d : Z) (df : list Row) :
  ledgers m = {[d := df]} -> lists_ledgers m [d].
Proof.
  intros H. split; [apply NoDup_singleton|].
  intros d'. rewrite H, list_elem_of_singleton. split.
  - intros ->. rewrite lookup_singleton_eq. eexists; reflexivity.
  - intros [x Hx]. apply lookup_singleton_Some in Hx as [Hd _]. congruence.
Qed.

Lemma all_attendance_has_every_row_witness :
  lists_ledgers office_1001 [today]
  /\ (alice_row (hms 9 0 0) (Some (hms 10 1 0)) 1.02%float
      ∈ rows (get_all_attendance office_1001 [today]) <->
      exists (d : Z) (df : list Row),
        ledgers office_1001 !! d = Some df
        /\ alice_row (hms 9 0 0) (Some (hms 10 1 0)) 1.02%float ∈ df)
  /\ columns (get_all_attendance office_1001 [today]) = LEDGER_COLUMNS.
Proof.
  pose proof (singleton_lists_ledgers _ _ _ office_1001_ledgers) as H.
  destruct (all_attendance_has_every_row office_1001 [today] H) as (Hrows & _ & Hcols).
  split; [exact H|]. split; [apply Hrows|exact Hcols].
Defined.

Lemma reports_select_rows_witness :
  lists_ledgers office_1001 [today]
  /\ kept_as_text "E1" = true
  /\ kept_as_text "IT" = true
  /\ (alice_row (hms 9 0 0) (Some (hms 10 1 0)) 1.02%float
      ∈ rows (get_employee_report office_1001 [today] "E1"
                (Some today) (Some (today + 6))) <->
      (exists (d : Z) (df : list Row),
          ledgers office_1001 !! d = Some df
          /\ alice_row (hms 9 0 0) (Some (hms 10 1 0)) 1.02%float ∈ df)
      /\ Employee_ID (alice_row (hms 9 0 0) (Some (hms 10 1 0)) 1.02%float) = "E1"
      /\ today <= Date (alice_row (hms 9 0 0) (Some (hms 10 1 0)) 1.02%float)
         <= today + 6)
  /\ (alice_row (hms 9 0 0) (Some (hms 10 1 0)) 1.02%float
      ∈ rows (get_department_report office_1001 [today] "IT" None None) <->
      (exists (d : Z) (df : list Row),
          ledgers office_1001 !! d = Some df
          /\ alice_row (hms 9 0 0) (Some (hms 10 1 0)) 1.02%float ∈ df)
      /\ Department (alice_row (hms 9 0 0) (Some (hms 10 1 0)) 1.02%float) = "IT"
      /\ True)
  /\ get_employee_report office_1001 [today] "E1" (Some (today + 1)) None
     = get_employee_report office_1001 [today] "E1" None None.
Proof.
  pose proof (singleton_lists_ledgers _ _ _ office_1001_ledgers) as H.
  destruct (reports_select_rows office_1001 [today] H) as (Hemp & Hdep & Hbound).
  split; [exact H|]. split; [reflexivity|]. split; [reflexivity|]. split.
  - exact (Hemp "E1" (Some today) (Some (today + 6)) _ eq_refl).
  - split.
    + exact (Hdep "IT" None None _ eq_refl).
    + exact (proj1 (Hbound "E1" (today + 1))).
Defined.

Lemma camera_morning_ledgers :
  ledgers (fst (run (mkManager [("E1", alice)] ∅ ∅, no_files) morning_by_camera))
  = {[today := [alice_row (hms 9 0 0) (Some (hms 10 1 0)) 1.02%float]]}.
Proof. vm_compute. reflexivity. Qed.

Lemma days_present_within_period_witness :
  forallb (fun o => negb (is_manual (fst o))) morning_by_camera = true
  /\ kept_as_text "E1" = true
  /\ lists_ledgers
       (fst (run (mkManager [("E1", alice)] ∅ ∅, no_files) morning_by_camera))
       [today]
  /\ NoDup (map Date
              (rows (get_employee_report
                       (fst (run (mkManager [("E1", alice)] ∅ ∅, no_files)
                               morning_by_camera))
                       [today] "E1" (Some today) (Some (today + 6)))))
  /\ (length (rows (get_employee_report
                      (fst (run (mkManager [("E1", alice)] ∅ ∅, no_files)
                              morning_by_camera))
                      [today] "E1" (Some today) (Some (today + 6)%Z)))
      <= Z.to_nat (today + 6 - today + 1)%Z)%nat.
Proof.
  pose proof (singleton_lists_ledgers _ _ _ camera_morning_ledgers) as H.
  destruct (days_present_within_period [("E1", alice)] ∅ no_files morning_by_camera
              [today] "E1" today (today + 6) eq_refl eq_refl H)
    as (Hnd & _ & Hlen).
  split; [reflexivity|]. split; [reflexivity|]. split; [exact H|].
  split; [exact Hnd|exact Hlen].
Defined.

Lemma office_0900_ledgers :
  ledgers office_0900 = {[today := [alice_row (hms 9 0 0) None 0%float]]}.
Proof. vm_compute. reflexivity. Qed.

Lemma office_0900_one_row_each : one_row_each office_0900.
Proof.
  intros d df emp_id H. rewrite office_0900_ledgers in H.
  apply lookup_singleton_Some in H as [_ <-].
  unfold rows_of. cbn [List.filter].
  destruct (String.eqb _ emp_id); simpl; lia.
Qed.

Lemma active_sessions_match_status_witness :
  is_checked_in (current office_0900 "E1" (at_clock 9 30 0)) = true
  /\ (exists s : Session,
         s ∈ get_active_sessions office_0900 (at_clock 9 30 0)
         /\ session_Employee_ID s = "E1"
         /\ Some (session_Check_In s)
            = check_in_time (current office_0900 "E1" (at_clock 9 30 0))
         /\ session_Duration s
            = pretty (elapsed_whole_minutes
                        (current office_0900 "E1" (at_clock 9 30 0)))
              ++ " minutes")
  /\ get_active_sessions office_0900 (at_clock 9 30 0)
     = [mkSession "E1" "Alice" "IT" (hms 9 0 0) "30 minutes"]
  /\ one_row_each office_0900
  /\ kept_as_text "E1" = true
  /\ is_checked_in (current office_0900 "E1" (at_clock 9 30 0)) = true.
Proof.
  destruct (active_sessions_match_status office_0900 "E1" (at_clock 9 30 0))
    as [Hlisted Hstatus].
  assert (Hs : get_active_sessions office_0900 (at_clock 9 30 0)
               = [mkSession "E1" "Alice" "IT" (hms 9 0 0) "30 minutes"])
    by (vm_compute; reflexivity).
  split; [reflexivity|]. split; [exact (Hlisted eq_refl)|].
  split; [exact Hs|]. split; [exact office_0900_one_row_each|].
  split; [reflexivity|].
  apply (Hstatus office_0900_one_row_each eq_refl).
  exists (mkSession "E1" "Alice" "IT" (hms 9 0 0) "30 minutes").
  split; [rewrite Hs; apply list_elem_of_here|reflexivity].
Defined.

End ReportsProps.

(** ** Properties of the gallery *)

Module GalleryProps.

Import FaceUtils Gallery.

(** *** File names *)

Lemma append_nil (b : string) : "" ++ b = b.
Proof. reflexivity. Qed.

Lemma append_cons (x : ascii) (a b : string) :
  String x a ++ b = String x (a ++ b).
Proof. reflexivity. Qed.

Lemma rfind_from_app (c : ascii) (a b : string) : forall i found : Z,
  rfind_from c (a ++ b) i found
  = rfind_from c b (i + Z.of_nat (String.length a)) (rfind_from c a i found).
Proof.
  induction a as [|x a IH]; intros i found.
  - rewrite append_nil. cbn [String.length rfind_from Z.of_nat].
    rewrite Z.add_0_r. reflexivity.
  - rewrite append_cons. cbn [rfind_from String.length]. rewrite IH.
    f_equal. lia.
Qed.

Lemma substring_all (b : string) : substring 0 (String.length b) b = b.
Proof. induction b as [|y b IH]; simpl; [reflexivity|]. rewrite IH. reflexivity. Qed.

Lemma substring_prefix (a b : string) :
  substring 0 (String.length a) (a ++ b) = a.
Proof.
  induction a as [|x a IH].
  - rewrite append_nil. destruct b; reflexivity.
  - rewrite append_cons. cbn [String.length substring]. rewrite IH. reflexivity.
Qed.

Lemma substring_suffix (a b : string) :
  substring (String.length a) (String.length b) (a ++ b) = b.
Proof.
  induction a as [|x a IH].
  - rewrite append_nil. apply substring_all.
  - rewrite append_cons. cbn [String.length substring]. exact IH.
Qed.

Lemma length_append (a b : string) :
  String.length (a ++ b) = (String.length a + String.length b)%nat.
Proof.
  induction a as [|x a IH]; [reflexivity|].
  rewrite append_cons. cbn [String.length]. rewrite IH. reflexivity.
Qed.

Lemma endswith_append (a b : string) : endswith (a ++ b) b = true.
Proof.
  unfold endswith. rewrite length_append.
  replace (String.length a + String.length b - String.length b)%nat
    with (String.length a) by lia.
  rewrite substring_suffix, String.eqb_refl.
  apply andb_true_iff. split; [apply Nat.leb_le; lia|reflexivity].
Qed.

Lemma splitext_jpg (name : string) :
  file_name_safe name = true -> splitext (name ++ ".jpg") = (name, ".jpg").
Proof.
  unfold file_name_safe. intros H. apply andb_prop in H as [Hdot Hsep].
  apply Z.eqb_eq in Hsep. unfold rfind in Hsep.
  unfold splitext, rfind. rewrite !rfind_from_app, Hsep.
  cbn [rfind_from Ascii.eqb Bool.eqb]. rewrite Z.add_0_l.
  assert (Hlt : (-1 <? Z.of_nat (String.length name)) = true)
    by (apply Z.ltb_lt; lia).
  rewrite Hlt. cbn [andb].
  replace (Z.to_nat (-1 + 1)) with 0%nat by reflexivity.
  replace (Z.to_nat (Z.of_nat (String.length name) - (-1 + 1)))
    with (String.length name) by lia.
  rewrite substring_prefix, Hdot.
  rewrite Nat2Z.id, substring_prefix, length_append.
  replace (String.length name + String.length ".jpg" - String.length name)%nat
    with (String.length ".jpg") by lia.
  rewrite substring_suffix. reflexivity.
Qed.

Section WithVision.

Context {encoding : Type} (lib : Vision encoding).

(** *** Loading *)

Lemma add_known_face_dir (fu : FaceUtils encoding) path name :
  known_faces_dir (snd (add_known_face lib fu path name)) = known_faces_dir fu
  /\ disk (snd (add_known_face lib fu path name)) = disk fu.
Proof.
  unfold add_known_face. destruct (add_known_face_try lib fu path);
    split; reflexivity.
Qed.

Lemma add_known_face_try_disk (fu fu' : FaceUtils encoding) path :
  disk fu' = disk fu ->
  add_known_face_try lib fu' path = add_known_face_try lib fu path.
Proof. intros H. unfold add_known_face_try. rewrite H. reflexivity. Qed.

Lemma loads_same_files (fu fu' : FaceUtils encoding) filename :
  known_faces_dir fu' = known_faces_dir fu -> disk fu' = disk fu ->
  loads lib fu' filename = loads lib fu filename.
Proof.
  intros Hdir Hdisk. unfold loads.
  rewrite Hdir, (add_known_face_try_disk fu fu' _ Hdisk). reflexivity.
Qed.

Lemma load_files_spec (listing : list string) : forall fu : FaceUtils encoding,
  known_faces_dir (load_files lib fu listing) = known_faces_dir fu
  /\ disk (load_files lib fu listing) = disk fu
  /\ known_face_names (load_files lib fu listing)
     = (known_face_names fu
        ++ map (fun f => fst (splitext f)) (List.filter (loads lib fu) listing))%list
  /\ length (known_face_encodings (load_files lib fu listing))
     = (length (known_face_encodings fu)
        + length (List.filter (loads lib fu) listing))%nat.
Proof.
  induction listing as [|f rest IH]; intros fu.
  - simpl. rewrite app_nil_r. repeat split; lia.
  - cbn [load_files List.filter].
    destruct (is_image_name f) eqn:Himg.
    2:{ assert (Hl : loads lib fu f = false)
          by (unfold loads; rewrite Himg; reflexivity).
        rewrite Hl. apply IH. }
    destruct (add_known_face_dir fu (path_join (known_faces_dir fu) f)
                (fst (splitext f))) as [Hdir Hdisk].
    destruct (IH (snd (add_known_face lib fu (path_join (known_faces_dir fu) f)
                         (fst (splitext f))))) as (H1 & H2 & H3 & H4).
    rewrite H1, H2, H3, H4, Hdir, Hdisk.
    rewrite (List.filter_ext _ _ (fun x => loads_same_files fu _ x Hdir Hdisk)).
    assert (Hl : loads lib fu f
                 = match add_known_face_try lib fu
                           (path_join (known_faces_dir fu) f) with
                   | Ret _ => true
                   | Raise _ => false
                   end)
      by (unfold loads; rewrite Himg; reflexivity).
    rewrite Hl. unfold add_known_face.
    destruct (add_known_face_try lib fu (path_join (known_faces_dir fu) f));
      cbn [snd known_face_names known_face_encodings map length].
    + rewrite <- app_assoc, length_app. simpl. repeat split; lia.
    + repeat split.
Qed.

Lemma load_known_faces_names (fu : FaceUtils encoding) (listing : list string) :
  known_face_names (load_known_faces lib fu listing)
  = map (fun f => fst (splitext f)) (List.filter (loads lib fu) listing)
  /\ length (known_face_encodings (load_known_faces lib fu listing))
     = length (List.filter (loads lib fu) listing)
  /\ known_faces_dir (load_known_faces lib fu listing) = known_faces_dir fu
  /\ disk (load_known_faces lib fu listing) = disk fu.
Proof.
  unfold load_known_faces.
  set (fu0 := {| known_faces_dir := known_faces_dir fu;
                 known_face_encodings := []; known_face_names := [];
                 disk := disk fu |}).
  destruct (load_files_spec listing fu0) as (H1 & H2 & H3 & H4).
  assert (Hl : forall x, loads lib fu0 x = loads lib fu x)
    by (intros x; apply loads_same_files; reflexivity).
  rewrite (List.filter_ext _ _ Hl) in H3, H4.
  split; [exact H3|]. split; [exact H4|]. split; [exact H1|exact H2].
Qed.

(** X20. What [load_known_faces] loads. Whatever the gallery held before,
    afterwards its names are the file names, extension removed, of the
    listed files that end in [.jpg], [.jpeg] or [.png] and in which a face
    encoding is found, in the order of the listing; the list of encodings
    has the same length; the files are untouched; and loading again from
    the same listing gives the same gallery. *)
Theorem load_known_faces_result (fu : FaceUtils encoding) (listing : list string) :
  let fu' := load_known_faces lib fu listing in
  known_face_names fu'
  = map (fun f => fst (splitext f)) (List.filter (loads lib fu) listing)
  /\ length (known_face_encodings fu') = length (known_face_names fu')
  /\ known_faces_dir fu' = known_faces_dir fu
  /\ disk fu' = disk fu
  /\ load_known_faces lib fu' listing = fu'.
Proof.
  intros fu'. subst fu'.
  destruct (load_known_faces_names fu listing) as (H1 & H2 & H3 & H4).
  split; [exact H1|]. split; [rewrite H1, H2, length_map; reflexivity|].
  split; [exact H3|]. split; [exact H4|].
  unfold load_known_faces at 1. rewrite H3, H4. reflexivity.
Qed.

(** *** Enrolment and reloading *)

Lemma register_new_face_true (fu fu' : FaceUtils encoding) image_path name :
  register_new_face lib fu image_path name = (true, fu') ->
  exists (disk' : Disk) (e : encoding),
    add_known_face_try lib (set_disk fu disk') (save_path fu name) = Ret e
    /\ fu' = {| known_faces_dir := known_faces_dir fu;
                known_face_encodings := (known_face_encodings fu ++ [e])%list;
                known_face_names := (known_face_names fu ++ [name])%list;
                disk := disk' |}.
Proof.
  unfold register_new_face.
  destruct (disk fu !! image_path); [|discriminate].
  destruct (cvtColor lib n); [|discriminate].
  destruct (face_locations lib (as_uint8 lib a)); [|discriminate].
  destruct (negb (length a0 =? 1)%nat); [discriminate|].
  destruct (pil_save lib (disk fu) (save_path fu name) (as_uint8 lib a))
    as [disk'|]; [|discriminate].
  unfold add_known_face.
  destruct (add_known_face_try lib (set_disk fu disk') (save_path fu name))
    as [e|] eqn:E; [|discriminate].
  intros H. injection H as <-. exists disk', e. split; [exact E|reflexivity].
Qed.

(** X21. A face enrolled under a name comes back when the gallery is
    reloaded, as [app.py] does after each enrolment. When
    [register_new_face] returns true for a name that has a character other
    than the dot and no slash, [os.path.splitext] gives the name back from
    the name of the saved file, and after [load_known_faces], for every
    listing of the directory that shows the saved file, the name is in the
    gallery. *)
Theorem enrolled_face_survives_reload
  (fu fu' : FaceUtils encoding) (image_path name : string)
  (listing : list string) :
  register_new_face lib fu image_path name = (true, fu') ->
  file_name_safe name = true ->
  In (name ++ ".jpg") listing ->
  splitext (name ++ ".jpg") = (name, ".jpg")
  /\ name ∈ known_face_names (load_known_faces lib fu' listing).
Proof.
  intros Hreg Hsafe Hin.
  pose proof (splitext_jpg name Hsafe) as Hsplit.
  split; [exact Hsplit|].
  destruct (register_new_face_true _ _ _ _ Hreg) as (disk' & e & Htry & ->).
  destruct (load_known_faces_names
              {| known_faces_dir := known_faces_dir fu;
                 known_face_encodings := (known_face_encodings fu ++ [e])%list;
                 known_face_names := (known_face_names fu ++ [name])%list;
                 disk := disk' |} listing) as (Hnames & _).
  rewrite Hnames.
  apply list_elem_of_In, in_map_iff. exists (name ++ ".jpg"). split.
  { rewrite Hsplit. reflexivity. }
  apply filter_In. split; [exact Hin|].
  unfold loads. cbn [known_faces_dir].
  assert (Himg : is_image_name (name ++ ".jpg") = true).
  { unfold is_image_name. rewrite endswith_append. reflexivity. }
  rewrite Himg. cbn [andb].
  change (add_known_face_try lib (set_disk fu disk')
            (path_join (known_faces_dir fu) (name ++ ".jpg")) = Ret e) in Htry.
  unfold add_known_face_try in *. cbn [disk set_disk] in *.
  destruct (disk' !! path_join (known_faces_dir fu) (name ++ ".jpg"));
    [|discriminate].
  destruct (cvtColor lib n); [|discriminate]. cbn [mbind outcome_bind] in *.
  destruct (face_encodings lib (as_uint8 lib a) None) as [[|e0 rest]|];
    [discriminate|reflexivity|discriminate].
Qed.

(** X22. [register_new_face] changes the gallery exactly when it returns
    true. When it returns false, whatever failed, the encodings and the
    names are the lists they were. When it returns true, one encoding and
    the name have been appended, at the same position, and the saved file
    can be read back. Either way two lists of equal length stay of equal
    length. *)
Theorem register_new_face_gallery
  (fu : FaceUtils encoding) (image_path name : string) :
  let r := register_new_face lib fu image_path name in
  (fst r = false ->
   known_face_encodings (snd r) = known_face_encodings fu
   /\ known_face_names (snd r) = known_face_names fu)
  /\ (fst r = true ->
      exists e : encoding,
        known_face_encodings (snd r) = (known_face_encodings fu ++ [e])%list
        /\ known_face_names (snd r) = (known_face_names fu ++ [name])%list
        /\ is_Some (disk (snd r) !! save_path fu name))
  /\ (length (known_face_encodings fu) = length (known_face_names fu) ->
      length (known_face_encodings (snd r)) = length (known_face_names (snd r))).
Proof.
  intros r.
  assert (Hfalse : fst r = false ->
                   known_face_encodings (snd r) = known_face_encodings fu
                   /\ known_face_names (snd r) = known_face_names fu).
  { subst r. unfold register_new_face.
    destruct (disk fu !! image_path); [|split; reflexivity].
    destruct (cvtColor lib n); [|split; reflexivity].
    destruct (face_locations lib (as_uint8 lib a)); [|split; reflexivity].
    destruct (negb (length a0 =? 1)%nat); [split; reflexivity|].
    destruct (pil_save lib (disk fu) (save_path fu name) (as_uint8 lib a))
      as [disk'|]; [|split; reflexivity].
    unfold add_known_face.
    destruct (add_known_face_try lib (set_disk fu disk') (save_path fu name));
      [discriminate|split; reflexivity]. }
  assert (Htrue : fst r = true ->
                  exists e : encoding,
                    known_face_encodings (snd r) = (known_face_encodings fu ++ [e])%list
                    /\ known_face_names (snd r) = (known_face_names fu ++ [name])%list
                    /\ is_Some (disk (snd r) !! save_path fu name)).
  { intros Ht. destruct r as [ok fu'] eqn:E. cbn [fst snd] in *. subst ok.
    destruct (register_new_face_true _ _ _ _ E) as (disk' & e & Htry & ->).
    exists e. split; [reflexivity|]. split; [reflexivity|].
    cbn [disk]. unfold add_known_face_try in Htry. cbn [disk set_disk] in Htry.
    destruct (disk' !! save_path fu name); [eexists; reflexivity|discriminate]. }
  split; [exact Hfalse|]. split; [exact Htrue|].
  intros Hlen. destruct (fst r) eqn:E.
  - destruct (Htrue eq_refl) as (e & -> & -> & _).
    rewrite !length_app, Hlen. reflexivity.
  - destruct (Hfalse eq_refl) as [-> ->]. exact Hlen.
Qed.

(** *** Labels *)

Lemma first_match_label (probe : encoding) (encodings : list encoding) :
  forall names : list string,
    length encodings = length names ->
    first_match lib encodings names probe
    = Ret (label_of lib encodings names probe).
Proof.
  induction encodings as [|k encodings IH]; intros names Hlen.
  - destruct names; reflexivity.
  - destruct names as [|name names]; [discriminate|].
    simpl. destruct (within_tolerance lib k probe); [reflexivity|].
    apply IH. injection Hlen as Hlen. exact Hlen.
Qed.

Lemma label_of_unknown (probe : encoding) (encodings : list encoding) :
  forall names : list string,
    (forall k, k ∈ encodings -> within_tolerance lib k probe = false) ->
    label_of lib encodings names probe = "Unknown".
Proof.
  induction encodings as [|k encodings IH]; intros names H; [reflexivity|].
  destruct names as [|name names]; [reflexivity|].
  simpl. rewrite (H k) by apply list_elem_of_here.
  apply IH. intros k' Hk'. apply H, list_elem_of_further, Hk'.
Qed.

Lemma label_of_first (probe : encoding) (encodings : list encoding) :
  forall (names : list string) (j : nat) (k : encoding) (name : string),
    encodings !! j = Some k ->
    names !! j = Some name ->
    within_tolerance lib k probe = true ->
    (forall (j' : nat) (k' : encoding),
        (j' < j)%nat -> encodings !! j' = Some k' ->
        within_tolerance lib k' probe = false) ->
    label_of lib encodings names probe = name.
Proof.
  induction encodings as [|k0 encodings IH]; intros names j k name Hk Hn Hw Hfirst;
    [discriminate|].
  destruct names as [|n0 names]; [discriminate|].
  destruct j as [|j]; simpl in *.
  - injection Hk as ->. injection Hn as ->. rewrite Hw. reflexivity.
  - rewrite (Hfirst 0%nat k0) by (try lia; reflexivity).
    apply (IH names j k name Hk Hn Hw).
    intros j' k' Hj' Hk'. apply (Hfirst (S j') k'); [lia|exact Hk'].
Qed.

Lemma label_faces_labels (fu : FaceUtils encoding) (probes : list encoding) :
  length (known_face_encodings fu) = length (known_face_names fu) ->
  label_faces lib fu probes
  = Ret (map (label_of lib (known_face_encodings fu) (known_face_names fu)) probes).
Proof.
  intros Hlen. induction probes as [|e probes IH]; [reflexivity|].
  cbn [label_faces map]. rewrite (first_match_label _ _ _ Hlen).
  cbn [mbind outcome_bind]. rewrite IH. reflexivity.
Qed.

Lemma draw_faces_returns (locations : list box) :
  (forall frame b name, exists frame', draw_label lib frame b name = Ret frame') ->
  forall (names : list string) (frame : ndarray),
    exists frame', draw_faces lib frame locations names = Ret frame'.
Proof.
  intros Hdraw. induction locations as [|b locations IH]; intros names frame.
  - exists frame. destruct names; reflexivity.
  - destruct names as [|name names]; [exists frame; reflexivity|].
    cbn [draw_faces].
    destruct (Hdraw frame (times4 b) name) as [frame1 ->].
    cbn [mbind outcome_bind]. apply IH.
Qed.

(** X23. The labels of a frame. With a gallery whose two lists have the
    same length, for a well-shaped frame on which scaling, colour
    conversion, detection and drawing raise nothing, [process_frame]
    returns one label per face encoding, in order. The label is "Unknown"
    when no known encoding is within tolerance of the face; otherwise it is
    the name stored at the position of the first known encoding within
    tolerance. *)
Theorem process_frame_labels
  (fu : FaceUtils encoding) (frame small rgb_small : ndarray)
  (locations : list box) (encodings : list encoding) :
  length (known_face_encodings fu) = length (known_face_names fu) ->
  ndim frame = 3%nat ->
  nth 2 (shape frame) 0%nat = 3%nat ->
  resize_quarter lib (as_uint8 lib frame) = Ret small ->
  cvtColor lib small = Ret rgb_small ->
  detect lib rgb_small = Ret (locations, encodings) ->
  (forall f b name, exists f', draw_label lib f b name = Ret f') ->
  exists (out : ndarray) (labels : list string),
    process_frame lib fu (Some frame) = Ret (out, labels)
    /\ length labels = length encodings
    /\ forall (i : nat) (e : encoding),
         encodings !! i = Some e ->
         exists label : string,
           labels !! i = Some label
           /\ ((forall k, k ∈ known_face_encodings fu ->
                          within_tolerance lib k e = false) ->
               label = "Unknown")
           /\ (forall (j : nat) (k : encoding) (name : string),
                  known_face_encodings fu !! j = Some k ->
                  known_face_names fu !! j = Some name ->
                  within_tolerance lib k e = true ->
                  (forall (j' : nat) (k' : encoding),
                      (j' < j)%nat ->
                      known_face_encodings fu !! j' = Some k' ->
                      within_tolerance lib k' e = false) ->
                  label = name).
Proof.
  intros Hlen H1 H2 Hr Hc Hd Hdraw.
  set (labels := map (label_of lib (known_face_encodings fu) (known_face_names fu))
                   encodings).
  destruct (draw_faces_returns locations Hdraw labels (as_uint8 lib frame))
    as [out Hout].
  exists out, labels. split.
  { unfold process_frame. rewrite H1, H2. cbn [Nat.eqb negb orb].
    rewrite Hr. cbn [mbind outcome_bind]. rewrite Hc. cbn [mbind outcome_bind].
    rewrite Hd, (label_faces_labels _ _ Hlen). cbn [mbind outcome_bind].
    fold labels. rewrite Hout. reflexivity. }
  split; [apply length_map|].
  intros i e He.
  exists (label_of lib (known_face_encodings fu) (known_face_names fu) e).
  split.
  { unfold labels. rewrite list_lookup_fmap_Some. exists e. split; [reflexivity|exact He]. }
  split.
  - apply label_of_unknown.
  - intros j k name Hk Hn Hw Hfirst.
    apply (label_of_first e _ _ j k name Hk Hn Hw Hfirst).
Qed.

End WithVision.

(** *** The gallery on concrete pictures *)

Lemma enrolled_face_survives_reload_witness :
  register_new_face studio fresh "/tmp/portrait.jpg" "Alice" = (true, enrolled)
  /\ file_name_safe "Alice" = true
  /\ In ("Alice" ++ ".jpg") ["notes.txt"; "Alice.jpg"; "Bob.JPG"]
  /\ splitext ("Alice" ++ ".jpg") = ("Alice", ".jpg")
  /\ "Alice" ∈ known_face_names
                 (load_known_faces studio enrolled
                    ["notes.txt"; "Alice.jpg"; "Bob.JPG"]).
Proof.
  assert (H1 : register_new_face studio fresh "/tmp/portrait.jpg" "Alice"
               = (true, enrolled)) by (vm_compute; reflexivity).
  assert (H3 : In ("Alice" ++ ".jpg") ["notes.txt"; "Alice.jpg"; "Bob.JPG"])
    by (right; left; reflexivity).
  split; [exact H1|]. split; [reflexivity|]. split; [exact H3|].
  exact (enrolled_face_survives_reload studio fresh enrolled "/tmp/portrait.jpg"
           "Alice" ["notes.txt"; "Alice.jpg"; "Bob.JPG"] H1 eq_refl H3).
Defined.

Lemma register_new_face_gallery_witness :
  fst (register_new_face studio fresh "/tmp/group.jpg" "Alice") = false
  /\ known_face_names (snd (register_new_face studio fresh "/tmp/group.jpg" "Alice"))
     = known_face_names fresh
  /\ fst (register_new_face blurry fresh "/tmp/portrait.jpg" "Alice") = false
  /\ known_face_encodings
       (snd (register_new_face blurry fresh "/tmp/portrait.jpg" "Alice"))
     = known_face_encodings fresh
  /\ fst (register_new_face studio fresh "/tmp/portrait.jpg" "Alice") = true
  /\ (exists e : float,
         known_face_encodings
           (snd (register_new_face studio fresh "/tmp/portrait.jpg" "Alice"))
         = (known_face_encodings fresh ++ [e])%list
         /\ known_face_names
              (snd (register_new_face studio fresh "/tmp/portrait.jpg" "Alice"))
            = (known_face_names fresh ++ ["Alice"])%list
         /\ is_Some (disk (snd (register_new_face studio fresh
                                  "/tmp/portrait.jpg" "Alice"))
                     !! save_path fresh "Alice")).
Proof.
  destruct (register_new_face_gallery studio fresh "/tmp/group.jpg" "Alice")
    as (Hgroup & _ & _).
  destruct (register_new_face_gallery blurry fresh "/tmp/portrait.jpg" "Alice")
    as (Hblur & _ & _).
  destruct (register_new_face_gallery studio fresh "/tmp/portrait.jpg" "Alice")
    as (_ & Hone & _).
  split; [reflexivity|]. split; [exact (proj2 (Hgroup eq_refl))|].
  split; [reflexivity|]. split; [exact (proj1 (Hblur eq_refl))|].
  split; [reflexivity|]. exact (Hone eq_refl).
Defined.

Lemma process_frame_labels_witness :
  length (known_face_encodings enrolled) = length (known_face_names enrolled)
  /\ ndim group_photo = 3%nat
  /\ nth 2 (shape group_photo) 0%nat = 3%nat
  /\ resize_quarter studio (as_uint8 studio group_photo) = Ret group_photo
  /\ cvtColor studio group_photo = Ret group_photo
  /\ detect studio group_photo = Ret (toy_boxes group_photo, [1%float; 5%float])
  /\ process_frame studio enrolled (Some group_photo)
     = Ret (group_photo, ["Alice"; "Unknown"])
  /\ exists (out : ndarray) (labels : list string),
       process_frame studio enrolled (Some group_photo) = Ret (out, labels)
       /\ length labels = length [1%float; 5%float]
       /\ forall (i : nat) (e : float),
            [1%float; 5%float] !! i = Some e ->
            exists label : string,
              labels !! i = Some label
              /\ ((forall k, k ∈ known_face_encodings enrolled ->
                             within_tolerance studio k e = false) ->
                  label = "Unknown")
              /\ (forall (j : nat) (k : float) (name : string),
                     known_face_encodings enrolled !! j = Some k ->
                     known_face_names enrolled !! j = Some name ->
                     within_tolerance studio k e = true ->
                     (forall (j' : nat) (k' : float),
                         (j' < j)%nat ->
                         known_face_encodings enrolled !! j' = Some k' ->
                         within_tolerance studio k' e = false) ->
                     label = name).
Proof.
  assert (Hdraw : forall f b name, exists f', draw_label studio f b name = Ret f')
    by (intros f b name; exists f; reflexivity).
  split; [reflexivity|]. split; [reflexivity|]. split; [reflexivity|].
  split; [reflexivity|]. split; [reflexivity|]. split; [reflexivity|].
  split; [vm_compute; reflexivity|].
  exact (process_frame_labels studio enrolled group_photo group_photo group_photo
           (toy_boxes group_photo) [1%float; 5%float]
           eq_refl eq_refl eq_refl eq_refl eq_refl eq_refl Hdraw).
Defined.

End GalleryProps.

(** ** Properties of the blink counter *)

Module BlinksProps.

Import Liveness Blinks.

Lemma detect_blink_state (st : LivenessDetector) (marks : list point) (now : float) :
  snd (detect_blink st marks now)
  = if PrimFloat.ltb (ear_of marks) EYE_AR_THRESH then
      {| counter := counter st + 1; total_blinks := total_blinks st;
         last_blink_time := last_blink_time st |}
    else if EYE_AR_CONSEC_FRAMES <=? counter st then
      {| counter := 0; total_blinks := total_blinks st + 1;
         last_blink_time := now |}
    else
      {| counter := 0; total_blinks := total_blinks st;
         last_blink_time := last_blink_time st |}.
Proof.
  unfold detect_blink, ear_of.
  destruct (PrimFloat.ltb _ EYE_AR_THRESH); [reflexivity|].
  destruct (EYE_AR_CONSEC_FRAMES <=? counter st); reflexivity.
Qed.

Lemma check_face_state (st : LivenessDetector) (f : face_view) :
  snd (check_face st f)
  = match landmarks f with
    | Ret marks => snd (detect_blink st marks (blink_clock f))
    | Raise _ => st
    end.
Proof.
  unfold check_face. destruct (landmarks f) as [marks|exn]; [|reflexivity].
  destruct (detect_blink st marks (blink_clock f)) as [ear st'].
  destruct (drawing f); [|reflexivity].
  destruct (recently_blinked st' (verdict_clock f)); reflexivity.
Qed.

Lemma check_faces_state (fs : list face_view) :
  forall (st : LivenessDetector) (r r' : result),
    snd (check_faces st r fs) = snd (check_faces st r' fs).
Proof.
  induction fs as [|f fs IH]; intros st r r'; [reflexivity|].
  simpl. destruct (check_face st f) as [r0 st0]. reflexivity.
Qed.

Lemma check_faces_app (fs gs : list face_view) :
  forall (st : LivenessDetector) (r : result),
    snd (check_faces st r (fs ++ gs))
    = snd (check_faces (snd (check_faces st r fs)) r gs).
Proof.
  induction fs as [|f fs IH]; intros st r; [reflexivity|].
  simpl. destruct (check_face st f) as [r0 st0].
  rewrite IH. rewrite (check_faces_state gs _ r0 r).
  rewrite (check_faces_state fs st0 r0 r). reflexivity.
Qed.

Lemma watch_faces (frames : list (list face_view)) :
  forall st : LivenessDetector,
    watch st frames = snd (check_faces st no_face (concat frames)).
Proof.
  induction frames as [|fs frames IH]; intros st; [reflexivity|].
  cbn [watch concat]. rewrite IH, check_faces_app.
  unfold check_liveness. destruct (check_faces st no_face fs); reflexivity.
Qed.

Lemma shut_streak (fs : list face_view) :
  forall (st : LivenessDetector) (r : result),
    Forall (fun f => eyes_shut f = true) fs ->
    snd (check_faces st r fs)
    = {| counter := counter st + Z.of_nat (length fs);
         total_blinks := total_blinks st;
         last_blink_time := last_blink_time st |}.
Proof.
  induction fs as [|f fs IH]; intros st r H.
  - simpl. rewrite Z.add_0_r. destruct st; reflexivity.
  - inversion H as [|? ? Hf Hfs]; subst.
    pose proof (check_face_state st f) as Hs.
    cbn [check_faces]. destruct (check_face st f) as [r0 st0]. cbn [snd] in Hs.
    rewrite (IH st0 r0 Hfs), Hs.
    unfold eyes_shut in Hf. destruct (landmarks f) as [marks|]; [|discriminate].
    rewrite detect_blink_state, Hf. cbn [counter total_blinks last_blink_time length].
    f_equal. lia.
Qed.

(** X24. When a blink is counted. After any number of faces read with the
    eyes shut (an eye aspect ratio below 0.3), over one frame or several,
    a face read with the eyes not shut ends the streak: the streak counter
    goes back to 0, and a blink is counted, and its time recorded, exactly
    when the streak, together with what the counter held before, had
    reached 3. Faces whose drawing raises count like the others. *)
Theorem blink_counted_after_three
  (st : LivenessDetector) (frames : list (list face_view)) (f : face_view) :
  Forall (fun f => eyes_shut f = true) (concat frames) ->
  eyes_wide f = true ->
  watch st (frames ++ [[f]])
  = if EYE_AR_CONSEC_FRAMES <=? counter st + Z.of_nat (length (concat frames))
    then {| counter := 0; total_blinks := total_blinks st + 1;
            last_blink_time := blink_clock f |}
    else {| counter := 0; total_blinks := total_blinks st;
            last_blink_time := last_blink_time st |}.
Proof.
  intros Hshut Hwide.
  rewrite watch_faces, concat_app. cbn [concat]. rewrite app_nil_r.
  rewrite check_faces_app, (shut_streak _ _ _ Hshut).
  cbn [check_faces].
  pose proof (check_face_state
                {| counter := counter st + Z.of_nat (length (concat frames));
                   total_blinks := total_blinks st;
                   last_blink_time := last_blink_time st |} f) as Hs.
  destruct (check_face _ f) as [r0 st0]. cbn [snd] in *. rewrite Hs.
  unfold eyes_wide in Hwide. destruct (landmarks f) as [marks|]; [|discriminate].
  apply negb_true_iff in Hwide.
  rewrite detect_blink_state, Hwide. reflexivity.
Qed.

Lemma check_face_counts (st : LivenessDetector) (f : face_view) :
  let st' := snd (check_face st f) in
  total_blinks st <= total_blinks st' <= total_blinks st + 1
  /\ (0 <= counter st -> 0 <= counter st' <= counter st + 1)
  /\ (total_blinks st' = total_blinks st ->
      last_blink_time st' = last_blink_time st).
Proof.
  intros st'. subst st'. rewrite check_face_state.
  destruct (landmarks f) as [marks|]; [|repeat split; lia].
  rewrite detect_blink_state.
  destruct (PrimFloat.ltb _ _); [simpl; repeat split; lia|].
  destruct (EYE_AR_CONSEC_FRAMES <=? counter st); simpl; repeat split; lia.
Qed.

Lemma check_faces_counts (fs : list face_view) :
  forall (st : LivenessDetector) (r : result),
    let st' := snd (check_faces st r fs) in
    total_blinks st <= total_blinks st' <= total_blinks st + Z.of_nat (length fs)
    /\ (0 <= counter st -> 0 <= counter st' <= counter st + Z.of_nat (length fs))
    /\ (total_blinks st' = total_blinks st ->
        last_blink_time st' = last_blink_time st).
Proof.
  induction fs as [|f fs IH]; intros st r.
  - simpl. repeat split; lia.
  - pose proof (check_face_counts st f) as (H1 & H2 & H3).
    cbn [check_faces]. destruct (check_face st f) as [r0 st0].
    cbn [snd] in H1, H2, H3.
    pose proof (IH st0 r0) as (I1 & I2 & I3). cbv zeta in *.
    cbn [length]. rewrite Nat2Z.inj_succ.
    split; [lia|]. split; [intros Hc; specialize (H2 Hc); specialize (I2 ltac:(lia)); lia|].
    intros Heq.
    assert (E0 : total_blinks st0 = total_blinks st) by lia.
    rewrite I3 by lia. apply H3, E0.
Qed.

(** X25. The blink count only grows. Over every sequence of frames,
    whatever the faces in them (also those that make the predictor or the
    drawing raise), the blink count never decreases and grows by at most
    one per face; the streak counter, if it was not negative, stays so; and
    the time of the last blink moves only when a blink is counted. *)
Theorem blink_count_only_grows
  (st : LivenessDetector) (frames : list (list face_view)) :
  let st' := watch st frames in
  total_blinks st <= total_blinks st'
  /\ total_blinks st' <= total_blinks st + Z.of_nat (length (concat frames))
  /\ (0 <= counter st -> 0 <= counter st')
  /\ (total_blinks st' = total_blinks st ->
      last_blink_time st' = last_blink_time st).
Proof.
  intros st'. subst st'. rewrite watch_faces.
  pose proof (check_faces_counts (concat frames) st no_face) as (H1 & H2 & H3).
  cbv zeta in *. split; [lia|]. split; [lia|]. split; [|exact H3].
  intros Hc. specialize (H2 Hc). lia.
Qed.

(** *** The counter on concrete faces *)

Lemma blink_counted_after_three_witness :
  Forall (fun f => eyes_shut f = true) (concat three_shut)
  /\ eyes_wide (eyes_open 100.3%float) = true
  /\ watch (init 100%float) (three_shut ++ [[eyes_open 100.3%float]])
     = {| counter := 0; total_blinks := 1; last_blink_time := 100.3%float |}
  /\ watch (init 100%float) ([[eyes_closed 100.1%float]] ++ [[eyes_open 100.3%float]])
     = {| counter := 0; total_blinks := 0; last_blink_time := 100%float |}.
Proof.
  assert (H1 : Forall (fun f => eyes_shut f = true) (concat three_shut))
    by (repeat constructor).
  assert (H2 : Forall (fun f => eyes_shut f = true)
                 (concat [[eyes_closed 100.1%float]]))
    by (repeat constructor).
  split; [exact H1|]. split; [reflexivity|]. split.
  - exact (blink_counted_after_three (init 100%float) three_shut
             (eyes_open 100.3%float) H1 eq_refl).
  - exact (blink_counted_after_three (init 100%float) [[eyes_closed 100.1%float]]
             (eyes_open 100.3%float) H2 eq_refl).
Defined.

Lemma blink_count_only_grows_witness :
  total_blinks (init 100%float)
  <= total_blinks (watch (init 100%float)
                     (three_shut ++ [[unreadable_face 100.3%float]]))
  /\ total_blinks (watch (init 100%float)
                     (three_shut ++ [[unreadable_face 100.3%float]]))
     <= total_blinks (init 100%float)
        + Z.of_nat (length (concat (three_shut ++ [[unreadable_face 100.3%float]])))
  /\ 0 <= counter (init 100%float)
  /\ 0 <= counter (watch (init 100%float)
                     (three_shut ++ [[unreadable_face 100.3%float]]))
  /\ total_blinks (watch (init 100%float)
                     (three_shut ++ [[unreadable_face 100.3%float]]))
     = total_blinks (init 100%float)
  /\ last_blink_time (watch (init 100%float)
                        (three_shut ++ [[unreadable_face 100.3%float]]))
     = last_blink_time (init 100%float).
Proof.
  destruct (blink_count_only_grows (init 100%float)
              (three_shut ++ [[unreadable_face 100.3%float]]))
    as (H1 & H2 & H3 & H4).
  assert (H0 : 0 <= counter (init 100%float)) by reflexivity.
  assert (Hsame : total_blinks (watch (init 100%float)
                                  (three_shut ++ [[unreadable_face 100.3%float]]))
                  = total_blinks (init 100%float)) by reflexivity.
  split; [exact H1|]. split; [exact H2|]. split; [exact H0|].
  split; [exact (H3 H0)|]. split; [exact Hsame|exact (H4 Hsame)].
Defined.

End BlinksProps.

(** ** Properties of the accounts and sessions *)

Module AuthProps.

Import Auth.

Section WithHash.

Context (_hash_password : string -> string).


(** *** Sessions *)

Lemma expiry_bounds (now : Z) :
  now + DAY - US_PER_SECOND < strptime (strftime (now + DAY)) <= now + DAY.
Proof.
  unfold strptime, strftime, US_PER_SECOND.
  pose proof (Z.div_mod (now + DAY) 1000000 ltac:(lia)) as Hdm.
  pose proof (Z.mod_pos_bound (now + DAY) 1000000 ltac:(lia)) as Hm.
  lia.
Qed.

Lemma login_session (a a' : AuthManager) (username password token token' : string)
  (s : Session) (now : Z) :
  login _hash_password a username password token now = (Ret (Some (token', s)), a') ->
  exists u : User,
    users a !! username = Some u
    /\ user_password u = _hash_password password
    /\ user_status u = "active"
    /\ roles (user_role u) = Some (session_permissions s)
    /\ token' = token
    /\ s = {| session_username := username; session_role := user_role u;
              session_name := user_name u;
              session_permissions := session_permissions s;
              session_created_at := strftime now;
              session_expires_at := strftime (now + DAY) |}
    /\ a' = {| users := <[username := logged_in u now]> (users a);
               sessions := <[token := s]> (sessions a) |}.
Proof.
  unfold login. intros H.
  destruct (users a !! username) as [u|]; [|discriminate].
  destruct (String.eqb (user_password u) (_hash_password password)) eqn:Hp;
    [|discriminate].
  destruct (String.eqb (user_status u) "active") eqn:Hs; [|discriminate].
  cbn [negb] in H.
  destruct (roles (user_role u)) as [permissions|] eqn:Hr; [|discriminate].
  injection H as <- <- <-.
  exists u. apply String.eqb_eq in Hp, Hs.
  repeat split; assumption.
Qed.

(** X26. A session lasts a day, to the second. When [login] returns a
    session under a non-empty token: the user is a stored account with the
    hash of the password given and the status "active", and the session is
    the one that bears the user name given, the role and the name stored
    for that account, the permissions of that role, the second of the
    login as its creation and the same second a day later as its expiry;
    [verify_session] returns it, and [has_permission] answers by its
    permissions, at every instant up to 24 hours less one second after the
    login; and from 24 hours after the login on, [verify_session] returns
    nothing and removes the session. *)
Theorem session_lasts_a_day
  (a a' : AuthManager) (username password token : string) (s : Session)
  (now later : Z) :
  login _hash_password a username password token now = (Ret (Some (token, s)), a') ->
  token <> "" ->
  (exists (u : User) (permissions : list string),
      users a !! username = Some u
      /\ user_password u = _hash_password password
      /\ user_status u = "active"
      /\ roles (user_role u) = Some permissions
      /\ s = {| session_username := username;
                session_role := user_role u;
                session_name := user_name u;
                session_permissions := permissions;
                session_created_at := strftime now;
                session_expires_at := strftime (now + DAY) |})
  /\ (later <= now + DAY - US_PER_SECOND ->
      verify_session a' token later = (Some s, a')
      /\ forall permission : string,
           has_permission a' token permission later
           = (existsb (String.eqb permission) (session_permissions s), a'))
  /\ (now + DAY <= later ->
      verify_session a' token later
      = (None, set_sessions a' (delete token (sessions a')))
      /\ sessions (snd (verify_session a' token later)) !! token = None).
Proof.
  intros H Ht.
  destruct (login_session _ _ _ _ _ _ _ _ H) as (u & Hu & Hp & Hs & Hr & _ & Es & ->).
  assert (Hne : String.eqb token "" = false) by (apply String.eqb_neq, Ht).
  assert (Hexp : session_expires_at s = strftime (now + DAY))
    by (rewrite Es; reflexivity).
  pose proof (expiry_bounds now) as Hb.
  split.
  { exists u, (session_permissions s).
    split; [exact Hu|]. split; [exact Hp|]. split; [exact Hs|].
    split; [exact Hr|exact Es]. }
  split.
  - intros Hl.
    assert (Hv : verify_session
                   {| users := <[username := logged_in u now]> (users a);
                      sessions := <[token := s]> (sessions a) |} token later
                 = (Some s, {| users := <[username := logged_in u now]> (users a);
                               sessions := <[token := s]> (sessions a) |})).
    { unfold verify_session. rewrite Hne. cbn [sessions].
      rewrite lookup_insert_eq, Hexp.
      assert (Hlt : (later <? strptime (strftime (now + DAY))) = true)
        by (apply Z.ltb_lt; lia).
      rewrite Hlt. reflexivity. }
    split; [exact Hv|].
    intros permission. unfold has_permission. rewrite Hv. reflexivity.
  - intros Hl.
    assert (Hv : verify_session
                   {| users := <[username := logged_in u now]> (users a);
                      sessions := <[token := s]> (sessions a) |} token later
                 = (None,
                    set_sessions
                      {| users := <[username := logged_in u now]> (users a);
                         sessions := <[token := s]> (sessions a) |}
                      (delete token (<[token := s]> (sessions a))))).
    { unfold verify_session. rewrite Hne. cbn [sessions].
      rewrite lookup_insert_eq, Hexp.
      assert (Hlt : (later <? strptime (strftime (now + DAY))) = false)
        by (apply Z.ltb_ge; lia).
      rewrite Hlt. reflexivity. }
    split; [exact Hv|]. rewrite Hv. cbn [snd sessions set_sessions].
    apply lookup_delete_eq.
Qed.

(** *** Accounts *)

(** X27. A new account can log in. [create_user] returns true exactly
    when the role is "admin" or "user" and the user name is not taken.
    After it returns true, [login] with the user name and the password
    given returns a session, whatever the token and the instant, with the
    name and the role given and the permissions of the role. After it
    returns false nothing has changed. *)
Theorem new_account_can_log_in
  (a : AuthManager) (username password role name email : string) (now : Z) :
  let r := create_user _hash_password a username password role name email now in
  (fst r = true <->
   (role = "admin" \/ role = "user") /\ users a !! username = None)
  /\ (fst r = false -> snd r = a)
  /\ (fst r = true ->
      forall (session_token : string) (later : Z),
      exists (s : Session) (a' : AuthManager),
        login _hash_password (snd r) username password session_token later
        = (Ret (Some (session_token, s)), a')
        /\ session_username s = username
        /\ session_name s = name
        /\ session_role s = role
        /\ roles role = Some (session_permissions s)).
Proof.
  intros r. subst r. unfold create_user.
  assert (Hroles : forall x, is_Some (roles x) <-> x = "admin" \/ x = "user").
  { intros x. unfold roles.
    destruct (String.eqb x "admin") eqn:E1;
      [apply String.eqb_eq in E1; split; [left; exact E1|eexists; reflexivity]|].
    destruct (String.eqb x "user") eqn:E2;
      [apply String.eqb_eq in E2; split; [right; exact E2|eexists; reflexivity]|].
    apply String.eqb_neq in E1, E2.
    split; [intros [? Hx]; discriminate|intros [?|?]; contradiction]. }
  destruct (roles role) as [permissions|] eqn:Hr.
  2:{ cbn [fst snd]. split; [|split; [reflexivity|discriminate]].
      split; [discriminate|]. intros [Hrole _].
      apply Hroles in Hrole as [x Hx]. congruence. }
  assert (Hrole : role = "admin" \/ role = "user")
    by (apply Hroles; eexists; exact Hr).
  destruct (users a !! username) as [u|] eqn:Hu; cbn [fst snd].
  { split; [|split; [reflexivity|discriminate]].
    split; [discriminate|]. intros [_ H]. discriminate. }
  split; [split; [intros _; split; [exact Hrole|reflexivity]|reflexivity]|].
  split; [discriminate|].
  intros _ session_token later. unfold login.
  cbn [users set_users]. rewrite lookup_insert_eq.
  cbn [user_password user_status user_role user_name].
  rewrite String.eqb_refl.
  change (String.eqb "active" "active") with true. cbn [negb].
  rewrite Hr. eexists _, _. split; [reflexivity|].
  repeat split; exact Hr.
Qed.

Lemma update_user_sessions a username up :
  sessions (snd (update_user _hash_password a username up)) = sessions a.
Proof. unfold update_user. destruct (users a !! username); reflexivity. Qed.

Lemma verify_session_users a1 a2 token later :
  sessions a1 = sessions a2 ->
  fst (verify_session a1 token later) = fst (verify_session a2 token later).
Proof.
  intros H. unfold verify_session. rewrite H.
  destruct (String.eqb token ""); [reflexivity|].
  destruct (sessions a2 !! token) as [s|]; [|reflexivity].
  destruct (later <? strptime (session_expires_at s)); reflexivity.
Qed.

(** X28. Closing an account does not close its sessions. After
    [change_user_status] has made a user inactive, [login] is refused for
    that user whatever the password, and after [delete_user] as well; after
    [reset_password], [login] is refused for every password whose hash
    differs from the new one's. But none of the three touches the
    sessions: a session opened before is returned by [verify_session]
    exactly as it would have been, with the permissions it was given at
    login. *)
Theorem closing_an_account_keeps_its_sessions
  (a : AuthManager) (username : string) :
  (forall a' : AuthManager,
      change_user_status _hash_password a username "inactive" = (true, a') ->
      sessions a' = sessions a
      /\ forall (password session_token : string) (now : Z),
           login _hash_password a' username password session_token now = (Ret None, a'))
  /\ (forall a' : AuthManager,
        delete_user a username = (true, a') ->
        sessions a' = sessions a
        /\ forall (password session_token : string) (now : Z),
             login _hash_password a' username password session_token now = (Ret None, a'))
  /\ (forall (new_password : string) (a' : AuthManager),
        reset_password _hash_password a username new_password = (true, a') ->
        sessions a' = sessions a
        /\ forall (password session_token : string) (now : Z),
             _hash_password password <> _hash_password new_password ->
             login _hash_password a' username password session_token now = (Ret None, a'))
  /\ (forall (a' : AuthManager) (token : string) (later : Z),
        sessions a' = sessions a ->
        fst (verify_session a' token later) = fst (verify_session a token later)).
Proof.
  split; [|split; [|split]].
  - intros a' H. unfold change_user_status in H.
    destruct (String.eqb username "admin"); [discriminate|].
    cbn [String.eqb Ascii.eqb Bool.eqb orb negb andb] in H.
    unfold update_user in H.
    destruct (users a !! username) as [u|]; [|discriminate].
    injection H as <-. split; [reflexivity|].
    intros password session_token now. unfold login.
    cbn [users set_users]. rewrite lookup_insert_eq.
    cbn [updated user_password user_status].
    destruct (String.eqb (user_password u) (_hash_password password));
      reflexivity.
  - intros a' H. unfold delete_user in H.
    destruct (String.eqb username "admin"); [discriminate|].
    destruct (users a !! username) as [u|]; [|discriminate].
    injection H as <-. split; [reflexivity|].
    intros password session_token now. unfold login.
    cbn [users set_users]. rewrite lookup_delete_eq. reflexivity.
  - intros new_password a' H. unfold reset_password, Auth.update_user in H.
    destruct (users a !! username) as [u|]; [|discriminate].
    injection H as <-. split; [reflexivity|].
    intros password session_token now Hne. unfold login.
    cbn [users set_users]. rewrite lookup_insert_eq.
    cbn [updated user_password].
    destruct (String.eqb (_hash_password new_password) (_hash_password password))
      eqn:E; [|reflexivity].
    apply String.eqb_eq in E. congruence.
  - intros a' token later H. apply verify_session_users, H.
Qed.

(** *** The main administrator *)

Lemma serve_admin (a : AuthManager) (rq : request) (now : Z) (u : User) :
  users a !! "admin" = Some u ->
  exists u', users (serve _hash_password a rq now) !! "admin" = Some u' /\ same_account u u'.
Proof.
  intros Hu.
  assert (Hsame : same_account u u) by (repeat split).
  assert (Hkeep : exists u', users a !! "admin" = Some u' /\ same_account u u')
    by (exists u; split; assumption).
  destruct rq as [username password token|token|token permission|token
                 |username password role name email|username|username status
                 |username new_password]; cbn [serve].
  - unfold login.
    destruct (users a !! username) as [u0|] eqn:H0; [|exact Hkeep].
    destruct (String.eqb (user_password u0) (_hash_password password));
      [|exact Hkeep].
    destruct (negb (String.eqb (user_status u0) "active")); [exact Hkeep|].
    assert (Hins : exists u',
               <[username := logged_in u0 now]> (users a) !! "admin" = Some u'
               /\ same_account u u').
    { destruct (String.eqb_spec username "admin") as [->|Hne].
      - rewrite lookup_insert_eq. exists (logged_in u0 now).
        split; [reflexivity|]. assert (u0 = u) by congruence. subst u0.
        repeat split.
      - rewrite lookup_insert_ne by exact Hne. exact Hkeep. }
    destruct (roles (user_role u0)); exact Hins.
  - unfold verify_session. destruct (String.eqb token ""); [exact Hkeep|].
    destruct (sessions a !! token) as [s|]; [|exact Hkeep].
    destruct (now <? strptime (session_expires_at s)); exact Hkeep.
  - unfold has_permission, verify_session.
    destruct (String.eqb token ""); [exact Hkeep|].
    destruct (sessions a !! token) as [s|]; [|exact Hkeep].
    destruct (now <? strptime (session_expires_at s)); exact Hkeep.
  - unfold logout. destruct (sessions a !! token); exact Hkeep.
  - unfold create_user. destruct (roles role); [|exact Hkeep].
    destruct (users a !! username) as [u0|] eqn:H0; [exact Hkeep|].
    cbn [snd users set_users].
    rewrite lookup_insert_ne by (intros ->; congruence). exact Hkeep.
  - unfold delete_user.
    destruct (String.eqb_spec username "admin") as [->|Hne]; [exact Hkeep|].
    destruct (users a !! username); [|exact Hkeep].
    cbn [snd users set_users]. rewrite lookup_delete_ne by exact Hne.
    exact Hkeep.
  - unfold change_user_status.
    destruct (String.eqb_spec username "admin") as [->|Hne]; [exact Hkeep|].
    destruct (negb _); [exact Hkeep|]. unfold update_user.
    destruct (users a !! username); [|exact Hkeep].
    cbn [snd users set_users]. rewrite lookup_insert_ne by exact Hne.
    exact Hkeep.
  - unfold reset_password, Auth.update_user.
    destruct (users a !! username) as [u0|] eqn:H0; [|exact Hkeep].
    cbn [snd users set_users].
    destruct (String.eqb_spec username "admin") as [->|Hne].
    + rewrite lookup_insert_eq. eexists. split; [reflexivity|].
      assert (u0 = u) by congruence. subst u0. repeat split.
    + rewrite lookup_insert_ne by exact Hne. exact Hkeep.
Qed.

Lemma serve_all_admin (rqs : list (request * Z)) :
  forall (a : AuthManager) (u : User),
    users a !! "admin" = Some u ->
    exists u', users (serve_all _hash_password a rqs) !! "admin" = Some u' /\ same_account u u'.
Proof.
  induction rqs as [|[rq now] rqs IH]; intros a u Hu.
  - exists u. split; [exact Hu|repeat split].
  - cbn [serve_all].
    destruct (serve_admin a rq now u Hu) as (u1 & Hu1 & H1).
    destruct (IH _ u1 Hu1) as (u2 & Hu2 & H2).
    exists u2. split; [exact Hu2|].
    destruct H1 as (A1 & A2 & A3 & A4 & A5), H2 as (B1 & B2 & B3 & B4 & B5).
    repeat split; congruence.
Qed.

(** X29. The account "admin" is permanent. Over every sequence of
    requests (logins, session checks, logouts, creating and deleting
    users, changing a status, resetting a password), the account "admin"
    of the freshly initialised files is still there, with the role
    "admin", the status "active", and the name, the e-mail address and the
    creation time it was given at the start: [delete_user] and
    [change_user_status] refuse it, and [create_user] cannot replace it.
    Only its password and last login can change. *)
Theorem admin_account_is_permanent (now : Z) (rqs : list (request * Z)) :
  exists u : User,
    users (serve_all _hash_password (_initialize_files _hash_password now) rqs) !! "admin"
    = Some u
    /\ user_role u = "admin"
    /\ user_status u = "active"
    /\ user_name u = "System Admin"
    /\ user_email u = "admin@example.com"
    /\ user_created_at u = strftime now
    /\ roles (user_role u) = Some ADMIN_PERMISSIONS
    /\ (forall a : AuthManager,
          delete_user a "admin" = (false, a)
          /\ forall status : string,
               change_user_status _hash_password a "admin" status = (false, a)).
Proof.
  destruct (serve_all_admin rqs (_initialize_files _hash_password now) _
              (lookup_singleton_eq _ _)) as (u & Hu & Hr & Hs & Hn & He & Hc).
  exists u. split; [exact Hu|]. cbn in Hr, Hs, Hn, He, Hc.
  split; [exact Hr|]. split; [exact Hs|]. split; [exact Hn|].
  split; [exact He|]. split; [exact Hc|]. split; [rewrite Hr; reflexivity|].
  intros a. split; reflexivity.
Qed.

(** X30. [logout]. For a token that names a session it returns true, and
    afterwards the token names none: [verify_session] returns nothing and
    [has_permission] answers false at every instant, and a second logout
    returns false; the users and the other sessions are untouched. For a
    token that names no session it returns false and changes nothing. *)
Theorem logout_ends_the_session (a : AuthManager) (token : string) :
  let r := logout a token in
  match sessions a !! token with
  | None => r = (false, a)
  | Some _ =>
      fst r = true
      /\ users (snd r) = users a
      /\ (forall other : string,
            other <> token ->
            sessions (snd r) !! other = sessions a !! other)
      /\ (forall later : Z, verify_session (snd r) token later = (None, snd r))
      /\ (forall (permission : string) (later : Z),
            has_permission (snd r) token permission later = (false, snd r))
      /\ logout (snd r) token = (false, snd r)
  end.
Proof.
  intros r. subst r. unfold logout.
  destruct (sessions a !! token) as [s|] eqn:Hs; [|reflexivity].
  cbn [fst snd users sessions set_sessions].
  assert (Hv : forall later,
             verify_session (set_sessions a (delete token (sessions a))) token later
             = (None, set_sessions a (delete token (sessions a)))).
  { intros later. unfold verify_session. cbn [sessions set_sessions].
    rewrite lookup_delete_eq. destruct (String.eqb token ""); reflexivity. }
  split; [reflexivity|]. split; [reflexivity|]. split.
  { intros other Hne. apply lookup_delete_ne. congruence. }
  split; [exact Hv|]. split.
  { intros permission later. unfold has_permission. rewrite Hv. reflexivity. }
  rewrite lookup_delete_eq. reflexivity.
Qed.

End WithHash.

(** *** The first day of the accounts *)

Lemma session_lasts_a_day_witness :
  login digest genesis "admin" "admin123" "token-1" (dawn + hour)
  = (Ret (Some ("token-1", admin_session)), after_login)
  /\ "token-1" <> ""
  /\ (exists (u : User) (permissions : list string),
        users genesis !! "admin" = Some u
        /\ user_password u = digest "admin123"
        /\ user_status u = "active"
        /\ roles (user_role u) = Some permissions
        /\ admin_session
           = {| session_username := "admin";
                session_role := user_role u;
                session_name := user_name u;
                session_permissions := permissions;
                session_created_at := strftime (dawn + hour);
                session_expires_at := strftime (dawn + hour + DAY) |})
  /\ dawn + 2 * hour <= dawn + hour + DAY - US_PER_SECOND
  /\ verify_session after_login "token-1" (dawn + 2 * hour)
     = (Some admin_session, after_login)
  /\ has_permission after_login "token-1" "manage_users" (dawn + 2 * hour)
     = (true, after_login)
  /\ has_permission after_login "token-1" "mark_attendance" (dawn + 2 * hour)
     = (false, after_login)
  /\ dawn + hour + DAY <= dawn + hour + DAY
  /\ verify_session after_login "token-1" (dawn + hour + DAY)
     = (None, set_sessions after_login (delete "token-1" (sessions after_login))).
Proof.
  assert (H : login digest genesis "admin" "admin123" "token-1" (dawn + hour)
              = (Ret (Some ("token-1", admin_session)), after_login))
    by (vm_compute; reflexivity).
  assert (Ht : "token-1" <> "") by discriminate.
  assert (H1 : dawn + 2 * hour <= dawn + hour + DAY - US_PER_SECOND)
    by (vm_compute; discriminate).
  assert (H2 : dawn + hour + DAY <= dawn + hour + DAY) by apply Z.le_refl.
  destruct (session_lasts_a_day digest genesis after_login "admin" "admin123"
              "token-1" admin_session (dawn + hour) (dawn + 2 * hour) H Ht)
    as (Hacc & Hvalid & _).
  destruct (session_lasts_a_day digest genesis after_login "admin" "admin123"
              "token-1" admin_session (dawn + hour) (dawn + hour + DAY) H Ht)
    as (_ & _ & Hexpired).
  split; [exact H|]. split; [exact Ht|]. split; [exact Hacc|].
  split; [exact H1|].
  split; [exact (proj1 (Hvalid H1))|].
  split; [exact (proj2 (Hvalid H1) "manage_users")|].
  split; [exact (proj2 (Hvalid H1) "mark_attendance")|].
  split; [exact H2|]. exact (proj1 (Hexpired H2)).
Defined.

Lemma new_account_can_log_in_witness :
  fst (create_user digest after_login "bob" "s3cret" "user" "Bob"
         "bob@example.com" (dawn + hour)) = true
  /\ ("user" = "admin" \/ "user" = "user")
  /\ users after_login !! "bob" = None
  /\ (exists (s : Session) (a' : AuthManager),
         login digest with_bob "bob" "s3cret" "token-2" (dawn + 2 * hour)
         = (Ret (Some ("token-2", s)), a')
         /\ session_username s = "bob"
         /\ session_name s = "Bob"
         /\ session_role s = "user"
         /\ roles "user" = Some (session_permissions s))
  /\ fst (create_user digest after_login "admin" "x" "user" "Eve" "eve@example.com"
            (dawn + hour)) = false
  /\ snd (create_user digest after_login "admin" "x" "user" "Eve" "eve@example.com"
            (dawn + hour)) = after_login.
Proof.
  destruct (new_account_can_log_in digest after_login "bob" "s3cret" "user" "Bob"
              "bob@example.com" (dawn + hour)) as (Hiff & _ & Hlogin).
  destruct (new_account_can_log_in digest after_login "admin" "x" "user" "Eve"
              "eve@example.com" (dawn + hour)) as (_ & Hfalse & _).
  split; [reflexivity|].
  split; [exact (proj1 (proj1 Hiff eq_refl))|].
  split; [exact (proj2 (proj1 Hiff eq_refl))|].
  split; [exact (Hlogin eq_refl "token-2" (dawn + 2 * hour))|].
  split; [reflexivity|exact (Hfalse eq_refl)].
Defined.

Lemma closing_an_account_keeps_its_sessions_witness :
  fst (change_user_status digest with_bob "bob" "inactive") = true
  /\ sessions (snd (change_user_status digest with_bob "bob" "inactive"))
     = sessions with_bob
  /\ login digest (snd (change_user_status digest with_bob "bob" "inactive"))
       "bob" "s3cret" "token-3" (dawn + 2 * hour)
     = (Ret None, snd (change_user_status digest with_bob "bob" "inactive"))
  /\ fst (delete_user with_bob "bob") = true
  /\ login digest (snd (delete_user with_bob "bob"))
       "bob" "s3cret" "token-3" (dawn + 2 * hour)
     = (Ret None, snd (delete_user with_bob "bob"))
  /\ fst (reset_password digest with_bob "bob" "n3w") = true
  /\ digest "s3cret" <> digest "n3w"
  /\ login digest (snd (reset_password digest with_bob "bob" "n3w"))
       "bob" "s3cret" "token-3" (dawn + 2 * hour)
     = (Ret None, snd (reset_password digest with_bob "bob" "n3w"))
  /\ fst (verify_session (snd (delete_user with_bob "admin")) "token-1"
            (dawn + 2 * hour))
     = fst (verify_session with_bob "token-1" (dawn + 2 * hour)).
Proof.
  destruct (closing_an_account_keeps_its_sessions digest with_bob "bob")
    as (Hstatus & Hdelete & Hreset & Hverify).
  assert (H1 : change_user_status digest with_bob "bob" "inactive"
               = (true, snd (change_user_status digest with_bob "bob" "inactive")))
    by (vm_compute; reflexivity).
  assert (H2 : delete_user with_bob "bob" = (true, snd (delete_user with_bob "bob")))
    by (vm_compute; reflexivity).
  assert (H3 : reset_password digest with_bob "bob" "n3w"
               = (true, snd (reset_password digest with_bob "bob" "n3w")))
    by (vm_compute; reflexivity).
  assert (Hne : digest "s3cret" <> digest "n3w") by discriminate.
  split; [reflexivity|].
  split; [exact (proj1 (Hstatus _ H1))|].
  split; [exact (proj2 (Hstatus _ H1) "s3cret" "token-3" (dawn + 2 * hour))|].
  split; [reflexivity|].
  split; [exact (proj2 (Hdelete _ H2) "s3cret" "token-3" (dawn + 2 * hour))|].
  split; [reflexivity|]. split; [exact Hne|].
  split; [exact (proj2 (Hreset "n3w" _ H3) "s3cret" "token-3" (dawn + 2 * hour) Hne)|].
  exact (Hverify (snd (delete_user with_bob "admin")) "token-1" (dawn + 2 * hour)
           eq_refl).
Defined.

Lemma logout_ends_the_session_witness :
  sessions after_login !! "token-1" = Some admin_session
  /\ fst (logout after_login "token-1") = true
  /\ users (snd (logout after_login "token-1")) = users after_login
  /\ "token-9" <> "token-1"
  /\ sessions (snd (logout after_login "token-1")) !! "token-9"
     = sessions after_login !! "token-9"
  /\ verify_session (snd (logout after_login "token-1")) "token-1" (dawn + 2 * hour)
     = (None, snd (logout after_login "token-1"))
  /\ logout (snd (logout after_login "token-1")) "token-1"
     = (false, snd (logout after_login "token-1")).
Proof.
  pose proof (logout_ends_the_session after_login "token-1") as H.
  cbv zeta in H.
  change (sessions after_login !! "token-1") with (Some admin_session) in H.
  cbv iota in H.
  destruct H as (Hok & Husers & Hother & Hverify & _ & Hagain).
  assert (Hne : "token-9" <> "token-1") by discriminate.
  split; [reflexivity|]. split; [exact Hok|]. split; [exact Husers|].
  split; [exact Hne|]. split; [exact (Hother "token-9" Hne)|].
  split; [exact (Hverify (dawn + 2 * hour))|exact Hagain].
Defined.

End AuthProps.
